(** * TradingView snapshot worker: validation, storage keys, cleanup, statistics

    A shallow embedding of the domain services of the worker
    (chart-service, storage-service, image-service, the chart-img adapter
    and the POST /image/ route) together with the properties the
    specification states about them.

    Conventions of the embedding:
    - a JavaScript string is a [string]; every character is one code unit.
      The symbols, intervals and themes that reach the services are ASCII,
      and [toUpperCase] and the [/i] flag are modelled on ASCII letters;
    - a JavaScript number that the code uses as a count, a size or a pixel
      dimension is a [Z];
    - a [Date] is its time value (milliseconds since the epoch) or the
      invalid date;
    - a thrown value is a [Thrown]; a computation that may throw returns a
      [Result];
    - calls that leave the worker (the chart provider's HTTP endpoint, the
      object store) are answered by oracles and recorded in a trace of
      [Event]s, so that "no call was made" is a statement about the trace. *)

From stdpp Require Import base numbers list strings gmap pretty.
From Stdlib Require Import ZArith Ascii String Lia Sorted Permutation.

Local Open Scope Z_scope.

(** ** JavaScript strings and regular expressions *)

Module JS.

Definition char_code (c : ascii) : N := N_of_ascii c.

Definition in_range (lo hi : N) (c : ascii) : bool :=
  ((lo <=? char_code c) && (char_code c <=? hi))%N.

(** [0-9], [A-Z], [a-z] *)
Definition is_digit : ascii -> bool := in_range 48 57.
Definition is_upper : ascii -> bool := in_range 65 90.
Definition is_lower : ascii -> bool := in_range 97 122.

(** [[a-zA-Z0-9]] *)
Definition is_alnum (c : ascii) : bool :=
  is_lower c || is_upper c || is_digit c.

Definition char_eqb (a b : ascii) : bool := (char_code a =? char_code b)%N.

(** [String.prototype.toUpperCase] on one ASCII character: code units
    below 128. The real method also changes code units from 128 up (it
    turns the sharp s into SS, for one); a string is taken through
    [toUpperCase] below either after a check that leaves only ASCII or under
    the assumption [is_ascii]. *)
Definition upper_char (c : ascii) : ascii :=
  if is_lower c then ascii_of_N (char_code c - 32) else c.

(** A code unit below 128. *)
Definition is_ascii_char (c : ascii) : bool := (char_code c <? 128)%N.

Fixpoint map_chars (f : ascii -> ascii) (s : string) : string :=
  match s with
  | EmptyString => EmptyString
  | String c s' => String (f c) (map_chars f s')
  end.

Definition toUpperCase (s : string) : string := map_chars upper_char s.

(** Canonicalisation of the [/i] flag: two characters match when their
    upper-case forms agree. *)
Definition ci_eqb (a b : ascii) : bool :=
  char_eqb (upper_char a) (upper_char b).

Fixpoint all_chars (p : ascii -> bool) (s : string) : bool :=
  match s with
  | EmptyString => true
  | String c s' => p c && all_chars p s'
  end.

Fixpoint exists_char (p : ascii -> bool) (s : string) : bool :=
  match s with
  | EmptyString => false
  | String c s' => p c || exists_char p s'
  end.

(** A JavaScript string is falsy exactly when it is empty. *)
Definition truthy (s : string) : bool :=
  match s with EmptyString => false | String _ _ => true end.

(** All code units of the string are below 128. *)
Definition is_ascii (s : string) : bool := all_chars is_ascii_char s.

(** [undefined], [null] and the empty string are falsy. *)
Definition truthy_opt (o : option string) : bool :=
  match o with Some s => truthy s | None => false end.

(** [s.startsWith(p)] with a character comparison [eqc]. *)
Fixpoint starts_with_by (eqc : ascii -> ascii -> bool) (p s : string) : bool :=
  match p, s with
  | EmptyString, _ => true
  | String _ _, EmptyString => false
  | String a p', String b s' => eqc a b && starts_with_by eqc p' s'
  end.

Definition starts_with : string -> string -> bool := starts_with_by char_eqb.

(** [s.includes(p)], and an unanchored literal pattern under [eqc]. *)
Fixpoint includes_by (eqc : ascii -> ascii -> bool) (p s : string) : bool :=
  starts_with_by eqc p s ||
  match s with
  | EmptyString => false
  | String _ s' => includes_by eqc p s'
  end.

Definition includes : string -> string -> bool := includes_by char_eqb.

(** [s.replace(/[class]/g, r)]: every character of the class is replaced
    by the character [r], the others are kept. *)
Definition replace_class_g (cls : ascii -> bool) (r : ascii) (s : string) : string :=
  map_chars (fun c => if cls c then r else c) s.

(** The longest prefix of [s] whose characters satisfy [p], and the rest. *)
Fixpoint span (p : ascii -> bool) (s : string) : string * string :=
  match s with
  | EmptyString => (EmptyString, EmptyString)
  | String c s' =>
      if p c then let '(a, b) := span p s' in (String c a, b)
      else (EmptyString, s)
  end.

(** [s.split(sep)] for a one-character separator described by [is_sep]
    (a literal character, or a character class as in [split(/[^A-Z]/)]). *)
Fixpoint split_by (is_sep : ascii -> bool) (s : string) : list string :=
  match s with
  | EmptyString => [EmptyString]
  | String c s' =>
      if is_sep c then EmptyString :: split_by is_sep s'
      else match split_by is_sep s' with
           | [] => [String c EmptyString]
           | w :: ws => String c w :: ws
           end
  end.

(** [s.replace(p, "")] with a literal pattern: the first occurrence of
    [p] is removed. *)
Fixpoint drop_chars (n : nat) (s : string) : string :=
  match n, s with
  | O, _ => s
  | S _, EmptyString => EmptyString
  | S n', String _ s' => drop_chars n' s'
  end.

Fixpoint remove_first (p s : string) : string :=
  if starts_with p s then drop_chars (String.length p) s
  else match s with
       | EmptyString => EmptyString
       | String c s' => String c (remove_first p s')
       end.

Definition is_underscore (c : ascii) : bool := char_eqb c "_".

(** [array.includes(x)] on an array of strings. *)
Definition array_includes (l : list string) (x : string) : bool :=
  existsb (String.eqb x) l.

(** [array.join(sep)] *)
Fixpoint join (sep : string) (l : list string) : string :=
  match l with
  | [] => EmptyString
  | [x] => x
  | x :: rest => x +:+ sep +:+ join sep rest
  end.

End JS.

(** ** Dates *)

Module JSDate.

(** A [Date] holds a time value in milliseconds since 1970-01-01T00:00Z,
    or is the invalid date (time value NaN). *)
Inductive Date : Type :=
| ValidDate (t : Z)
| InvalidDate.

Definition msPerDay : Z := 86400000.

(** Time values range over 100,000,000 days either side of the epoch. *)
Definition maxTime : Z := 8640000000000000.

(** [TimeClip]: a time value out of range makes the date invalid. *)
Definition TimeClip (t : Z) : Date :=
  if (Z.abs t <=? maxTime) then ValidDate t else InvalidDate.

(** [a < b] on two dates compares the time values; a comparison with the
    invalid date is false. *)
Definition date_lt (a b : Date) : bool :=
  match a, b with
  | ValidDate x, ValidDate y => x <? y
  | _, _ => false
  end.

(** [d.setDate(d.getDate() - n)] for a whole number of days [n], with UTC
    as the local time zone of the worker: the day number goes back by [n]
    and the time within the day is kept. *)
Definition minusDays (d : Date) (n : Z) : Date :=
  match d with
  | ValidDate t => TimeClip (t - n * msPerDay)
  | InvalidDate => InvalidDate
  end.

(** One decimal digit. *)
Definition digit_char (n : Z) : ascii := ascii_of_N (48 + Z.to_N (n mod 10)).

Definition pad2 (n : Z) : string :=
  String (digit_char (n / 10)) (String (digit_char n) EmptyString).

Definition pad3 (n : Z) : string :=
  String (digit_char (n / 100)) (pad2 n).

Definition pad4 (n : Z) : string :=
  String (digit_char (n / 1000)) (pad3 n).

Definition pad6 (n : Z) : string :=
  String (digit_char (n / 100000)) (String (digit_char (n / 10000)) (pad4 n)).

(** Years 0 to 9999 are written with four digits, the others with a sign
    and six digits. *)
Definition year_string (y : Z) : string :=
  if (0 <=? y) && (y <=? 9999) then pad4 y
  else if y <? 0 then String "-"%char (pad6 (- y))
  else String "+"%char (pad6 y).

(** Year, month and day of the (proleptic Gregorian) day number [z],
    counted from the epoch. *)
Definition civil_from_days (z : Z) : Z * Z * Z :=
  let z := z + 719468 in
  let era := z / 146097 in
  let doe := z - era * 146097 in
  let yoe := (doe - doe / 1460 + doe / 36524 - doe / 146096) / 365 in
  let doy := doe - (365 * yoe + yoe / 4 - yoe / 100) in
  let mp := (5 * doy + 2) / 153 in
  let d := doy - (153 * mp + 2) / 5 + 1 in
  let m := if mp <? 10 then mp + 3 else mp - 9 in
  let y := yoe + era * 400 + (if m <=? 2 then 1 else 0) in
  (y, m, d).

(** [Date.prototype.toISOString]: [YYYY-MM-DDTHH:mm:ss.sssZ]; a
    [RangeError] ([None]) on the invalid date. *)
Definition toISOString (d : Date) : option string :=
  match d with
  | InvalidDate => None
  | ValidDate t =>
      if Z.abs t <=? maxTime then
        let '(y, m, dd) := civil_from_days (t / msPerDay) in
        let r := t mod msPerDay in
        Some (year_string y +:+ "-" +:+ pad2 m +:+ "-" +:+ pad2 dd +:+ "T"
              +:+ pad2 (r / 3600000) +:+ ":" +:+ pad2 (r / 60000 mod 60) +:+ ":"
              +:+ pad2 (r / 1000 mod 60) +:+ "." +:+ pad3 (r mod 1000) +:+ "Z")
      else None
  end.

(** Reading back a string written by [toISOString]. *)
Definition digit_val (c : ascii) : option Z :=
  if JS.is_digit c then Some (Z.of_N (JS.char_code c) - 48) else None.

Fixpoint read_digits (n : nat) (acc : Z) (s : string) : option (Z * string) :=
  match n with
  | O => Some (acc, s)
  | S n' =>
      match s with
      | String c s' => d ← digit_val c; read_digits n' (10 * acc + d) s'
      | EmptyString => None
      end
  end.

Definition expect (c : ascii) (s : string) : option string :=
  match s with
  | String c' s' => if JS.char_eqb c c' then Some s' else None
  | EmptyString => None
  end.

Definition read_year (s : string) : option (Z * string) :=
  match s with
  | String c s' =>
      if JS.char_eqb c "+" then read_digits 6 0 s'
      else if JS.char_eqb c "-" then
        '(y, r) ← read_digits 6 0 s'; Some (- y, r)
      else read_digits 4 0 s
  | EmptyString => None
  end.

Definition days_from_civil (y m d : Z) : Z :=
  let y := if m <=? 2 then y - 1 else y in
  let era := y / 400 in
  let yoe := y - era * 400 in
  let doy := (153 * (if m >? 2 then m - 3 else m + 9) + 2) / 5 + d - 1 in
  let doe := yoe * 365 + yoe / 4 - yoe / 100 + doy in
  era * 146097 + doe - 719468.

(** [new Date(s)] for [s] in the format of [toISOString]; any other
    string is taken to give the invalid date. *)
Definition parse (s : string) : Date :=
  let parsed :=
    '(y, s) ← read_year s; s ← expect "-" s;
    '(m, s) ← read_digits 2 0 s; s ← expect "-" s;
    '(d, s) ← read_digits 2 0 s; s ← expect "T" s;
    '(hh, s) ← read_digits 2 0 s; s ← expect ":" s;
    '(mm, s) ← read_digits 2 0 s; s ← expect ":" s;
    '(ss, s) ← read_digits 2 0 s; s ← expect "." s;
    '(ms, s) ← read_digits 3 0 s; s ← expect "Z" s;
    if JS.truthy s then None
    else if (1 <=? m) && (m <=? 12) && (1 <=? d) && (d <=? 31)
            && (hh <=? 23) && (mm <=? 59) && (ss <=? 59)
    then Some (days_from_civil y m d * msPerDay
               + hh * 3600000 + mm * 60000 + ss * 1000 + ms)
    else None in
  match parsed with
  | Some t => TimeClip t
  | None => InvalidDate
  end.

End JSDate.

(** ** Thrown values and results *)

(** The error classes of the worker. [PlainError] is [Error] itself;
    [BuiltinRangeError] is the engine's [RangeError]. All of them extend
    [Error] directly, so [instanceof C] is equality of the class. *)
Inductive ErrorClass : Type :=
| PlainError
| BuiltinRangeError
| ChartImageValidationError
| ChartImageApiError (statusCode : Z)
| ChartValidationError
| ChartGenerationError
| StorageUploadError
| StorageListError
| StorageCleanupError
| ImageListError
| ImageStatisticsError.

(** What a [throw] can carry: an [Error] object of some class with its
    message, or any other value. The cause that some classes keep
    ([originalError]) is not recorded: nothing reads it. *)
Inductive Thrown : Type :=
| ThrownError (cls : ErrorClass) (message : string)
| ThrownValue (description : string).

Inductive Result (A : Type) : Type :=
| Ok (a : A)
| Throw (e : Thrown).

Arguments Ok {A} a.
Arguments Throw {A} e.

(** [error instanceof Error ? error.message : "Unknown error"] *)
Definition message_or_unknown (e : Thrown) : string :=
  match e with
  | ThrownError _ m => m
  | ThrownValue _ => "Unknown error"
  end.

(** ** Requests, external calls and the trace *)

(** [ChartSnapshotRequest] and [ChartImageRequest] have the same fields. *)
Record ChartRequest : Type := mkChartRequest {
  symbol : string;
  interval : string;
  width : Z;
  height : Z;
  theme : string
}.

(** The options the worker passes to the adapter. The provider's further
    optional parameters (indicators, drawings, zoom, ...) are never set by
    the services and are left out. *)
Record ChartImageOptions : Type := mkChartImageOptions {
  opt_timeout : option Z;
  opt_format : option string;
  opt_backgroundColor : option string;
  opt_timezone : option string;
  opt_locale : option string
}.

Record RequestBody : Type := mkRequestBody {
  body_symbol : string;
  body_interval : string;
  body_width : Z;
  body_height : Z;
  body_theme : string;
  body_format : string;
  body_backgroundColor : option string;
  body_timezone : option string;
  body_locale : option string
}.

(** The parsed body of a provider error response. *)
Inductive ErrorData : Type :=
| ErrFieldErrors (errs : list (string * string))   (* array of {param, msg} *)
| ErrMessage (message : string)                     (* object with a message *)
| ErrOther.

(** What [fetch] does for one call. *)
Inductive FetchOutcome : Type :=
| FetchOk (imageBuffer : list Byte.byte) (contentType : option string)
| FetchNotOk (status : Z) (statusText : string) (errorData : ErrorData)
| FetchAborted
| FetchFailed (e : Thrown).

(** An object of the store as the bucket reports it. *)
Record R2ObjectMetadata : Type := mkR2Object {
  key : string;
  size : Z;
  etag : string;
  uploaded : JSDate.Date;
  customMetadata : option (gmap string string)
}.

(** One answer of [bucket.list]. *)
Record BucketListResult : Type := mkBucketList {
  bl_objects : list R2ObjectMetadata;
  bl_truncated : bool;
  bl_cursor : option string
}.

(** Calls that leave the worker, in the order they are made. *)
Inductive Event : Type :=
| EvFetch (body : RequestBody) (timeoutMs : Z)
| EvPut (key : string) (bytes : list Byte.byte)
        (contentType cacheControl : string) (customMetadata : gmap string string)
| EvList (prefix : option string) (limit : Z) (cursor : option string)
| EvDelete (key : string)
| EvDeleteMany (keys : list string).

(** The collaborators of one request: the provider's answer to a call, the
    bucket's answer to a [put] ([None]: the put returns null), and the
    clock read by [new Date()]. *)
Record World : Type := mkWorld {
  fetch_reply : RequestBody -> Z -> FetchOutcome;
  put_reply : string -> list Byte.byte -> Result (option R2ObjectMetadata);
  now : JSDate.Date
}.

(** A computation that may throw and that records its external calls. *)
Definition M (A : Type) : Type := list Event -> Result A * list Event.

Definition ret {A} (a : A) : M A := fun tr => (Ok a, tr).

Definition throw {A} (e : Thrown) : M A := fun tr => (Throw e, tr).

Definition bind {A B} (m : M A) (k : A -> M B) : M B :=
  fun tr =>
    match m tr with
    | (Ok a, tr') => k a tr'
    | (Throw e, tr') => (Throw e, tr')
    end.

(** [try { m } catch (error) { h error }] *)
Definition try_catch {A} (m : M A) (h : Thrown -> M A) : M A :=
  fun tr =>
    match m tr with
    | (Ok a, tr') => (Ok a, tr')
    | (Throw e, tr') => h e tr'
    end.

Definition emit (e : Event) : M unit := fun tr => (Ok tt, tr ++ [e]).

(** A pure check that may throw. *)
Definition lift {A} (r : Result A) : M A := fun tr => (r, tr).

Definition run {A} (m : M A) : Result A * list Event := m [].

Declare Scope m_scope.
Delimit Scope m_scope with M.
Notation "x <- c ;; k" := (bind c (fun x => k))
  (at level 100, c at next level, right associativity) : m_scope.
Notation "c ;;; k" := (bind c (fun _ => k))
  (at level 100, right associativity) : m_scope.

(** Sequencing of pure checks. *)
Definition andThen {A B} (r : Result A) (k : A -> Result B) : Result B :=
  match r with
  | Ok a => k a
  | Throw e => Throw e
  end.

(** [if (cond) throw new cls(msg)] *)
Definition throw_if (cond : bool) (cls : ErrorClass) (msg : string) : Result unit :=
  if cond then Throw (ThrownError cls msg) else Ok tt.

Notation "'check' c 'orelse' k" := (andThen c (fun _ => k))
  (at level 100, c at next level, right associativity).

(** ** Constants (constants/dex-screener, solana tokens, exchanges) *)

Module Constants.

Definition maxSize_width : Z := 1600.
Definition maxSize_height : Z := 1200.
Definition timeout_default : Z := 20000.
Definition timeout_popular : Z := 15000.

(** [RESTRICTED_PATTERNS = [/^TEST:/i, /^DEMO:/i, /^FAKE:/i, /SCAM/i]],
    each as its test on a string. *)
Definition RESTRICTED_PATTERNS : list (string -> bool) :=
  [ JS.starts_with_by JS.ci_eqb "TEST:";
    JS.starts_with_by JS.ci_eqb "DEMO:";
    JS.starts_with_by JS.ci_eqb "FAKE:";
    JS.includes_by JS.ci_eqb "SCAM" ].

Definition isRestrictedSymbol (symbol : string) : bool :=
  existsb (fun pattern => pattern symbol) RESTRICTED_PATTERNS.

Definition getTimeoutForToken (symbol : string) : Z :=
  let popularTokens := ["SOL"; "BTC"; "ETH"; "USDC"; "USDT"; "JUP"; "RAY"]%string in
  if JS.array_includes popularTokens (JS.toUpperCase symbol)
  then timeout_popular
  else timeout_default.

(** The names of the exchanges marked [supported], in declaration order. *)
Definition SUPPORTED_SOLANA_EXCHANGES : list string :=
  ["DRIFT"; "RAYDIUM"; "JUPITER"; "MANGO"; "PHOENIX"]%string.

End Constants.

(** ** The chart provider adapter (libs/chart-img)

    The source file holds two revisions of the class; the later one, with
    the intervals "6h" and "12h" and the symbol characters [/] and [-], is
    the one embedded here. *)

Record ChartImageResult : Type := mkChartImageResult {
  imageBuffer : list Byte.byte;
  contentType : string;
  byteSize : Z
}.

(** [value || fallback] on an optional string and on an optional number. *)
Definition or_default (o : option string) (d : string) : string :=
  match o with
  | Some s => if JS.truthy s then s else d
  | None => d
  end.

Definition or_default_num (o : option Z) (d : Z) : Z :=
  match o with
  | Some n => if n =? 0 then d else n
  | None => d
  end.

(** A field that is copied only when it is truthy. *)
Definition keep_truthy (o : option string) : option string :=
  if JS.truthy_opt o then o else None.

Module ChartImageClient.

Definition defaultTimeout : Z := 30000.

(** [[A-Z0-9_]] under [/i] *)
Definition word_char (c : ascii) : bool :=
  JS.is_alnum c || JS.char_eqb c "_".

(** [[A-Z0-9_/-]] under [/i] *)
Definition pair_char (c : ascii) : bool :=
  word_char c || JS.char_eqb c "/" || JS.char_eqb c "-".

(** [[A-Z0-9_:./-]] under [/i] *)
Definition request_symbol_char (c : ascii) : bool :=
  pair_char c || JS.char_eqb c ":" || JS.char_eqb c ".".

(** [/^[A-Z0-9_:./-]+$/i.test(symbol)] *)
Definition request_symbol_pattern (s : string) : bool :=
  JS.truthy s && JS.all_chars request_symbol_char s.

Definition validIntervals : list string :=
  [ "1"; "3"; "5"; "15"; "30"; "45";
    "1H"; "2H"; "3H"; "4H"; "6H"; "8H"; "12H"; "6h"; "12h";
    "1D"; "2D"; "3D";
    "1W"; "1M" ]%string.

Definition isValidInterval (interval : string) : bool :=
  JS.array_includes validIntervals interval.

(** [validateRequest]. Width and height are integers in the embedding, so
    [Number.isInteger] holds and the range tests remain. *)
Definition validateRequest (request : ChartRequest) : Result unit :=
  check throw_if (negb (JS.truthy (symbol request)))
          ChartImageValidationError "Symbol is required" orelse
  check throw_if (negb (request_symbol_pattern (symbol request)))
          ChartImageValidationError "Invalid symbol format" orelse
  check throw_if (negb (JS.truthy (interval request)))
          ChartImageValidationError "Interval is required" orelse
  check throw_if (negb (isValidInterval (interval request)))
          ChartImageValidationError ("Invalid interval: " +:+ interval request) orelse
  check throw_if ((width request <? 100) || (width request >? 2000))
          ChartImageValidationError "Width must be an integer between 100 and 2000" orelse
  check throw_if ((height request <? 100) || (height request >? 2000))
          ChartImageValidationError "Height must be an integer between 100 and 2000" orelse
  throw_if (negb (JS.array_includes ["light"; "dark"]%string (theme request)))
          ChartImageValidationError "Theme must be 'light' or 'dark'".

(** [validateSymbolFormat]: [/^([A-Z0-9_]+):([A-Z0-9_/-]+)$/i]. The first
    group cannot contain a colon, so it is the run of word characters up
    to the first colon; [None] is [{isValid: false}]. *)
Definition validateSymbolFormat (symbol : string) : option (string * string) :=
  let '(exchange, rest) := JS.span word_char symbol in
  match rest with
  | String c pairPart =>
      if JS.char_eqb c ":" && JS.truthy exchange && JS.truthy pairPart
         && JS.all_chars pair_char pairPart
      then Some (exchange, pairPart)
      else None
  | EmptyString => None
  end.

Definition buildRequestBody (request : ChartRequest)
    (options : option ChartImageOptions) : RequestBody :=
  {| body_symbol := symbol request;
     body_interval := interval request;
     body_width := width request;
     body_height := height request;
     body_theme := theme request;
     body_format := or_default (options ≫= opt_format) "png";
     body_backgroundColor := keep_truthy (options ≫= opt_backgroundColor);
     body_timezone := keep_truthy (options ≫= opt_timezone);
     body_locale := keep_truthy (options ≫= opt_locale) |}.

(** [handleApiError]: always throws. *)
Definition handleApiError (status : Z) (statusText : string)
    (errorData : ErrorData) : Thrown :=
  let fallback :=
    ThrownError (ChartImageApiError status)
      ("Chart-IMG API error: " +:+ pretty status +:+ " " +:+ statusText) in
  match errorData with
  | ErrFieldErrors errs =>
      ThrownError (ChartImageApiError status)
        ("Validation error: " +:+
         JS.join ", " (map (fun err => fst err +:+ ": " +:+ snd err) errs))
  | ErrMessage m =>
      if JS.truthy m then ThrownError (ChartImageApiError status) m else fallback
  | ErrOther => fallback
  end.

Definition is_api_error (e : Thrown) : bool :=
  match e with
  | ThrownError (ChartImageApiError _) _ => true
  | _ => false
  end.

(** [makeApiRequest]: the one place where the provider is called. *)
Definition makeApiRequest (w : World) (requestBody : RequestBody)
    (timeout : option Z) : M (list Byte.byte * option string) :=
  (let timeoutMs := or_default_num timeout defaultTimeout in
   emit (EvFetch requestBody timeoutMs) ;;;
   match fetch_reply w requestBody timeoutMs with
   | FetchOk buf ct => ret (buf, ct)
   | FetchNotOk status statusText errorData =>
       throw (handleApiError status statusText errorData)
   | FetchAborted =>
       throw (ThrownError (ChartImageApiError 408)
                ("Request timeout after " +:+ pretty timeoutMs +:+ "ms"))
   | FetchFailed e => throw e
   end)%M.

Definition generateChartImage (w : World) (request : ChartRequest)
    (options : option ChartImageOptions) : M ChartImageResult :=
  (lift (validateRequest request) ;;;
   try_catch
     (let requestBody := buildRequestBody request options in
      response <- makeApiRequest w requestBody (options ≫= opt_timeout) ;;
      let imageBuffer := fst response in
      let contentType := or_default (snd response) "image/png" in
      ret {| imageBuffer := imageBuffer;
             contentType := contentType;
             byteSize := Z.of_nat (List.length imageBuffer) |})
     (fun error =>
        if is_api_error error then throw error
        else throw (ThrownError (ChartImageApiError 500)
                      ("Chart image generation failed: " +:+ message_or_unknown error))))%M.

End ChartImageClient.

(** ** The chart domain service (services/chart-service) *)

Record GenerationMetadata : Type := mkGenerationMetadata {
  md_symbol : string;
  md_interval : string;
  md_width : Z;
  md_height : Z;
  md_theme : string;
  md_generatedAt : JSDate.Date
}.

Record ChartGenerationResult : Type := mkChartGenerationResult {
  res_imageBuffer : list Byte.byte;
  res_contentType : string;
  res_size : Z;
  res_metadata : GenerationMetadata
}.

Module ChartService.

Import Constants.

Definition maxPixelCount : Z := maxSize_width * maxSize_height.

(** [maxPixelCount.toLocaleString()] for the constant above. *)
Definition maxPixelCount_text : string := "1,920,000".

(** [validateSolanaSymbol] *)
Definition validateSolanaSymbol (symbol : string) : Result unit :=
  let parts := JS.split_by (JS.char_eqb ":") symbol in
  let exchange := parts !! 0%nat in
  let pairPart := parts !! 1%nat in
  check throw_if (negb (JS.truthy_opt exchange) || negb (JS.truthy_opt pairPart))
          ChartValidationError
          ("Invalid symbol format: " +:+ symbol +:+ ". Expected format: EXCHANGE:PAIR") orelse
  throw_if (negb (JS.array_includes SUPPORTED_SOLANA_EXCHANGES
                    (JS.toUpperCase (default EmptyString exchange))))
    ChartValidationError
    ("Unsupported exchange: " +:+ default EmptyString exchange
     +:+ ". Supported exchanges: " +:+ JS.join ", " SUPPORTED_SOLANA_EXCHANGES).

(** The image-size rule of [validateBusinessRules]. *)
Definition checkPixelBudget (request : ChartRequest) : Result unit :=
  let pixelCount := width request * height request in
  throw_if (pixelCount >? maxPixelCount) ChartValidationError
    ("Image size is too large. Maximum pixel count is " +:+ maxPixelCount_text).

(** [validateBusinessRules] *)
Definition validateBusinessRules (request : ChartRequest) : Result unit :=
  check throw_if
          (negb (bool_decide (is_Some
             (ChartImageClient.validateSymbolFormat (symbol request)))))
          ChartValidationError
          ("Invalid symbol format: " +:+ symbol request +:+
           ". Expected format for Solana DEX: DRIFT:SOL-PERP, RAYDIUM:SOL/USDC, etc.") orelse
  check throw_if (isRestrictedSymbol (symbol request)) ChartValidationError
          ("Symbol " +:+ symbol request +:+ " is not supported") orelse
  check checkPixelBudget request orelse
  validateSolanaSymbol (symbol request).

(** [extractTokenFromSymbol] *)
Definition extractTokenFromSymbol (symbol : string) : string :=
  match JS.split_by (JS.char_eqb ":") symbol !! 1%nat with
  | None => "SOL"
  | Some pairPart =>
      if negb (JS.truthy pairPart) then "SOL"
      else if JS.includes "-PERP" pairPart then JS.remove_first "-PERP" pairPart
      else if JS.includes "/" pairPart then
        or_default (JS.split_by (JS.char_eqb "/") pairPart !! 0%nat) "SOL"
      else
        or_default (JS.split_by (fun c => negb (JS.is_upper c)) pairPart !! 0%nat) "SOL"
  end.

Definition mapToChartImageRequest (request : ChartRequest) : ChartRequest :=
  {| symbol := symbol request;
     interval := interval request;
     width := width request;
     height := height request;
     theme := theme request |}.

(** [createSnapshot]: the business rules, the conversion and the adapter
    call are all inside the [try]; the handler re-labels an adapter
    validation error and wraps everything else as a generation error. *)
Definition createSnapshot (w : World) (request : ChartRequest) : M ChartGenerationResult :=
  try_catch
    (lift (validateBusinessRules request) ;;;
     let chartRequest := mapToChartImageRequest request in
     chartResult <- ChartImageClient.generateChartImage w chartRequest
       (Some {| opt_timeout := Some (getTimeoutForToken (extractTokenFromSymbol (symbol request)));
                opt_format := Some "png"%string;
                opt_backgroundColor := None;
                opt_timezone := None;
                opt_locale := Some "en"%string |}) ;;
     ret {| res_imageBuffer := imageBuffer chartResult;
            res_contentType := contentType chartResult;
            res_size := byteSize chartResult;
            res_metadata :=
              {| md_symbol := symbol request;
                 md_interval := interval request;
                 md_width := width request;
                 md_height := height request;
                 md_theme := theme request;
                 md_generatedAt := now w |} |})%M
    (fun error =>
       match error with
       | ThrownError ChartImageValidationError message =>
           throw (ThrownError ChartValidationError message)
       | _ =>
           throw (ThrownError ChartGenerationError
                    ("Chart snapshot creation failed: " +:+ message_or_unknown error))
       end).

End ChartService.

(** ** The storage adapter (libs/r2) *)

Record R2UploadResult : Type := mkR2UploadResult {
  up_key : string;
  up_etag : string;
  up_size : Z;
  up_uploadedAt : JSDate.Date
}.

Record R2ListResult : Type := mkR2ListResult {
  lr_objects : list R2ObjectMetadata;
  lr_truncated : bool;
  lr_cursor : option string
}.

Module R2Client.

(** [uploadObject]: a null result of [put] and a rejection of [put] both
    surface as [Error("R2 upload failed: ...")]. *)
Definition uploadObject (w : World) (objectKey : string) (data : list Byte.byte)
    (contentType cacheControl : string) (customMetadata : gmap string string)
    : M R2UploadResult :=
  try_catch
    (emit (EvPut objectKey data contentType cacheControl customMetadata) ;;;
     result <- lift (put_reply w objectKey data) ;;
     match result with
     | None => throw (ThrownError PlainError "Failed to upload object to R2")
     | Some obj =>
         ret {| up_key := key obj;
                up_etag := etag obj;
                up_size := size obj;
                up_uploadedAt := uploaded obj |}
     end)%M
    (fun error =>
       throw (ThrownError PlainError
                ("R2 upload failed: " +:+ message_or_unknown error))).

(** The rejection of a bucket that is asked for a page it does not have. *)
Definition no_further_page : Thrown :=
  ThrownError PlainError "list: no further page".

(** [listObjects]. [answer] is what [bucket.list] answers to this call;
    [None] stands for a rejected call. The limit defaults to 1000 and the
    cursor is passed on only for a truncated page. *)
Definition listObjects (answer : option BucketListResult)
    (prefix : option string) (limit : option Z) (cursor : option string)
    : M R2ListResult :=
  try_catch
    (emit (EvList prefix (or_default_num limit 1000) cursor) ;;;
     match answer with
     | None => throw no_further_page
     | Some result =>
         ret {| lr_objects := bl_objects result;
                lr_truncated := bl_truncated result;
                lr_cursor := if bl_truncated result then bl_cursor result else None |}
     end)%M
    (fun error =>
       throw (ThrownError PlainError
                ("R2 list operation failed: " +:+ message_or_unknown error))).

(** [deleteObjects]: one bulk delete; the store accepts it. *)
Definition deleteObjects (keys : list string) : M unit :=
  emit (EvDeleteMany keys).

End R2Client.

(** ** The storage domain service (services/storage-service) *)

Record UploadMetadata : Type := mkUploadMetadata {
  um_interval : string;
  um_theme : string;
  um_width : Z;
  um_height : Z;
  um_generatedAt : JSDate.Date
}.

Record UploadResult : Type := mkUploadResult {
  fileName : string;
  publicUrl : string;
  uploadedAt : string;
  upload_size : Z;
  upload_etag : string
}.

Record StorageMetadata : Type := mkStorageMetadata {
  sm_symbol : string;
  sm_interval : string;
  sm_theme : string;
  sm_dimensions : string;
  sm_generatedAt : string
}.

Record ListedImage : Type := mkListedImage {
  li_fileName : string;
  li_publicUrl : string;
  li_size : Z;
  li_uploadedAt : string;
  li_metadata : option StorageMetadata
}.

Record ListedPage : Type := mkListedPage {
  lp_images : list ListedImage;
  lp_hasMore : bool;
  lp_nextCursor : option string
}.

Module StorageService.

(** [date.toISOString()] as a step that throws a [RangeError] on the
    invalid date. *)
Definition isoString (d : JSDate.Date) : Result string :=
  match JSDate.toISOString d with
  | Some s => Ok s
  | None => Throw (ThrownError BuiltinRangeError "Invalid time value")
  end.

(** [/[:.]/] and [/[^a-zA-Z0-9]/] *)
Definition colon_or_dot (c : ascii) : bool :=
  JS.char_eqb c ":" || JS.char_eqb c ".".

Definition not_alnum (c : ascii) : bool := negb (JS.is_alnum c).

(** [generateFileName] *)
Definition generateFileName (symbol : string) (metadata : UploadMetadata)
    : Result string :=
  andThen (isoString (um_generatedAt metadata)) (fun iso =>
    let timestamp := JS.replace_class_g colon_or_dot "-" iso in
    let cleanSymbol := JS.replace_class_g not_alnum "_" symbol in
    let dimensions := pretty (um_width metadata) +:+ "x" +:+ pretty (um_height metadata) in
    Ok ("charts/" +:+ timestamp +:+ "_" +:+ cleanSymbol +:+ "_"
        +:+ um_interval metadata +:+ "_" +:+ um_theme metadata +:+ "_"
        +:+ dimensions +:+ ".png")).

(** [getSymbolPrefix] *)
Definition getSymbolPrefix (symbol : string) : string :=
  let cleanSymbol := JS.replace_class_g not_alnum "_" symbol in
  "charts/" +:+ cleanSymbol.

(** [buildPublicUrl] *)
Definition buildPublicUrl (customDomain key : string) : string :=
  "https://" +:+ customDomain +:+ "/" +:+ key.

(** [buildStorageMetadata] *)
Definition buildStorageMetadata (symbol : string) (metadata : UploadMetadata)
    : Result (gmap string string) :=
  andThen (isoString (um_generatedAt metadata)) (fun iso =>
    Ok (<["symbol" := symbol]>
        (<["interval" := um_interval metadata]>
        (<["theme" := um_theme metadata]>
        (<["dimensions" := pretty (um_width metadata) +:+ "x" +:+ pretty (um_height metadata)]>
        (<["generatedAt" := iso]>
        (<["version" := "1.0"]> ∅))))))).

(** [parseStorageMetadata]: a field that is missing or empty is falsy. *)
Definition parseStorageMetadata (customMetadata : option (gmap string string))
    : option StorageMetadata :=
  match customMetadata with
  | None => None
  | Some cm =>
      let symbol := cm !! "symbol" in
      let interval := cm !! "interval" in
      let theme := cm !! "theme" in
      let dimensions := cm !! "dimensions" in
      let generatedAt := cm !! "generatedAt" in
      if negb (JS.truthy_opt symbol) || negb (JS.truthy_opt interval)
         || negb (JS.truthy_opt theme) || negb (JS.truthy_opt dimensions)
         || negb (JS.truthy_opt generatedAt)
      then None
      else Some {| sm_symbol := default EmptyString symbol;
                   sm_interval := default EmptyString interval;
                   sm_theme := default EmptyString theme;
                   sm_dimensions := default EmptyString dimensions;
                   sm_generatedAt := default EmptyString generatedAt |}
  end.

(** [uploadChartImage]: the key is derived before the [try]. *)
Definition uploadChartImage (w : World) (customDomain : string)
    (imageBuffer : list Byte.byte) (symbol : string) (metadata : UploadMetadata)
    : M UploadResult :=
  (fileName <- lift (generateFileName symbol metadata) ;;
   try_catch
     (storageMetadata <- lift (buildStorageMetadata symbol metadata) ;;
      uploadResult <- R2Client.uploadObject w fileName imageBuffer
                        "image/png" "public, max-age=3600" storageMetadata ;;
      uploadedAt <- lift (isoString (up_uploadedAt uploadResult)) ;;
      ret {| fileName := up_key uploadResult;
             publicUrl := buildPublicUrl customDomain (up_key uploadResult);
             uploadedAt := uploadedAt;
             upload_size := up_size uploadResult;
             upload_etag := up_etag uploadResult |})
     (fun error =>
        throw (ThrownError StorageUploadError
                 ("Failed to upload chart image: " +:+ message_or_unknown error))))%M.

(** [objects.map(obj => ...)], where [toISOString] may throw. *)
Fixpoint toListedImages (customDomain : string) (objs : list R2ObjectMetadata)
    : Result (list ListedImage) :=
  match objs with
  | [] => Ok []
  | obj :: rest =>
      andThen (isoString (uploaded obj)) (fun iso =>
      andThen (toListedImages customDomain rest) (fun imgs =>
        Ok ({| li_fileName := key obj;
               li_publicUrl := buildPublicUrl customDomain (key obj);
               li_size := size obj;
               li_uploadedAt := iso;
               li_metadata := parseStorageMetadata (customMetadata obj) |} :: imgs)))
  end.

(** [listChartImages] *)
Definition listChartImages (customDomain : string) (answer : option BucketListResult)
    (symbol : option string) (limit : option Z) (cursor : option string)
    : M ListedPage :=
  try_catch
    (let prefix := if JS.truthy_opt symbol
                   then Some (getSymbolPrefix (default EmptyString symbol))
                   else None in
     listResult <- R2Client.listObjects answer prefix
                     (Some (or_default_num limit 50)) cursor ;;
     images <- lift (toListedImages customDomain (lr_objects listResult)) ;;
     ret {| lp_images := images;
            lp_hasMore := lr_truncated listResult;
            lp_nextCursor := lr_cursor listResult |})%M
    (fun error =>
       throw (ThrownError StorageListError
                ("Failed to list chart images: " +:+ message_or_unknown error))).

(** The [do ... while (cursor)] loop of [cleanupOldImages]. [pages] are
    the answers the bucket gives to the successive list calls. *)
Fixpoint cleanupLoop (cutoffDate : JSDate.Date) (pages : list BucketListResult)
    (cursor : option string) (deletedCount : Z) : M Z :=
  match pages with
  | [] =>
      (_ <- R2Client.listObjects None None (Some 1000) cursor ;;
       ret deletedCount)%M
  | page :: later =>
      (listResult <- R2Client.listObjects (Some page) None (Some 1000) cursor ;;
       let oldImages :=
         List.filter (fun obj => JSDate.date_lt (uploaded obj) cutoffDate)
                (lr_objects listResult) in
       deletedCount <-
         (if 0 <? Z.of_nat (List.length oldImages) then
            let keysToDelete := map key oldImages in
            R2Client.deleteObjects keysToDelete ;;;
            ret (deletedCount + Z.of_nat (List.length oldImages))
          else ret deletedCount) ;;
       let cursor := lr_cursor listResult in
       if JS.truthy_opt cursor
       then cleanupLoop cutoffDate later cursor deletedCount
       else ret deletedCount)%M
  end.

(** [cleanupOldImages(olderThanDays = 30)] *)
Definition cleanupOldImages (w : World) (pages : list BucketListResult)
    (olderThanDays : option Z) : M Z :=
  let olderThanDays := default 30 olderThanDays in
  let cutoffDate := JSDate.minusDays (now w) olderThanDays in
  try_catch
    (cleanupLoop cutoffDate pages None 0)
    (fun error =>
       throw (ThrownError StorageCleanupError
                ("Failed to cleanup old images: " +:+ message_or_unknown error))).

End StorageService.

(** ** The image domain service (services/image-service) *)

Record ImageDetails : Type := mkImageDetails {
  img_fileName : string;
  img_size : Z;
  img_uploadedAt : string;
  img_publicUrl : string;
  img_metadata : option StorageMetadata;
  img_etag : string
}.

Inductive SortBy : Type :=
| ByUploadedAt
| BySymbol
| BySize
| ByOther (name : string).   (* an unchecked query value: the default branch *)

Inductive SortOrder : Type := Asc | Desc.

Record ImageListOptions : Type := mkImageListOptions {
  o_symbol : option string;
  o_limit : option Z;
  o_cursor : option string;
  o_sortBy : option SortBy;
  o_sortOrder : option SortOrder
}.

Record ImageList : Type := mkImageList {
  images : list ImageDetails;
  hasMore : bool;
  nextCursor : option string
}.

(** What a key of the plain objects byTheme and byInterval holds: a count,
    or the string that [+ 1] makes of a value that is not a number. The
    text of that string depends on how the engine prints a built-in
    function, and is left out. *)
Inductive Tally : Type :=
| Count (n : Z)
| Text.

(** The properties every plain object inherits from [Object.prototype]:
    reading one of them from an object without such a property of its own
    gives a function (for __proto__: the prototype object), not
    [undefined]. *)
Definition objectPrototypeMembers : list string :=
  [ "constructor"; "hasOwnProperty"; "isPrototypeOf"; "propertyIsEnumerable";
    "toLocaleString"; "toString"; "valueOf";
    "__defineGetter__"; "__defineSetter__"; "__lookupGetter__";
    "__lookupSetter__"; "__proto__" ]%string.

Record ImageStatistics : Type := mkImageStatistics {
  totalImages : Z;
  totalSize : Z;
  averageSize : Z;
  latestImage : option ImageDetails;
  oldestImage : option ImageDetails;
  byTheme : gmap string Tally;
  byInterval : gmap string Tally
}.

Module ImageService.

(** [Array.prototype.sort(compare)]: a stable sort; an element moves
    behind another one only when [compare] says it is greater. *)
Fixpoint insert_by {A} (compare : A -> A -> Z) (x : A) (l : list A) : list A :=
  match l with
  | [] => [x]
  | y :: l' =>
      if compare x y >? 0 then y :: insert_by compare x l'
      else x :: y :: l'
  end.

Fixpoint array_sort {A} (compare : A -> A -> Z) (l : list A) : list A :=
  match l with
  | [] => []
  | x :: l' => insert_by compare x (array_sort compare l')
  end.

(** [a.metadata?.symbol || ""] *)
Definition symbol_of (a : ImageDetails) : string :=
  match img_metadata a with
  | Some m => sm_symbol m
  | None => EmptyString
  end.

(** [aValue < bValue] for the chosen key; [None] in the default branch. *)
Definition value_lt (sortBy : SortBy) (a b : ImageDetails) : option bool :=
  match sortBy with
  | ByUploadedAt =>
      Some (JSDate.date_lt (JSDate.parse (img_uploadedAt a))
                           (JSDate.parse (img_uploadedAt b)))
  | BySymbol => Some (String.ltb (symbol_of a) (symbol_of b))
  | BySize => Some (img_size a <? img_size b)
  | ByOther _ => None
  end.

(** The comparison function of [sortImages]. *)
Definition compareImages (sortBy : SortBy) (sortOrder : SortOrder)
    (a b : ImageDetails) : Z :=
  match value_lt sortBy a b, value_lt sortBy b a with
  | Some a_lt_b, Some b_lt_a =>
      let comparison := if a_lt_b then -1 else if b_lt_a then 1 else 0 in
      match sortOrder with
      | Asc => comparison
      | Desc => - comparison
      end
  | _, _ => 0
  end.

(** [sortImages] *)
Definition sortImages (images : list ImageDetails) (sortBy : SortBy)
    (sortOrder : SortOrder) : list ImageDetails :=
  array_sort (compareImages sortBy sortOrder) images.

Definition toImageDetails (img : ListedImage) : ImageDetails :=
  {| img_fileName := li_fileName img;
     img_size := li_size img;
     img_uploadedAt := li_uploadedAt img;
     img_publicUrl := li_publicUrl img;
     img_metadata := li_metadata img;
     img_etag := EmptyString |}.

(** The sorting step of [getImageList]:
    [if (options.sortBy) images = sortImages(images, sortBy, sortOrder || "desc")]. *)
Definition applySort (images : list ImageDetails) (sortBy : option SortBy)
    (sortOrder : option SortOrder) : list ImageDetails :=
  match sortBy with
  | Some sb => sortImages images sb (default Desc sortOrder)
  | None => images
  end.

(** [getImageList] *)
Definition getImageList (customDomain : string) (answer : option BucketListResult)
    (options : ImageListOptions) : M ImageList :=
  try_catch
    (result <- StorageService.listChartImages customDomain answer
                 (o_symbol options) (Some (or_default_num (o_limit options) 20))
                 (o_cursor options) ;;
     let images := map toImageDetails (lp_images result) in
     let images := applySort images (o_sortBy options) (o_sortOrder options) in
     ret {| images := images;
            hasMore := lp_hasMore result;
            nextCursor := lp_nextCursor result |})%M
    (fun error =>
       throw (ThrownError ImageListError
                ("Failed to get image list: " +:+ message_or_unknown error))).

(** The [do ... while (cursor)] loop of [getImageStatistics]. *)
Fixpoint collectImages (customDomain : string) (pages : list BucketListResult)
    (symbol : option string) (cursor : option string)
    (allImages : list ImageDetails) : M (list ImageDetails) :=
  let options :=
    {| o_symbol := symbol; o_limit := Some 1000; o_cursor := cursor;
       o_sortBy := None; o_sortOrder := None |} in
  match pages with
  | [] =>
      (_ <- getImageList customDomain None options ;; ret allImages)%M
  | page :: later =>
      (result <- getImageList customDomain (Some page) options ;;
       let allImages := allImages ++ images result in
       let cursor := nextCursor result in
       if JS.truthy_opt cursor
       then collectImages customDomain later symbol cursor allImages
       else ret allImages)%M
  end.

(** [counts[k] = (counts[k] || 0) + 1] on a plain object. The map holds
    the object's own properties. A count goes up by one. For a key the
    object does not have, the read falls through to [Object.prototype]: a
    key that is no member of it reads [undefined] and becomes 1; a member
    reads a function or an object, which is truthy, so that [+ 1] gives a
    string, and the write stores that string; the write to __proto__ is
    the inherited setter, which ignores a string and stores nothing. A
    string is not empty, so it stays a string. *)
Definition bump (k : string) (counts : gmap string Tally) : gmap string Tally :=
  match counts !! k with
  | Some (Count n) => <[k := Count ((if n =? 0 then 0 else n) + 1)]> counts
  | Some Text => <[k := Text]> counts
  | None =>
      if String.eqb k "__proto__" then counts
      else if JS.array_includes objectPrototypeMembers k then <[k := Text]> counts
      else <[k := Count 1]> counts
  end.

Definition countBy (field : StorageMetadata -> string)
    (allImages : list ImageDetails) : gmap string Tally :=
  fold_left
    (fun counts img =>
       match img_metadata img with
       | Some m => bump (field m) counts
       | None => counts
       end)
    allImages ∅.

(** [new Date(b.uploadedAt).getTime() - new Date(a.uploadedAt).getTime()];
    a NaN difference counts as zero in a sort. *)
Definition compareNewestFirst (a b : ImageDetails) : Z :=
  match JSDate.parse (img_uploadedAt b), JSDate.parse (img_uploadedAt a) with
  | JSDate.ValidDate tb, JSDate.ValidDate ta => tb - ta
  | _, _ => 0
  end.

(** [Math.round(total / count)] for a positive count. *)
Definition roundedAverage (total count : Z) : Z :=
  (2 * total + count) / (2 * count).

Definition emptyStatistics : ImageStatistics :=
  {| totalImages := 0;
     totalSize := 0;
     averageSize := 0;
     latestImage := None;
     oldestImage := None;
     byTheme := ∅;
     byInterval := ∅ |}.

(** The computation of [getImageStatistics] once all images are read. *)
Definition statisticsOf (allImages : list ImageDetails) : ImageStatistics :=
  if Z.of_nat (List.length allImages) =? 0 then emptyStatistics
  else
    let totalSize := fold_left (fun sum img => sum + img_size img) allImages 0 in
    let averageSize := roundedAverage totalSize (Z.of_nat (List.length allImages)) in
    let sortedByDate := array_sort compareNewestFirst allImages in
    {| totalImages := Z.of_nat (List.length allImages);
       totalSize := totalSize;
       averageSize := averageSize;
       latestImage := sortedByDate !! 0%nat;
       oldestImage := sortedByDate !! (List.length sortedByDate - 1)%nat;
       byTheme := countBy sm_theme allImages;
       byInterval := countBy sm_interval allImages |}.

(** [getImageStatistics] *)
Definition getImageStatistics (customDomain : string) (pages : list BucketListResult)
    (symbol : option string) : M ImageStatistics :=
  try_catch
    (allImages <- collectImages customDomain pages symbol None [] ;;
     ret (statisticsOf allImages))%M
    (fun error =>
       throw (ThrownError ImageStatisticsError
                ("Failed to get image statistics: " +:+ message_or_unknown error))).

End ImageService.

(** ** The route POST /image/ (routes/image) *)

Record Bindings : Type := mkBindings {
  CHART_IMG_API_KEY : option string;
  TRADINGVIEW_BUCKET : bool;             (* is the bucket bound? *)
  CUSTOM_DOMAIN : option string
}.

Record ChartSnapshotOptions : Type := mkChartSnapshotOptions {
  so_symbol : option string;
  so_interval : option string;
  so_width : option Z;
  so_height : option Z;
  so_theme : option string
}.

Record SnapshotData : Type := mkSnapshotData {
  d_fileName : string;
  d_publicUrl : string;
  d_symbol : string;
  d_interval : string;
  d_width : Z;
  d_height : Z;
  d_theme : string;
  d_uploadedAt : string;
  d_size : Z;
  d_etag : string
}.

Inductive ResponseBody : Type :=
| SuccessBody (data : SnapshotData)      (* {success: true, data} *)
| FailureBody (error : string)           (* {success: false, error} *)
| ConfigErrorBody (error : string).      (* {error} *)

Record Response : Type := mkResponse {
  status : Z;
  body : ResponseBody
}.

Module ImageRoutes.

(** [validateEnvironment]: the response to send when a binding is
    missing, or the key and the domain to use. *)
Definition validateEnvironment (env : Bindings) : Response + (string * string) :=
  let customDomain := or_default (CUSTOM_DOMAIN env) "your-custom-domain.com" in
  if negb (JS.truthy_opt (CHART_IMG_API_KEY env)) then
    inl {| status := 500; body := ConfigErrorBody "API key not configured" |}
  else if negb (TRADINGVIEW_BUCKET env) then
    inl {| status := 500; body := ConfigErrorBody "Storage not configured" |}
  else inr (default EmptyString (CHART_IMG_API_KEY env), customDomain).

(** [createChartRequest] *)
Definition createChartRequest (options : ChartSnapshotOptions) : ChartRequest :=
  {| symbol := or_default (so_symbol options) "BINANCE:BTCUSDT";
     interval := or_default (so_interval options) "1D";
     width := or_default_num (so_width options) 800;
     height := or_default_num (so_height options) 600;
     theme := or_default (so_theme options) "dark" |}.

(** [handleError] *)
Definition handleError (error : Thrown) : string * Z :=
  match error with
  | ThrownError ChartValidationError message => (message, 400)
  | ThrownError ChartGenerationError message => (message, 502)
  | ThrownError StorageUploadError _ => ("Failed to store chart image"%string, 503)
  | ThrownError _ message => (message, 500)
  | ThrownValue _ => ("Unknown error"%string, 500)
  end.

(** The [try] block of the handler of POST /image/. [requestBody] is
    the outcome of reading the JSON body. *)
Definition snapshotAndStore (w : World) (env : Bindings)
    (requestBody : Result ChartSnapshotOptions) : M Response :=
  (body <- lift requestBody ;;
   let options :=
     {| so_symbol := Some (or_default (so_symbol body) "BINANCE:BTCUSDT");
        so_interval := Some (or_default (so_interval body) "1D");
        so_width := Some (or_default_num (so_width body) 800);
        so_height := Some (or_default_num (so_height body) 600);
        so_theme := Some (or_default (so_theme body) "dark") |} in
   match validateEnvironment env with
   | inl response => ret response
   | inr (apiKey, customDomain) =>
       let chartRequest := createChartRequest options in
       chartResult <- ChartService.createSnapshot w chartRequest ;;
       uploadResult <- StorageService.uploadChartImage w customDomain
         (res_imageBuffer chartResult) (symbol chartRequest)
         {| um_interval := interval chartRequest;
            um_theme := theme chartRequest;
            um_width := width chartRequest;
            um_height := height chartRequest;
            um_generatedAt := md_generatedAt (res_metadata chartResult) |} ;;
       ret {| status := 200;
              body := SuccessBody
                {| d_fileName := fileName uploadResult;
                   d_publicUrl := publicUrl uploadResult;
                   d_symbol := symbol chartRequest;
                   d_interval := interval chartRequest;
                   d_width := width chartRequest;
                   d_height := height chartRequest;
                   d_theme := theme chartRequest;
                   d_uploadedAt := uploadedAt uploadResult;
                   d_size := upload_size uploadResult;
                   d_etag := upload_etag uploadResult |} |}
   end)%M.

(** The [catch] block: the status and the message come from
    [handleError], the body is [{success: false, error}]. *)
Definition errorResponse (error : Thrown) : Response :=
  let '(errorMessage, statusCode) := handleError error in
  {| status := statusCode; body := FailureBody errorMessage |}.

(** The handler of POST /image/. *)
Definition postImage (w : World) (env : Bindings)
    (requestBody : Result ChartSnapshotOptions) : M Response :=
  try_catch (snapshotAndStore w env requestBody)
            (fun error => ret (errorResponse error)).

End ImageRoutes.

(** ** The storage key in the words of the specification *)

Module KeySpec.

(** [s] with every character that satisfies [bad] replaced by [r]. *)
Definition replace_every (bad : ascii -> bool) (r : ascii) (s : string) : string :=
  string_of_list_ascii
    (map (fun c => if bad c then r else c) (list_ascii_of_string s)).

Definition is_colon_or_dot (c : ascii) : bool :=
  bool_decide (c = ":"%char \/ c = "."%char).

(** A letter of either case or a decimal digit. *)
Definition alphanumeric (c : ascii) : bool :=
  let n := nat_of_ascii c in
  ((48 <=? n) && (n <=? 57) || (65 <=? n) && (n <=? 90)
   || (97 <=? n) && (n <=? 122))%nat.

(** charts/{timestamp}_{symbol}_{interval}_{theme}_{width}x{height}.png,
    for the ISO-8601 timestamp [iso]. *)
Definition key (iso symbol interval theme : string) (width height : Z) : string :=
  "charts/"
  +:+ replace_every is_colon_or_dot "-" iso
  +:+ "_" +:+ replace_every (fun c => negb (alphanumeric c)) "_" symbol
  +:+ "_" +:+ interval
  +:+ "_" +:+ theme
  +:+ "_" +:+ pretty width +:+ "x" +:+ pretty height
  +:+ ".png".

End KeySpec.

(** ** Sequences of list pages and what a trace says *)

(** A page announces a further page when it is truncated and carries a
    cursor that is not empty. *)
Definition hasNextPage (page : BucketListResult) : bool :=
  bl_truncated page && JS.truthy_opt (bl_cursor page).

(** The store presents its contents as a sequence of pages: every page but
    the last announces a further page, the last one does not. *)
Fixpoint pageSequence (pages : list BucketListResult) : bool :=
  match pages with
  | [] => false
  | [page] => negb (hasNextPage page)
  | page :: later => hasNextPage page && pageSequence later
  end.

Definition storedObjects (pages : list BucketListResult) : list R2ObjectMetadata :=
  flat_map bl_objects pages.

(** Uploaded strictly before the time value [cutoff]. *)
Definition uploadedBefore (cutoff : Z) (obj : R2ObjectMetadata) : bool :=
  JSDate.date_lt (uploaded obj) (JSDate.ValidDate cutoff).

(** The keys a trace deletes, and the page sizes it asks for. *)
Definition deletedKeys (tr : list Event) : list string :=
  flat_map (fun ev => match ev with
                      | EvDeleteMany keys => keys
                      | EvDelete k => [k]
                      | _ => []
                      end) tr.

Definition listLimits (tr : list Event) : list Z :=
  flat_map (fun ev => match ev with
                      | EvList _ limit _ => [limit]
                      | _ => []
                      end) tr.

(** The calls a cleanup with the given cutoff makes over a sequence of
    pages: one list call of 1000 per page, with the cursor of the page
    before, and one bulk delete for each page that holds old objects. *)
Fixpoint cleanupCalls (cutoff : Z) (pages : list BucketListResult)
    (cursor : option string) : list Event :=
  match pages with
  | [] => []
  | page :: later =>
      let old := List.filter (uploadedBefore cutoff) (bl_objects page) in
      EvList None 1000 cursor
      :: match old with
         | [] => []
         | _ :: _ => [EvDeleteMany (map key old)]
         end
      ++ cleanupCalls cutoff later (bl_cursor page)
  end.

(** The five custom-metadata fields that [parseStorageMetadata] reads. *)
Definition metadataFields : list string :=
  ["symbol"; "interval"; "theme"; "dimensions"; "generatedAt"]%string.

(** The order of sizes that a sort order asks for. *)
Definition sizeOrdered (order : SortOrder) (x y : ImageDetails) : Prop :=
  match order with
  | Asc => img_size x <= img_size y
  | Desc => img_size y <= img_size x
  end.

(** ** Sample collaborators used in the worked examples *)

Module Samples.

(** A provider that answers every call with an empty PNG and a bucket
    that stores every object under the key it is given, at
    2023-11-14T22:13:20.123Z. *)
Definition world : World :=
  {| fetch_reply := fun _ _ => FetchOk [] (Some "image/png"%string);
     put_reply := fun objectKey data =>
       Ok (Some {| key := objectKey;
                   size := Z.of_nat (List.length data);
                   etag := "etag-1";
                   uploaded := JSDate.ValidDate 1700000001000;
                   customMetadata := None |});
     now := JSDate.ValidDate 1700000000123 |}.

Definition bindings : Bindings :=
  {| CHART_IMG_API_KEY := Some "key"%string;
     TRADINGVIEW_BUCKET := true;
     CUSTOM_DOMAIN := Some "cdn.example.com"%string |}.

Definition request (symbol interval : string) (width height : Z) : ChartRequest :=
  {| symbol := symbol; interval := interval;
     width := width; height := height; theme := "dark" |}.

(** A store with one object uploaded 31 days before [now world] and one
    uploaded 1 day before, presented as a single page. *)
Definition uploadedDaysAgo (name : string) (days : Z) : R2ObjectMetadata :=
  {| key := name;
     size := 1000;
     etag := "etag";
     uploaded := JSDate.ValidDate (1700000000123 - days * JSDate.msPerDay);
     customMetadata := None |}.

Definition twoObjects : list BucketListResult :=
  [ {| bl_objects := [ uploadedDaysAgo "charts/old.png" 31;
                       uploadedDaysAgo "charts/new.png" 1 ];
       bl_truncated := false;
       bl_cursor := None |} ].

(** An empty store. *)
Definition noObjects : list BucketListResult :=
  [ {| bl_objects := []; bl_truncated := false; bl_cursor := None |} ].

(** Generation metadata of a dark 800 x 600 daily chart. *)
Definition uploadMetadata : UploadMetadata :=
  {| um_interval := "1D"; um_theme := "dark"; um_width := 800; um_height := 600;
     um_generatedAt := JSDate.ValidDate 1700000000123 |}.

(** A listed image of the given size. *)
Definition image (name : string) (size : Z) : ImageDetails :=
  {| img_fileName := name;
     img_size := size;
     img_uploadedAt := "2023-11-14T22:13:20.123Z";
     img_publicUrl := "https://cdn.example.com/" +:+ name;
     img_metadata := None;
     img_etag := "" |}.

(** The JSON body [{symbol}] *)
Definition bodyWithSymbol (symbol : string) : ChartSnapshotOptions :=
  {| so_symbol := Some symbol; so_interval := None;
     so_width := None; so_height := None; so_theme := None |}.

End Samples.

(** ** Further constants (constants/dex-screener, solana tokens) *)

(** One entry of [CHART_INTERVALS]; the display label is left out. *)
Record ChartIntervalEntry : Type := mkChartIntervalEntry {
  ci_value : string;
  ci_category : string;
  ci_dexScreener : string
}.

Definition CHART_INTERVALS : list ChartIntervalEntry :=
  [ mkChartIntervalEntry "1m" "minute" "1m";
    mkChartIntervalEntry "5m" "minute" "5m";
    mkChartIntervalEntry "15m" "minute" "15m";
    mkChartIntervalEntry "30m" "minute" "30m";
    mkChartIntervalEntry "1H" "hour" "1h";
    mkChartIntervalEntry "4H" "hour" "4h";
    mkChartIntervalEntry "1D" "day" "1d";
    mkChartIntervalEntry "1W" "week" "1w" ].

(** [ChartService.getSupportedIntervals], as the values it advertises. *)
Definition getSupportedIntervals : list string := map ci_value CHART_INTERVALS.

(** [getExchangeSymbol(baseToken, quoteToken = "USDC", exchange)] *)
Definition getExchangeSymbol (baseToken : string) (quoteToken : option string)
    (exchange : string) : string :=
  let quoteToken := default "USDC"%string quoteToken in
  let upper := JS.toUpperCase exchange in
  if String.eqb upper "DRIFT" then baseToken +:+ "-PERP"
  else if String.eqb upper "RAYDIUM" || String.eqb upper "JUPITER"
  then baseToken +:+ "/" +:+ quoteToken
  else exchange +:+ ":" +:+ baseToken +:+ quoteToken.

(** The options [createSnapshot] hands to the adapter for a symbol. *)
Definition snapshotOptions (symbol : string) : ChartImageOptions :=
  {| opt_timeout := Some (Constants.getTimeoutForToken
                            (ChartService.extractTokenFromSymbol symbol));
     opt_format := Some "png"%string;
     opt_backgroundColor := None;
     opt_timezone := None;
     opt_locale := Some "en"%string |}.

(** The call [createSnapshot] makes for a request that passed validation. *)
Definition snapshotCall (request : ChartRequest) : Event :=
  EvFetch (ChartImageClient.buildRequestBody request
             (Some (snapshotOptions (symbol request))))
          (Constants.getTimeoutForToken
             (ChartService.extractTokenFromSymbol (symbol request))).

(** ** The logger (utils/logger) *)

Module Logger.

Inductive LogLevel : Type := ERROR | WARN | INFO | DEBUG | LOG.

(** The string value of a level, [Object.values(LogLevel)]. *)
Definition level_name (l : LogLevel) : string :=
  match l with
  | ERROR => "ERROR" | WARN => "WARN" | INFO => "INFO"
  | DEBUG => "DEBUG" | LOG => "LOG"
  end.

Definition levels : list LogLevel := [ERROR; WARN; INFO; DEBUG; LOG].

(** [LOG_LEVEL_PRIORITY] *)
Definition LOG_LEVEL_PRIORITY (l : LogLevel) : Z :=
  match l with
  | ERROR => 0 | WARN => 1 | LOG => 2 | INFO => 3 | DEBUG => 4
  end.

(** [getCurrentLogLevel], from the value of the variable LOG_LEVEL. *)
Definition getCurrentLogLevel (LOG_LEVEL : option string) : LogLevel :=
  let envLevel := JS.toUpperCase <$> LOG_LEVEL in
  match envLevel with
  | Some name =>
      if JS.truthy name then
        default INFO (List.find (fun l => String.eqb (level_name l) name) levels)
      else INFO
  | None => INFO
  end.

(** [shouldLog] *)
Definition shouldLog (LOG_LEVEL : option string) (level : LogLevel) : bool :=
  let currentLevel := getCurrentLogLevel LOG_LEVEL in
  LOG_LEVEL_PRIORITY level <=? LOG_LEVEL_PRIORITY currentLevel.

End Logger.

(** ** Reading and deleting single objects *)

(** The error classes of the services below; with those of [ErrorClass]
    they are all the classes the worker defines. *)
Inductive ServiceErrorClass : Type :=
| StorageGetError
| StorageDeleteError
| ImageDetailsError
| ImageDeleteError
| ImageCleanupError.

(** What these services throw: a value of the kinds above, or one of their
    own errors. *)
Inductive Failure : Type :=
| Raised (e : Thrown)
| ServiceError (cls : ServiceErrorClass) (message : string).

(** [error instanceof Error ? error.message : "Unknown error"] *)
Definition failure_message (f : Failure) : string :=
  match f with
  | Raised e => message_or_unknown e
  | ServiceError _ m => m
  end.

Inductive Outcome (A : Type) : Type :=
| Done (a : A)
| Failed (f : Failure).

Arguments Done {A} a.
Arguments Failed {A} f.

(** [try { m } catch (error) { throw new cls(`${prefix}${message}`) }] *)
Definition wrapThrown {A} (cls : ServiceErrorClass) (prefix : string)
    (r : Result A) : Outcome A :=
  match r with
  | Ok a => Done a
  | Throw e => Failed (ServiceError cls (prefix +:+ message_or_unknown e))
  end.

Definition wrapFailure {A} (cls : ServiceErrorClass) (prefix : string)
    (r : Outcome A) : Outcome A :=
  match r with
  | Done a => Done a
  | Failed f => Failed (ServiceError cls (prefix +:+ failure_message f))
  end.

(** An object as [bucket.get] returns it. *)
Record BucketObject : Type := mkBucketObject {
  bo_body : list Byte.byte;
  bo_meta : R2ObjectMetadata;
  bo_contentType : option string          (* httpMetadata?.contentType *)
}.

(** The metadata [getChartImage] returns with the body. *)
Record ChartImageView : Type := mkChartImageView {
  cv_body : list Byte.byte;
  cv_fileName : string;
  cv_size : Z;
  cv_contentType : string;
  cv_uploadedAt : string;
  cv_storageMetadata : option StorageMetadata
}.

Module R2ClientOps.

(** [getObject]. [answer] is what [bucket.get] answers: an object, null, or
    a rejection. Reads are not recorded in the trace. *)
Definition getObject (answer : Result (option BucketObject))
    : Result (option BucketObject) :=
  match answer with
  | Ok object => Ok object
  | Throw error =>
      Throw (ThrownError PlainError
               ("R2 get operation failed: " +:+ message_or_unknown error))
  end.

(** [deleteObject]. [answer] is what [bucket.delete] answers. *)
Definition deleteObject (answer : Result unit) (objectKey : string) : M unit :=
  try_catch
    (emit (EvDelete objectKey) ;;; lift answer)%M
    (fun error =>
       throw (ThrownError PlainError
                ("R2 delete operation failed: " +:+ message_or_unknown error))).

End R2ClientOps.

Module StorageOps.

(** [StorageService.getChartImage] *)
Definition getChartImage (answer : Result (option BucketObject))
    : Outcome (option ChartImageView) :=
  wrapThrown StorageGetError "Failed to get chart image: "
    (andThen (R2ClientOps.getObject answer) (fun result =>
       match result with
       | None => Ok None
       | Some object =>
           andThen (StorageService.isoString (uploaded (bo_meta object)))
             (fun uploadedAt =>
                Ok (Some {| cv_body := bo_body object;
                            cv_fileName := key (bo_meta object);
                            cv_size := size (bo_meta object);
                            cv_contentType :=
                              or_default (bo_contentType object) "image/png";
                            cv_uploadedAt := uploadedAt;
                            cv_storageMetadata :=
                              StorageService.parseStorageMetadata
                                (customMetadata (bo_meta object)) |}))
       end)).

(** [StorageService.deleteChartImage] *)
Definition deleteChartImage (answer : Result unit) (fileName : string)
    (tr : list Event) : Outcome unit * list Event :=
  let '(r, tr') := R2ClientOps.deleteObject answer fileName tr in
  (wrapThrown StorageDeleteError "Failed to delete chart image: " r, tr').

End StorageOps.

Module ImageOps.

(** [ImageService.getImageDetails] *)
Definition getImageDetails (answer : Result (option BucketObject))
    : Outcome (option ImageDetails) :=
  wrapFailure ImageDetailsError "Failed to get image details: "
    match StorageOps.getChartImage answer with
    | Failed f => Failed f
    | Done None => Done None
    | Done (Some result) =>
        Done (Some {| img_fileName := cv_fileName result;
                      img_size := cv_size result;
                      img_uploadedAt := cv_uploadedAt result;
                      img_publicUrl :=
                        "https://your-custom-domain.com/" +:+ cv_fileName result;
                      img_metadata := cv_storageMetadata result;
                      img_etag := "" |})
    end.

(** [ImageService.deleteImage] *)
Definition deleteImage (answer : Result unit) (fileName : string)
    (tr : list Event) : Outcome unit * list Event :=
  let '(r, tr') := StorageOps.deleteChartImage answer fileName tr in
  (wrapFailure ImageDeleteError "Failed to delete image: " r, tr').

(** [ImageService.cleanupOldImages(olderThanDays = 30)] *)
Definition cleanupOldImages (w : World) (pages : list BucketListResult)
    (olderThanDays : option Z) (tr : list Event) : Outcome Z * list Event :=
  let olderThanDays := default 30 olderThanDays in
  let '(r, tr') := StorageService.cleanupOldImages w pages (Some olderThanDays) tr in
  (wrapThrown ImageCleanupError "Failed to cleanup old images: " r, tr').

End ImageOps.

(** ** The routes DELETE /image/:fileName and POST /image/cleanup *)

Inductive ApiBody : Type :=
| ApiMessage (message : string)                 (* {success: true, message} *)
| ApiCleanup (deletedCount olderThanDays : Z) (message : string)
                                                (* {success: true, data} *)
| ApiFailure (error : string)                   (* {success: false, error} *)
| ApiConfigError (error : string).              (* {error} *)

Record ApiResponse : Type := mkApiResponse {
  api_status : Z;
  api_body : ApiBody
}.

Module MoreRoutes.

Definition storageNotConfigured : ApiResponse :=
  {| api_status := 500; api_body := ApiConfigError "Storage not configured" |}.

(** The handler of DELETE /image/:fileName *)
Definition deleteRoute (env : Bindings) (answer : Result unit) (fileName : string)
    (tr : list Event) : ApiResponse * list Event :=
  if negb (TRADINGVIEW_BUCKET env) then (storageNotConfigured, tr)
  else
    match ImageOps.deleteImage answer fileName tr with
    | (Done _, tr') =>
        ({| api_status := 200;
            api_body := ApiMessage ("Image " +:+ fileName +:+ " deleted successfully") |},
         tr')
    | (Failed error, tr') =>
        ({| api_status := 500; api_body := ApiFailure (failure_message error) |}, tr')
    end.

(** The handler of POST /image/cleanup, for a body whose field
    olderThanDays is absent or an integer number. [requestBody] is the
    outcome of [c.req.json()] reduced to that field; a body that cannot be
    read counts as the empty object. The route does not check the field:
    a negative number is passed on as it is, and the other JSON values it
    would also pass on (strings, fractions, booleans) are not covered
    here, as the days of [cleanupOldImages] are whole numbers. *)
Definition cleanupRoute (w : World) (env : Bindings) (pages : list BucketListResult)
    (requestBody : Result (option Z)) (tr : list Event)
    : ApiResponse * list Event :=
  let body := match requestBody with Ok b => b | Throw _ => None end in
  let olderThanDays := or_default_num body 30 in
  if negb (TRADINGVIEW_BUCKET env) then (storageNotConfigured, tr)
  else
    match ImageOps.cleanupOldImages w pages (Some olderThanDays) tr with
    | (Done deletedCount, tr') =>
        ({| api_status := 200;
            api_body := ApiCleanup deletedCount olderThanDays
                          ("Deleted " +:+ pretty deletedCount
                           +:+ " images older than " +:+ pretty olderThanDays
                           +:+ " days") |},
         tr')
    | (Failed error, tr') =>
        ({| api_status := 500; api_body := ApiFailure (failure_message error) |}, tr')
    end.

End MoreRoutes.

(** ** Further readings of a trace and sample data *)

(** The keys a trace puts. *)
Definition putKeys (tr : list Event) : list string :=
  flat_map (fun ev => match ev with
                      | EvPut k _ _ _ _ => [k]
                      | _ => []
                      end) tr.



Definition sumSizes (sizes : list Z) : Z := fold_right Z.add 0 sizes.


(** The list calls [getImageStatistics] makes over a sequence of pages. *)
Fixpoint statisticsCalls (prefix : option string) (pages : list BucketListResult)
    (cursor : option string) : list Event :=
  match pages with
  | [] => []
  | page :: later =>
      EvList prefix 1000 cursor :: statisticsCalls prefix later (bl_cursor page)
  end.

Module MoreSamples.

(** A world whose bucket rejects every put. *)
Definition fullBucket : World :=
  {| fetch_reply := fun _ _ => FetchOk [] (Some "image/png"%string);
     put_reply := fun _ _ => Throw (ThrownError PlainError "bucket is full");
     now := JSDate.ValidDate 1700000000123 |}.

(** A world whose provider answers 429. *)
Definition busyProvider : World :=
  {| fetch_reply := fun _ _ => FetchNotOk 429 "Too Many Requests"
                                 (ErrMessage "Rate limit exceeded");
     put_reply := put_reply Samples.world;
     now := JSDate.ValidDate 1700000000123 |}.

Definition noBucket : Bindings :=
  {| CHART_IMG_API_KEY := Some "key"%string;
     TRADINGVIEW_BUCKET := false;
     CUSTOM_DOMAIN := None |}.

Definition storedChart : BucketObject :=
  {| bo_body := [];
     bo_meta := {| key := "charts/a.png"; size := 10; etag := "e";
                   uploaded := JSDate.ValidDate 1700000000123;
                   customMetadata := None |};
     bo_contentType := None |}.

(** Two pages, each announcing a further one: the store then stops
    answering. *)
Definition endlessPages : list BucketListResult :=
  [ {| bl_objects := [ Samples.uploadedDaysAgo "charts/old.png" 31 ];
       bl_truncated := true; bl_cursor := Some "c1"%string |};
    {| bl_objects := [ Samples.uploadedDaysAgo "charts/new.png" 1 ];
       bl_truncated := true; bl_cursor := Some "c2"%string |} ].

Definition withMetadata (name theme interval : string) (size : Z) : ImageDetails :=
  {| img_fileName := name;
     img_size := size;
     img_uploadedAt := "2023-11-14T22:13:20.123Z";
     img_publicUrl := "https://cdn.example.com/" +:+ name;
     img_metadata := Some {| sm_symbol := "DRIFT:SOL-PERP"; sm_interval := interval;
                             sm_theme := theme; sm_dimensions := "800x600";
                             sm_generatedAt := "2023-11-14T22:13:20.123Z" |};
     img_etag := "" |}.

End MoreSamples.

(** * Properties *)

(** ** Running computations *)

Lemma run_lift_throw {A B} (r : Result A) (k : A -> M B) e tr :
  r = Throw e -> bind (lift r) k tr = (Throw e, tr).
Proof. intros ->. reflexivity. Qed.

Lemma run_lift_ok {A B} (r : Result A) (k : A -> M B) a tr :
  r = Ok a -> bind (lift r) k tr = k a tr.
Proof. intros ->. reflexivity. Qed.

Lemma try_catch_throw {A} (m : M A) h e tr tr' :
  m tr = (Throw e, tr') -> try_catch m h tr = h e tr'.
Proof. unfold try_catch. intros ->. reflexivity. Qed.

Lemma try_catch_ok {A} (m : M A) h a tr tr' :
  m tr = (Ok a, tr') -> try_catch m h tr = (Ok a, tr').
Proof. unfold try_catch. intros ->. reflexivity. Qed.

(** ** Sanity checks of the embedding on concrete inputs *)

Example toISOString_epoch :
  JSDate.toISOString (JSDate.ValidDate 0) = Some "1970-01-01T00:00:00.000Z"%string.
Proof. reflexivity. Qed.

Example toISOString_2023 :
  JSDate.toISOString (JSDate.ValidDate 1700000000123)
  = Some "2023-11-14T22:13:20.123Z"%string.
Proof. reflexivity. Qed.

Example toISOString_leap_day :
  JSDate.toISOString (JSDate.ValidDate 951782400000)
  = Some "2000-02-29T00:00:00.000Z"%string.
Proof. reflexivity. Qed.

Example toISOString_last_day :
  JSDate.toISOString (JSDate.ValidDate 8640000000000000)
  = Some "+275760-09-13T00:00:00.000Z"%string.
Proof. reflexivity. Qed.

Example parse_toISOString_2023 :
  JSDate.parse "2023-11-14T22:13:20.123Z" = JSDate.ValidDate 1700000000123.
Proof. reflexivity. Qed.

Example validateSymbolFormat_examples :
  map ChartImageClient.validateSymbolFormat
      ["DRIFT:SOL-PERP"; "RAYDIUM:SOL/USDC"; "a:b:c"; ":x"; "x:"; "A.B:C"]%string
  = [Some ("DRIFT", "SOL-PERP"); Some ("RAYDIUM", "SOL/USDC"); None; None; None; None]%string.
Proof. reflexivity. Qed.

Example isRestrictedSymbol_examples :
  map Constants.isRestrictedSymbol
      ["TEST:FOO"; "test:foo"; "DRIFT:SOL-PERP"; "DRIFT:scamcoin"; "ATEST:X"]%string
  = [true; true; false; true; false].
Proof. reflexivity. Qed.

Example extractTokenFromSymbol_examples :
  map ChartService.extractTokenFromSymbol
      ["DRIFT:SOL-PERP"; "RAYDIUM:JUP/USDC"; "MANGO:BTCusd"; "DRIFT"]%string
  = ["SOL"; "JUP"; "BTC"; "SOL"]%string.
Proof. reflexivity. Qed.

(** ** The chart domain service *)

(** Every failure of the business rules is a [ChartValidationError]. *)
Lemma validateSolanaSymbol_throws_validation symbol e :
  ChartService.validateSolanaSymbol symbol = Throw e ->
  exists m, e = ThrownError ChartValidationError m.
Proof.
  unfold ChartService.validateSolanaSymbol, andThen, throw_if.
  repeat (match goal with |- context [if ?c then _ else _] => destruct c end);
    intros H; inversion H; eauto.
Qed.

Lemma validateBusinessRules_throws_validation request e :
  ChartService.validateBusinessRules request = Throw e ->
  exists m, e = ThrownError ChartValidationError m.
Proof.
  unfold ChartService.validateBusinessRules, ChartService.checkPixelBudget,
    andThen, throw_if.
  repeat (match goal with |- context [if ?c then _ else _] => destruct c end);
    try (intros H; inversion H; eauto; fail).
  apply validateSolanaSymbol_throws_validation.
Qed.

(** A failure of the business rules leaves [createSnapshot] as a
    [ChartGenerationError], before the adapter is reached. *)
Lemma createSnapshot_business_failure w request e tr :
  ChartService.validateBusinessRules request = Throw e ->
  ChartService.createSnapshot w request tr
  = (Throw (ThrownError ChartGenerationError
             ("Chart snapshot creation failed: " +:+ message_or_unknown e)), tr).
Proof.
  intros H. destruct (validateBusinessRules_throws_validation _ _ H) as [m ->].
  unfold ChartService.createSnapshot.
  erewrite try_catch_throw by (apply run_lift_throw; exact H).
  reflexivity.
Qed.

(** C1 (evaluation at the failing input). For the blocklisted symbol
    TEST:FOO the business rules raise the ChartValidationError "Symbol
    TEST:FOO is not supported", but [createSnapshot] catches it and throws a
    ChartGenerationError instead, so POST /image/ answers 502 and not 400;
    no call leaves the worker. *)
Theorem restricted_symbol_answers_502 :
  forall w : World,
    ChartService.validateBusinessRules (Samples.request "TEST:FOO" "1D" 800 600)
    = Throw (ThrownError ChartValidationError "Symbol TEST:FOO is not supported")
    /\ run (ChartService.createSnapshot w (Samples.request "TEST:FOO" "1D" 800 600))
       = (Throw (ThrownError ChartGenerationError
                  "Chart snapshot creation failed: Symbol TEST:FOO is not supported"), [])
    /\ run (ImageRoutes.postImage w Samples.bindings (Ok (Samples.bodyWithSymbol "TEST:FOO")))
       = (Ok {| status := 502;
                body := FailureBody
                  "Chart snapshot creation failed: Symbol TEST:FOO is not supported" |}, []).
Proof.
  intros w.
  assert (Hrules : ChartService.validateBusinessRules (Samples.request "TEST:FOO" "1D" 800 600)
                   = Throw (ThrownError ChartValidationError "Symbol TEST:FOO is not supported"))
    by reflexivity.
  split; [exact Hrules |]. split.
  - unfold run. rewrite (createSnapshot_business_failure w _ _ [] Hrules). reflexivity.
  - assert (Hbody : ImageRoutes.snapshotAndStore w Samples.bindings
                      (Ok (Samples.bodyWithSymbol "TEST:FOO")) []
                    = (Throw (ThrownError ChartGenerationError
                         "Chart snapshot creation failed: Symbol TEST:FOO is not supported"), [])).
    { unfold ImageRoutes.snapshotAndStore.
      rewrite (run_lift_ok _ _ _ _ eq_refl).
      change (ImageRoutes.validateEnvironment Samples.bindings)
        with (@inr Response _ ("key"%string, "cdn.example.com"%string)).
      cbv beta iota zeta.
      change (ImageRoutes.createChartRequest _)
        with (Samples.request "TEST:FOO" "1D" 800 600).
      unfold bind at 1.
      rewrite (createSnapshot_business_failure w _ _ [] Hrules). reflexivity. }
    unfold run, ImageRoutes.postImage.
    erewrite try_catch_throw by exact Hbody. reflexivity.
Qed.

(** ** The route POST /image/ *)

(** A supported symbol goes through: one provider call, one put, and a 200
    with a key that ends in ".png" under an https URL. *)
Example postImage_success :
  fst (run (ImageRoutes.postImage Samples.world Samples.bindings
              (Ok {| so_symbol := Some "DRIFT:SOL-PERP"%string;
                     so_interval := Some "1D"%string;
                     so_width := Some 800; so_height := Some 600;
                     so_theme := Some "dark"%string |})))
  = Ok {| status := 200;
          body := SuccessBody
            {| d_fileName := "charts/2023-11-14T22-13-20-123Z_DRIFT_SOL_PERP_1D_dark_800x600.png";
               d_publicUrl := "https://cdn.example.com/charts/2023-11-14T22-13-20-123Z_DRIFT_SOL_PERP_1D_dark_800x600.png";
               d_symbol := "DRIFT:SOL-PERP";
               d_interval := "1D";
               d_width := 800;
               d_height := 600;
               d_theme := "dark";
               d_uploadedAt := "2023-11-14T22:13:21.000Z";
               d_size := 0;
               d_etag := "etag-1" |} |}.
Proof. reflexivity. Qed.

(** The default symbol of the route names an exchange that is not
    supported. *)
Example postImage_default_symbol :
  fst (run (ImageRoutes.postImage Samples.world Samples.bindings
              (Ok {| so_symbol := None; so_interval := None; so_width := None;
                     so_height := None; so_theme := None |})))
  = Ok {| status := 502;
          body := FailureBody
            "Chart snapshot creation failed: Unsupported exchange: BINANCE. Supported exchanges: DRIFT, RAYDIUM, JUPITER, MANGO, PHOENIX" |}.
Proof. reflexivity. Qed.

(** C7. Whatever the [try] block of POST /image/ throws, the handler
    answers with the body [{success: false, error}]; a ChartValidationError
    gives status 400 with its message, a ChartGenerationError 502 with its
    message, a StorageUploadError 503, any other Error 500 with its message
    passed through, and a thrown value that is not an Error 500 with the
    generic message. *)
Theorem postImage_error_mapping :
  forall (w : World) (env : Bindings) (requestBody : Result ChartSnapshotOptions)
         (error : Thrown) (tr tr' : list Event),
    ImageRoutes.snapshotAndStore w env requestBody tr = (Throw error, tr') ->
    ImageRoutes.postImage w env requestBody tr
      = (Ok (ImageRoutes.errorResponse error), tr')
    /\ body (ImageRoutes.errorResponse error)
       = FailureBody (fst (ImageRoutes.handleError error))
    /\ (forall m, ImageRoutes.errorResponse (ThrownError ChartValidationError m)
                  = {| status := 400; body := FailureBody m |})
    /\ (forall m, ImageRoutes.errorResponse (ThrownError ChartGenerationError m)
                  = {| status := 502; body := FailureBody m |})
    /\ (forall m, status (ImageRoutes.errorResponse (ThrownError StorageUploadError m)) = 503)
    /\ (forall cls m,
          cls <> ChartValidationError -> cls <> ChartGenerationError ->
          cls <> StorageUploadError ->
          ImageRoutes.errorResponse (ThrownError cls m)
          = {| status := 500; body := FailureBody m |})
    /\ (forall v, ImageRoutes.errorResponse (ThrownValue v)
                  = {| status := 500; body := FailureBody "Unknown error" |}).
Proof.
  intros w env requestBody error tr tr' Hthrow.
  split.
  { unfold ImageRoutes.postImage. erewrite try_catch_throw by exact Hthrow. reflexivity. }
  split.
  { unfold ImageRoutes.errorResponse.
    destruct (ImageRoutes.handleError error). reflexivity. }
  repeat split; try reflexivity.
  intros cls m H1 H2 H3. destruct cls; try reflexivity; congruence.
Qed.

(** An unreadable JSON body: a plain Error, answered with 500 and its
    message. *)
Lemma postImage_error_mapping_witness :
  run (ImageRoutes.postImage Samples.world Samples.bindings
         (Throw (ThrownError PlainError "Unexpected end of JSON input")))
  = (Ok {| status := 500; body := FailureBody "Unexpected end of JSON input" |}, []).
Proof.
  exact (proj1 (postImage_error_mapping Samples.world Samples.bindings
                  (Throw (ThrownError PlainError "Unexpected end of JSON input"))
                  (ThrownError PlainError "Unexpected end of JSON input")
                  [] [] eq_refl)).
Defined.

(** ** Interval validation *)

Lemma validateRequest_throws_validation request e :
  ChartImageClient.validateRequest request = Throw e ->
  exists m, e = ThrownError ChartImageValidationError m.
Proof.
  unfold ChartImageClient.validateRequest, andThen, throw_if.
  repeat (match goal with |- context [if ?c then _ else _] => destruct c end);
    intros H; inversion H; eauto.
Qed.

(** The adapter never accepts a request whose interval is not listed. *)
Lemma validateRequest_unlisted_interval request :
  ChartImageClient.isValidInterval (interval request) = false ->
  exists m, ChartImageClient.validateRequest request
            = Throw (ThrownError ChartImageValidationError m).
Proof.
  intros Hbad. unfold ChartImageClient.validateRequest, andThen, throw_if.
  rewrite Hbad. cbn [negb].
  repeat (match goal with |- context [if ?c then _ else _] => destruct c end);
    eauto.
Qed.

(** A request that fails the adapter's validation makes no call. *)
Lemma generateChartImage_invalid w request options e tr :
  ChartImageClient.validateRequest request = Throw e ->
  ChartImageClient.generateChartImage w request options tr = (Throw e, tr).
Proof.
  intros H. unfold ChartImageClient.generateChartImage.
  apply run_lift_throw. exact H.
Qed.

Lemma mapToChartImageRequest_id request :
  ChartService.mapToChartImageRequest request = request.
Proof. destruct request. reflexivity. Qed.

(** When the business rules pass and the adapter's validation fails, the
    adapter's message comes back as a [ChartValidationError]. *)
Lemma createSnapshot_adapter_rejects w request m tr :
  ChartService.validateBusinessRules request = Ok tt ->
  ChartImageClient.validateRequest request
  = Throw (ThrownError ChartImageValidationError m) ->
  ChartService.createSnapshot w request tr
  = (Throw (ThrownError ChartValidationError m), tr).
Proof.
  intros Hrules Hreq. unfold ChartService.createSnapshot.
  erewrite try_catch_throw with (e := ThrownError ChartImageValidationError m) (tr' := tr);
    [reflexivity |].
  rewrite (run_lift_ok _ _ _ _ Hrules).
  cbv zeta. rewrite mapToChartImageRequest_id.
  unfold bind.
  rewrite (generateChartImage_invalid w request _ _ tr Hreq). reflexivity.
Qed.

(** The verdict of the business rules depends on the symbol and the
    dimensions only. *)
Lemma validateBusinessRules_ignores_interval r1 r2 :
  symbol r1 = symbol r2 -> width r1 = width r2 -> height r1 = height r2 ->
  ChartService.validateBusinessRules r1 = ChartService.validateBusinessRules r2.
Proof.
  intros Hs Hw Hh.
  unfold ChartService.validateBusinessRules, ChartService.checkPixelBudget.
  rewrite Hs, Hw, Hh. reflexivity.
Qed.

(** C2, as the claim states it, fails: the interval "bogus" is not listed,
    yet the business rules of the domain service accept a request that
    carries it. *)
Lemma business_rules_accept_unlisted_interval :
  ChartImageClient.isValidInterval "bogus" = false
  /\ ChartService.validateBusinessRules (Samples.request "DRIFT:SOL-PERP" "bogus" 800 600)
     = Ok tt
  /\ ~ (exists e, ChartService.validateBusinessRules
                    (Samples.request "DRIFT:SOL-PERP" "bogus" 800 600) = Throw e).
Proof.
  split; [reflexivity |]. split; [reflexivity |].
  intros [e He]. discriminate He.
Qed.

(** C2 (amended). For every interval outside the adapter's list, the
    adapter's [validateRequest] rejects the request with a validation error
    and [generateChartImage] makes no HTTP call. The business rules of the
    domain service do not look at the interval; [createSnapshot] still fails
    for such a request without any HTTP call, and when the business rules
    pass it fails with the adapter's message as a ChartValidationError. *)
Theorem unlisted_interval_rejected_before_http :
  forall (w : World) (request : ChartRequest)
         (options : option ChartImageOptions) (tr : list Event),
    ChartImageClient.isValidInterval (interval request) = false ->
    (exists m, ChartImageClient.validateRequest request
               = Throw (ThrownError ChartImageValidationError m))
    /\ (exists m, ChartImageClient.generateChartImage w request options tr
                  = (Throw (ThrownError ChartImageValidationError m), tr))
    /\ (forall other : ChartRequest,
          symbol other = symbol request -> width other = width request ->
          height other = height request ->
          ChartService.validateBusinessRules other
          = ChartService.validateBusinessRules request)
    /\ (exists e, ChartService.createSnapshot w request tr = (Throw e, tr))
    /\ (ChartService.validateBusinessRules request = Ok tt ->
        exists m, ChartService.createSnapshot w request tr
                  = (Throw (ThrownError ChartValidationError m), tr)).
Proof.
  intros w request options tr Hbad.
  destruct (validateRequest_unlisted_interval request Hbad) as [m Hm].
  split; [eauto |].
  split; [exists m; apply generateChartImage_invalid; exact Hm |].
  split; [intros other; apply validateBusinessRules_ignores_interval |].
  split.
  - destruct (ChartService.validateBusinessRules request) as [[] | e] eqn:Hrules.
    + eexists. apply createSnapshot_adapter_rejects; eassumption.
    + eexists. apply createSnapshot_business_failure. exact Hrules.
  - intros Hrules. exists m. apply createSnapshot_adapter_rejects; assumption.
Qed.

Lemma unlisted_interval_rejected_before_http_witness :
  exists m,
    ChartService.createSnapshot Samples.world
      (Samples.request "DRIFT:SOL-PERP" "bogus" 800 600) []
    = (Throw (ThrownError ChartValidationError m), []).
Proof.
  exact (proj2 (proj2 (proj2 (proj2
           (unlisted_interval_rejected_before_http Samples.world
              (Samples.request "DRIFT:SOL-PERP" "bogus" 800 600) None []
              eq_refl)))) eq_refl).
Defined.

(** ** The pixel budget *)

(** The pixel-budget check on its own: it passes up to 1600 * 1200 pixels
    and raises a ChartValidationError from one pixel more, and so do the
    business rules as a whole. *)
Lemma pixel_budget_check :
  forall request : ChartRequest,
    100 <= width request <= 2000 ->
    100 <= height request <= 2000 ->
    ChartService.maxPixelCount = 1600 * 1200
    /\ (width request * height request <= 1600 * 1200 ->
        ChartService.checkPixelBudget request = Ok tt
        /\ (is_Some (ChartImageClient.validateSymbolFormat (symbol request)) ->
            Constants.isRestrictedSymbol (symbol request) = false ->
            ChartService.validateSolanaSymbol (symbol request) = Ok tt ->
            ChartService.validateBusinessRules request = Ok tt))
    /\ (width request * height request >= 1600 * 1200 + 1 ->
        ChartService.checkPixelBudget request
        = Throw (ThrownError ChartValidationError
                   "Image size is too large. Maximum pixel count is 1,920,000")
        /\ exists m, ChartService.validateBusinessRules request
                     = Throw (ThrownError ChartValidationError m)).
Proof.
  intros request _ _. split; [reflexivity |].
  unfold ChartService.validateBusinessRules, ChartService.checkPixelBudget,
    ChartService.maxPixelCount, Constants.maxSize_width, Constants.maxSize_height.
  split.
  - intros Hle.
    assert (Hgt : (width request * height request >? 1600 * 1200) = false)
      by (rewrite Z.gtb_ltb; apply Z.ltb_ge; lia).
    rewrite Hgt. split; [reflexivity |].
    intros Hfmt Hres Hsol. rewrite Hres, Hsol.
    rewrite bool_decide_eq_true_2 by exact Hfmt. reflexivity.
  - intros Hover.
    assert (Hgt : (width request * height request >? 1600 * 1200) = true)
      by (rewrite Z.gtb_ltb; apply Z.ltb_lt; lia).
    rewrite Hgt. split; [reflexivity |].
    unfold andThen, throw_if.
    repeat (match goal with |- context [if ?c then _ else _] => destruct c end);
      eauto.
Qed.

(** ** Strings *)

Lemma char_eqb_eq a b : JS.char_eqb a b = true <-> a = b.
Proof.
  unfold JS.char_eqb, JS.char_code. rewrite N.eqb_eq. split.
  - intros H. rewrite <- (ascii_N_embedding a), <- (ascii_N_embedding b).
    now rewrite H.
  - now intros ->.
Qed.

Lemma char_eqb_refl a : JS.char_eqb a a = true.
Proof. now apply char_eqb_eq. Qed.

Lemma app_empty (s : string) : EmptyString +:+ s = s.
Proof. reflexivity. Qed.

Lemma app_cons c (a s : string) : String c a +:+ s = String c (a +:+ s).
Proof. reflexivity. Qed.

Lemma map_chars_app f a b :
  JS.map_chars f (a +:+ b) = JS.map_chars f a +:+ JS.map_chars f b.
Proof.
  induction a as [| c a IH]; [reflexivity |].
  change (String (f c) (JS.map_chars f (a +:+ b))
          = String (f c) (JS.map_chars f a +:+ JS.map_chars f b)).
  now rewrite IH.
Qed.

Lemma string_app_assoc (a b c : string) : (a +:+ b) +:+ c = a +:+ (b +:+ c).
Proof.
  induction a as [| x a IH]; [reflexivity |].
  change (String x ((a +:+ b) +:+ c) = String x (a +:+ (b +:+ c))).
  now rewrite IH.
Qed.

Lemma starts_with_app p q s :
  JS.starts_with (p +:+ q) (p +:+ s) = JS.starts_with q s.
Proof.
  induction p as [| c p IH]; [reflexivity |].
  change (JS.char_eqb c c && JS.starts_with (p +:+ q) (p +:+ s)
          = JS.starts_with q s).
  rewrite char_eqb_refl. exact IH.
Qed.

(** A pattern made of characters of one class, one of which is marked,
    is no prefix of a string that starts with unmarked characters followed
    by a character outside the class. *)
Lemma starts_with_blocked (cls marked : ascii -> bool) (p a : string) c b :
  JS.all_chars cls p = true ->
  JS.exists_char marked p = true ->
  JS.all_chars (fun x => negb (marked x)) a = true ->
  cls c = false ->
  JS.starts_with p (a +:+ String c b) = false.
Proof.
  intros Hcls Hmark Ha Hc. revert p Hcls Hmark.
  induction a as [| x a IH]; intros [| y p] Hcls Hmark;
    rewrite ?app_empty, ?app_cons; cbn in *; try discriminate.
  - apply andb_true_iff in Hcls as [Hy _].
    destruct (JS.char_eqb y c) eqn:E; [| reflexivity].
    apply char_eqb_eq in E. congruence.
  - apply andb_true_iff in Hcls as [Hy Hp].
    apply andb_true_iff in Ha as [Hx Ha].
    destruct (JS.char_eqb y x) eqn:E; [| reflexivity].
    apply char_eqb_eq in E. subst y. cbn.
    apply negb_true_iff in Hx. rewrite Hx in Hmark. cbn in Hmark.
    apply IH; assumption.
Qed.

(** ** Storage keys *)

Lemma cleanSymbol_word_chars symbol :
  JS.all_chars ChartImageClient.word_char
    (JS.replace_class_g StorageService.not_alnum "_" symbol) = true.
Proof.
  unfold JS.replace_class_g.
  induction symbol as [| c s IH]; [reflexivity |].
  cbn. rewrite IH, andb_true_r.
  unfold StorageService.not_alnum, ChartImageClient.word_char.
  destruct (JS.is_alnum c) eqn:E; cbn; [now rewrite E | reflexivity].
Qed.

Lemma cleanSymbol_has_underscore symbol :
  JS.exists_char (fun c => JS.char_eqb c ":") symbol = true ->
  JS.exists_char JS.is_underscore
    (JS.replace_class_g StorageService.not_alnum "_" symbol) = true.
Proof.
  unfold JS.replace_class_g.
  induction symbol as [| c s IH]; [discriminate |].
  cbn. intros H. apply orb_true_iff in H as [H | H].
  - apply char_eqb_eq in H. subst c. reflexivity.
  - rewrite (IH H). apply orb_true_r.
Qed.

Lemma digit_char_is_digit n : JS.is_digit (JSDate.digit_char n) = true.
Proof.
  unfold JSDate.digit_char.
  pose proof (Z.mod_pos_bound n 10 eq_refl) as Hb.
  remember (n mod 10) as k eqn:Hk. clear Hk.
  assert (k = 0 \/ k = 1 \/ k = 2 \/ k = 3 \/ k = 4 \/ k = 5 \/ k = 6
          \/ k = 7 \/ k = 8 \/ k = 9) as Hcases by lia.
  repeat (destruct Hcases as [-> | Hcases]; [reflexivity |]).
  subst k. reflexivity.
Qed.

Lemma digit_is_plain c :
  JS.is_digit c = true ->
  StorageService.colon_or_dot c = false /\ JS.is_underscore c = false.
Proof.
  destruct c as [[] [] [] [] [] [] [] []]; vm_compute; intuition congruence.
Qed.

Lemma timestamp_digit n :
  (if StorageService.colon_or_dot (JSDate.digit_char n) then "-"%char
   else JSDate.digit_char n) = JSDate.digit_char n
  /\ negb (JS.is_underscore (JSDate.digit_char n)) = true.
Proof.
  destruct (digit_is_plain _ (digit_char_is_digit n)) as [-> ->]. split; reflexivity.
Qed.

(** The ISO string starts with the year, followed by a dash. *)
Lemma toISOString_shape d iso :
  JSDate.toISOString d = Some iso ->
  exists y rest, iso = JSDate.year_string y +:+ String "-" rest.
Proof.
  unfold JSDate.toISOString. destruct d as [t |]; [| discriminate].
  destruct (Z.abs t <=? JSDate.maxTime); [| discriminate].
  destruct (JSDate.civil_from_days (t / JSDate.msPerDay)) as [[y m] dd].
  intros H. injection H as <-. eexists. eexists. reflexivity.
Qed.

(** After the timestamp's colons and dots are replaced, the year still
    reads: unmarked characters, then a character that is no word
    character. *)
Lemma timestamp_year_shape y rest :
  exists a c b,
    JS.replace_class_g StorageService.colon_or_dot "-"
      (JSDate.year_string y +:+ String "-" rest) = a +:+ String c b
    /\ JS.all_chars (fun x => negb (JS.is_underscore x)) a = true
    /\ ChartImageClient.word_char c = false.
Proof.
  unfold JS.replace_class_g. rewrite map_chars_app.
  unfold JSDate.year_string.
  destruct ((0 <=? y) && (y <=? 9999)).
  - eexists. exists "-"%char. eexists. split; [reflexivity |]. split; [| reflexivity].
    unfold JSDate.pad4, JSDate.pad3, JSDate.pad2. cbn [JS.map_chars JS.all_chars].
    repeat (rewrite (proj1 (timestamp_digit _)), (proj2 (timestamp_digit _))).
    reflexivity.
  - destruct (y <? 0).
    + exists EmptyString, "-"%char. eexists. split; [reflexivity |]. split; reflexivity.
    + exists EmptyString, "+"%char. eexists. split; [reflexivity |]. split; reflexivity.
Qed.

Lemma generateFileName_ok symbol metadata iso :
  JSDate.toISOString (um_generatedAt metadata) = Some iso ->
  StorageService.generateFileName symbol metadata
  = Ok ("charts/" +:+ JS.replace_class_g StorageService.colon_or_dot "-" iso
        +:+ "_" +:+ JS.replace_class_g StorageService.not_alnum "_" symbol
        +:+ "_" +:+ um_interval metadata +:+ "_" +:+ um_theme metadata
        +:+ "_" +:+ (pretty (um_width metadata) +:+ "x" +:+ pretty (um_height metadata))
        +:+ ".png").
Proof.
  intros H. unfold StorageService.generateFileName, StorageService.isoString.
  rewrite H. reflexivity.
Qed.

Lemma generateFileName_inv symbol metadata key :
  StorageService.generateFileName symbol metadata = Ok key ->
  exists iso, JSDate.toISOString (um_generatedAt metadata) = Some iso.
Proof.
  unfold StorageService.generateFileName, StorageService.isoString.
  destruct (JSDate.toISOString (um_generatedAt metadata)); [eauto | discriminate].
Qed.

(** The list call of [listChartImages] with a symbol filter carries the
    symbol's prefix. *)
Lemma listChartImages_prefix customDomain answer symbol limit cursor tr :
  JS.truthy symbol = true ->
  exists lim,
    snd (StorageService.listChartImages customDomain answer (Some symbol) limit cursor tr)
    = tr ++ [EvList (Some (StorageService.getSymbolPrefix symbol)) lim cursor].
Proof.
  intros Hs. eexists.
  unfold StorageService.listChartImages, R2Client.listObjects, try_catch, bind,
    emit, lift, ret, throw.
  cbn [JS.truthy_opt default]. rewrite Hs.
  destruct answer as [result |]; cbn.
  - destruct (StorageService.toListedImages customDomain (bl_objects result));
      reflexivity.
  - reflexivity.
Qed.

(** The put of [uploadChartImage] goes to the generated key. *)
Lemma uploadChartImage_key w customDomain buffer symbol metadata key tr :
  StorageService.generateFileName symbol metadata = Ok key ->
  exists cm,
    StorageService.buildStorageMetadata symbol metadata = Ok cm
    /\ snd (StorageService.uploadChartImage w customDomain buffer symbol metadata tr)
       = tr ++ [EvPut key buffer "image/png" "public, max-age=3600" cm].
Proof.
  intros Hkey. destruct (generateFileName_inv _ _ _ Hkey) as [iso Hiso].
  unfold StorageService.uploadChartImage.
  rewrite (run_lift_ok _ _ _ _ Hkey).
  unfold StorageService.buildStorageMetadata, StorageService.isoString.
  rewrite Hiso. cbn [andThen]. eexists. split; [reflexivity |].
  unfold try_catch, bind, lift, R2Client.uploadObject, try_catch, bind, emit,
    lift, ret, throw.
  destruct (put_reply w key buffer) as [[obj |] | e]; cbn; try reflexivity.
  destruct (JSDate.toISOString (uploaded obj)); reflexivity.
Qed.

(** C4. For every symbol that contains a colon and every generation
    metadata, the key that [generateFileName] produces does not begin with
    [getSymbolPrefix symbol]: after "charts/" the key continues with the
    timestamp, the prefix with the cleaned symbol. The prefix is what
    [listChartImages] hands to the store for a symbol filter, and the key is
    where [uploadChartImage] puts the image, so the filter matches none of
    the keys created for that symbol. *)
Theorem generated_key_never_matches_symbol_prefix :
  forall (symbol : string) (metadata : UploadMetadata) (key : string),
    JS.exists_char (fun c => JS.char_eqb c ":") symbol = true ->
    StorageService.generateFileName symbol metadata = Ok key ->
    JS.starts_with (StorageService.getSymbolPrefix symbol) key = false
    /\ (forall customDomain answer limit cursor tr, exists lim,
          snd (StorageService.listChartImages customDomain answer
                 (Some symbol) limit cursor tr)
          = tr ++ [EvList (Some (StorageService.getSymbolPrefix symbol)) lim cursor])
    /\ (forall w customDomain buffer tr, exists cm,
          snd (StorageService.uploadChartImage w customDomain buffer symbol metadata tr)
          = tr ++ [EvPut key buffer "image/png" "public, max-age=3600" cm]).
Proof.
  intros symbol metadata key Hcolon Hkey.
  split; [| split].
  - destruct (generateFileName_inv _ _ _ Hkey) as [iso Hiso].
    rewrite (generateFileName_ok symbol metadata iso Hiso) in Hkey.
    injection Hkey as <-.
    destruct (toISOString_shape _ _ Hiso) as (y & rest & ->).
    destruct (timestamp_year_shape y rest) as (a & c & b & -> & Ha & Hc).
    unfold StorageService.getSymbolPrefix. cbv zeta.
    rewrite starts_with_app, string_app_assoc, app_cons.
    apply starts_with_blocked with (cls := ChartImageClient.word_char)
                                   (marked := JS.is_underscore).
    + apply cleanSymbol_word_chars.
    + apply cleanSymbol_has_underscore, Hcolon.
    + exact Ha.
    + exact Hc.
  - intros. apply listChartImages_prefix.
    destruct symbol; [discriminate | reflexivity].
  - intros. destruct (uploadChartImage_key w customDomain buffer _ _ _ tr Hkey)
      as (cm & _ & H). eauto.
Qed.

Lemma generated_key_never_matches_symbol_prefix_witness :
  JS.starts_with (StorageService.getSymbolPrefix "DRIFT:SOL-PERP")
    "charts/2023-11-14T22-13-20-123Z_DRIFT_SOL_PERP_1D_dark_800x600.png" = false.
Proof.
  exact (proj1 (generated_key_never_matches_symbol_prefix "DRIFT:SOL-PERP"
                  {| um_interval := "1D"; um_theme := "dark"; um_width := 800;
                     um_height := 600;
                     um_generatedAt := JSDate.ValidDate 1700000000123 |}
                  "charts/2023-11-14T22-13-20-123Z_DRIFT_SOL_PERP_1D_dark_800x600.png"
                  eq_refl eq_refl)).
Defined.

(** The replacements of the code and of the specification agree. *)
Lemma replace_class_g_every cls bad r s :
  (forall c, cls c = bad c) ->
  JS.replace_class_g cls r s = KeySpec.replace_every bad r s.
Proof.
  intros Hcls. unfold JS.replace_class_g, KeySpec.replace_every.
  induction s as [| c s IH]; [reflexivity |].
  cbn. rewrite IH, Hcls. reflexivity.
Qed.

Lemma colon_or_dot_spec c :
  StorageService.colon_or_dot c = KeySpec.is_colon_or_dot c.
Proof. destruct c as [[] [] [] [] [] [] [] []]; vm_compute; reflexivity. Qed.

Lemma not_alnum_spec c :
  StorageService.not_alnum c = negb (KeySpec.alphanumeric c).
Proof. destruct c as [[] [] [] [] [] [] [] []]; vm_compute; reflexivity. Qed.

(** C5. For every symbol and every metadata record whose generatedAt has
    the ISO-8601 timestamp [iso], [generateFileName] returns exactly
    "charts/" + (iso with every ':' and '.' replaced by '-') + "_" +
    (symbol with every non-alphanumeric character replaced by '_') + "_" +
    interval + "_" + theme + "_" + width + "x" + height + ".png"; two calls
    whose inputs agree return the same key. *)
Theorem generateFileName_follows_key_format :
  forall (symbol : string) (metadata : UploadMetadata) (iso : string),
    JSDate.toISOString (um_generatedAt metadata) = Some iso ->
    StorageService.generateFileName symbol metadata
    = Ok (KeySpec.key iso symbol (um_interval metadata) (um_theme metadata)
            (um_width metadata) (um_height metadata))
    /\ (forall (symbol' : string) (metadata' : UploadMetadata),
          symbol' = symbol ->
          um_interval metadata' = um_interval metadata ->
          um_theme metadata' = um_theme metadata ->
          um_width metadata' = um_width metadata ->
          um_height metadata' = um_height metadata ->
          um_generatedAt metadata' = um_generatedAt metadata ->
          StorageService.generateFileName symbol' metadata'
          = StorageService.generateFileName symbol metadata).
Proof.
  intros symbol metadata iso Hiso. split.
  - rewrite (generateFileName_ok symbol metadata iso Hiso).
    unfold KeySpec.key.
    rewrite (replace_class_g_every _ _ _ iso colon_or_dot_spec).
    rewrite (replace_class_g_every _ _ _ symbol not_alnum_spec).
    rewrite !string_app_assoc. reflexivity.
  - intros symbol' metadata' -> Hi Ht Hw Hh Hg.
    unfold StorageService.generateFileName.
    rewrite Hi, Ht, Hw, Hh, Hg. reflexivity.
Qed.

Lemma generateFileName_follows_key_format_witness :
  StorageService.generateFileName "DRIFT:SOL-PERP"
    {| um_interval := "1D"; um_theme := "dark"; um_width := 800;
       um_height := 600; um_generatedAt := JSDate.ValidDate 1700000000123 |}
  = Ok (KeySpec.key "2023-11-14T22:13:20.123Z" "DRIFT:SOL-PERP" "1D" "dark" 800 600).
Proof.
  exact (proj1 (generateFileName_follows_key_format "DRIFT:SOL-PERP"
                  {| um_interval := "1D"; um_theme := "dark"; um_width := 800;
                     um_height := 600;
                     um_generatedAt := JSDate.ValidDate 1700000000123 |}
                  "2023-11-14T22:13:20.123Z" eq_refl)).
Defined.

(** The colon matters: a symbol made of digits only can give a prefix that
    the year of a key matches. *)
Example year_like_symbol_prefix_matches :
  JS.starts_with (StorageService.getSymbolPrefix "2023")
    "charts/2023-11-14T22-13-20-123Z_2023_1D_dark_800x600.png" = true
  /\ StorageService.generateFileName "2023" Samples.uploadMetadata
     = Ok "charts/2023-11-14T22-13-20-123Z_2023_1D_dark_800x600.png"%string.
Proof. split; reflexivity. Qed.

Example key_example :
  KeySpec.key "2023-11-14T22:13:20.123Z" "DRIFT:SOL-PERP" "1D" "dark" 800 600
  = "charts/2023-11-14T22-13-20-123Z_DRIFT_SOL_PERP_1D_dark_800x600.png"%string.
Proof. reflexivity. Qed.

(** ** Cleanup *)

Lemma listObjects_answered page prefix limit cursor tr :
  R2Client.listObjects (Some page) prefix (Some limit) cursor tr
  = (Ok {| lr_objects := bl_objects page;
           lr_truncated := bl_truncated page;
           lr_cursor := if bl_truncated page then bl_cursor page else None |},
     tr ++ [EvList prefix (or_default_num (Some limit) 1000) cursor]).
Proof. reflexivity. Qed.

Lemma passed_cursor_truthy page :
  JS.truthy_opt (if bl_truncated page then bl_cursor page else None)
  = hasNextPage page.
Proof. unfold hasNextPage. destruct (bl_truncated page); reflexivity. Qed.

Lemma hasNextPage_cursor page :
  hasNextPage page = true ->
  (if bl_truncated page then bl_cursor page else None) = bl_cursor page.
Proof. unfold hasNextPage. destruct (bl_truncated page); [reflexivity | discriminate]. Qed.

Lemma cleanupLoop_run cutoff pages :
  pageSequence pages = true ->
  forall cursor count tr,
    StorageService.cleanupLoop (JSDate.ValidDate cutoff) pages cursor count tr
    = (Ok (count + Z.of_nat (List.length
             (List.filter (uploadedBefore cutoff) (storedObjects pages)))),
       tr ++ cleanupCalls cutoff pages cursor).
Proof.
  induction pages as [| page later IH]; [discriminate |].
  intros Hseq cursor count tr.
  cbn [StorageService.cleanupLoop].
  unfold bind at 1. rewrite listObjects_answered.
  cbn [lr_objects lr_cursor or_default_num].
  change (fun obj => JSDate.date_lt (uploaded obj) (JSDate.ValidDate cutoff))
    with (uploadedBefore cutoff).
  rewrite passed_cursor_truthy.
  change (storedObjects (page :: later))
    with (bl_objects page ++ storedObjects later).
  rewrite List.filter_app, List.length_app, Nat2Z.inj_add, Z.add_assoc.
  cbn [cleanupCalls].
  set (old := List.filter (uploadedBefore cutoff) (bl_objects page)).
  assert (Hstep :
    (if 0 <? Z.of_nat (List.length old)
     then (R2Client.deleteObjects (map key old) ;;;
           ret (count + Z.of_nat (List.length old)))%M
     else ret count)
      (tr ++ [EvList None 1000 cursor])
    = (Ok (count + Z.of_nat (List.length old)),
       tr ++ EvList None 1000 cursor
          :: match old with [] => [] | _ :: _ => [EvDeleteMany (map key old)] end)).
  { destruct old as [| o old'].
    - cbn. unfold ret. now rewrite Z.add_0_r.
    - cbn [List.length]. rewrite Nat2Z.inj_succ.
      replace (0 <? Z.succ (Z.of_nat (List.length old'))) with true
        by (symmetry; apply Z.ltb_lt; lia).
      unfold bind, R2Client.deleteObjects, emit, ret.
      now rewrite <- app_assoc. }
  unfold bind at 1. cbn [Z.eqb]. rewrite Hstep.
  destruct later as [| next later'].
  - cbn [pageSequence] in Hseq. apply negb_true_iff in Hseq. rewrite Hseq.
    unfold ret. cbn [storedObjects flat_map List.filter List.length cleanupCalls].
    rewrite Z.add_0_r, app_nil_r. reflexivity.
  - change (pageSequence (page :: next :: later'))
      with (hasNextPage page && pageSequence (next :: later')) in Hseq.
    apply andb_true_iff in Hseq as [Hnext Hlater].
    rewrite Hnext, (hasNextPage_cursor _ Hnext).
    rewrite (IH Hlater). f_equal.
    rewrite <- app_assoc. reflexivity.
Qed.

Lemma deletedKeys_app tr1 tr2 :
  deletedKeys (tr1 ++ tr2) = deletedKeys tr1 ++ deletedKeys tr2.
Proof. apply List.flat_map_app. Qed.

Lemma deletedKeys_cleanupCalls cutoff pages cursor :
  deletedKeys (cleanupCalls cutoff pages cursor)
  = map key (List.filter (uploadedBefore cutoff) (storedObjects pages)).
Proof.
  revert cursor. induction pages as [| page later IH]; intros cursor; [reflexivity |].
  change (storedObjects (page :: later))
    with (bl_objects page ++ storedObjects later).
  rewrite List.filter_app, List.map_app. cbn [cleanupCalls].
  change (deletedKeys (?e :: ?l)) with (deletedKeys [e] ++ deletedKeys l).
  rewrite deletedKeys_app, IH.
  destruct (List.filter (uploadedBefore cutoff) (bl_objects page)); cbn;
    now rewrite ?app_nil_r.
Qed.

Lemma listLimits_cleanupCalls cutoff pages cursor :
  listLimits (cleanupCalls cutoff pages cursor)
  = repeat 1000 (List.length pages).
Proof.
  revert cursor. induction pages as [| page later IH]; intros cursor; [reflexivity |].
  cbn [cleanupCalls List.length repeat].
  unfold listLimits in *. cbn [flat_map]. rewrite List.flat_map_app, IH.
  destruct (List.filter (uploadedBefore cutoff) (bl_objects page)); reflexivity.
Qed.

(** C6. Let the store present its contents as a sequence of list pages.
    [cleanupOldImages days], run at time [t] with now - days a date, asks
    for every page with page size 1000 until a page announces no further
    page, bulk-deletes per page exactly the objects uploaded strictly before
    [t - days] days, and returns as deletedCount the number of these
    objects. *)
Theorem cleanupOldImages_deletes_exactly_old :
  forall (w : World) (pages : list BucketListResult) (days t : Z),
    now w = JSDate.ValidDate t ->
    Z.abs (t - days * JSDate.msPerDay) <= JSDate.maxTime ->
    pageSequence pages = true ->
    let cutoff := t - days * JSDate.msPerDay in
    let old := List.filter (uploadedBefore cutoff) (storedObjects pages) in
    run (StorageService.cleanupOldImages w pages (Some days))
    = (Ok (Z.of_nat (List.length old)), cleanupCalls cutoff pages None)
    /\ deletedKeys (cleanupCalls cutoff pages None) = map key old
    /\ listLimits (cleanupCalls cutoff pages None) = repeat 1000 (List.length pages).
Proof.
  intros w pages days t Hnow Hrange Hseq cutoff old.
  split; [| split].
  - unfold run, StorageService.cleanupOldImages.
    change (default 30 (Some days)) with days.
    rewrite Hnow. unfold JSDate.minusDays, JSDate.TimeClip.
    replace (Z.abs (t - days * JSDate.msPerDay) <=? JSDate.maxTime) with true
      by (symmetry; apply Z.leb_le; exact Hrange).
    erewrite try_catch_ok by (apply cleanupLoop_run; exact Hseq).
    reflexivity.
  - apply deletedKeys_cleanupCalls.
  - apply listLimits_cleanupCalls.
Qed.

(** One object uploaded 31 days ago and one uploaded 1 day ago, 30 days:
    exactly the first is deleted and deletedCount is 1. *)
Lemma cleanupOldImages_deletes_exactly_old_witness :
  run (StorageService.cleanupOldImages Samples.world Samples.twoObjects (Some 30))
  = (Ok 1, [EvList None 1000 None; EvDeleteMany ["charts/old.png"%string]]).
Proof.
  refine (proj1 (cleanupOldImages_deletes_exactly_old Samples.world
                   Samples.twoObjects 30 1700000000123 eq_refl _ eq_refl)).
  vm_compute. discriminate.
Defined.

(** Without an argument the cleanup uses 30 days. *)
Example cleanupOldImages_default_days :
  run (StorageService.cleanupOldImages Samples.world Samples.twoObjects None)
  = (Ok 1, [EvList None 1000 None; EvDeleteMany ["charts/old.png"%string]]).
Proof. reflexivity. Qed.

(** ** Storage metadata *)

Lemma truthy_app_r (a b : string) : JS.truthy b = true -> JS.truthy (a +:+ b) = true.
Proof. destruct a; [trivial | reflexivity]. Qed.

Lemma toISOString_truthy d iso :
  JSDate.toISOString d = Some iso -> JS.truthy iso = true.
Proof.
  intros H. destruct (toISOString_shape _ _ H) as (y & rest & ->).
  now apply truthy_app_r.
Qed.

Lemma buildStorageMetadata_fields symbol metadata iso :
  JSDate.toISOString (um_generatedAt metadata) = Some iso ->
  exists cm : gmap string string,
    StorageService.buildStorageMetadata symbol metadata = Ok cm
    /\ cm !! "symbol"%string = Some symbol
    /\ cm !! "interval"%string = Some (um_interval metadata)
    /\ cm !! "theme"%string = Some (um_theme metadata)
    /\ cm !! "dimensions"%string
       = Some (pretty (um_width metadata) +:+ "x" +:+ pretty (um_height metadata))
    /\ cm !! "generatedAt"%string = Some iso.
Proof.
  intros Hiso. unfold StorageService.buildStorageMetadata, StorageService.isoString.
  rewrite Hiso. cbn [andThen]. eexists. split; [reflexivity |].
  repeat split; simplify_map_eq; reflexivity.
Qed.

Lemma parseStorageMetadata_missing (cm : gmap string string) field :
  In field metadataFields -> cm !! field = None ->
  StorageService.parseStorageMetadata (Some cm) = None.
Proof.
  unfold metadataFields. cbn [In].
  intros [<- | [<- | [<- | [<- | [<- | []]]]]] Hnone;
    unfold StorageService.parseStorageMetadata; rewrite Hnone;
    cbn [JS.truthy_opt negb]; rewrite ?orb_true_r; reflexivity.
Qed.

Lemma toListedImages_metadata customDomain objs imgs :
  StorageService.toListedImages customDomain objs = Ok imgs ->
  map li_metadata imgs
  = map (fun obj => StorageService.parseStorageMetadata (customMetadata obj)) objs.
Proof.
  revert imgs. induction objs as [| obj rest IH]; intros imgs.
  - intros [= <-]. reflexivity.
  - cbn [StorageService.toListedImages].
    destruct (StorageService.isoString (uploaded obj)); [| discriminate].
    cbn [andThen].
    destruct (StorageService.toListedImages customDomain rest) as [imgs' |];
      [| discriminate].
    cbn [andThen]. intros [= <-]. cbn [map li_metadata]. now rewrite (IH imgs').
Qed.

(** The metadata built for a non-empty symbol, interval and theme holds all
    five fields and is parsed back in full. *)
Lemma buildStorageMetadata_parses symbol metadata iso cm :
  JSDate.toISOString (um_generatedAt metadata) = Some iso ->
  JS.truthy symbol = true ->
  JS.truthy (um_interval metadata) = true ->
  JS.truthy (um_theme metadata) = true ->
  StorageService.buildStorageMetadata symbol metadata = Ok cm ->
  Forall (fun field => is_Some (cm !! field)) metadataFields
  /\ StorageService.parseStorageMetadata (Some cm)
     = Some {| sm_symbol := symbol;
               sm_interval := um_interval metadata;
               sm_theme := um_theme metadata;
               sm_dimensions := pretty (um_width metadata) +:+ "x"
                                +:+ pretty (um_height metadata);
               sm_generatedAt := iso |}.
Proof.
  intros Hiso Hsym Hint Hth Hbuilt.
  destruct (buildStorageMetadata_fields symbol metadata iso Hiso)
    as (cm' & Hcm & Hs & Hi & Ht & Hd & Hg).
  rewrite Hbuilt in Hcm. injection Hcm as <-. split.
  - unfold metadataFields. repeat constructor; eauto.
  - unfold StorageService.parseStorageMetadata.
    rewrite Hs, Hi, Ht, Hd, Hg. cbn [JS.truthy_opt default from_option id].
    rewrite Hsym, Hint, Hth, (toISOString_truthy _ _ Hiso).
    rewrite (truthy_app_r (pretty (um_width metadata))
               ("x" +:+ pretty (um_height metadata)) eq_refl).
    reflexivity.
Qed.

(** ** Statistics *)

Lemma getImageList_empty_page customDomain page symbol limit cursor tr :
  bl_objects page = [] ->
  ImageService.getImageList customDomain (Some page)
    {| o_symbol := symbol; o_limit := limit; o_cursor := cursor;
       o_sortBy := None; o_sortOrder := None |} tr
  = (Ok {| images := [];
           hasMore := bl_truncated page;
           nextCursor := if bl_truncated page then bl_cursor page else None |},
     tr ++ [EvList (if JS.truthy_opt symbol
                    then Some (StorageService.getSymbolPrefix (default EmptyString symbol))
                    else None)
                   (or_default_num (Some (or_default_num
                      (Some (or_default_num limit 20)) 50)) 1000)
                   cursor]).
Proof.
  intros Hempty.
  unfold ImageService.getImageList, StorageService.listChartImages,
    R2Client.listObjects, try_catch, bind, emit, lift, ret.
  cbn. rewrite Hempty. reflexivity.
Qed.

(** Over pages without objects the loop of [getImageStatistics] ends at the
    last page and has collected nothing. *)
Lemma collectImages_empty customDomain symbol pages :
  pageSequence pages = true ->
  Forall (fun page => bl_objects page = []) pages ->
  forall cursor allImages tr,
  exists tr',
    ImageService.collectImages customDomain pages symbol cursor allImages tr
    = (Ok allImages, tr').
Proof.
  induction pages as [| page later IH]; [discriminate |].
  intros Hseq Hall cursor allImages tr.
  inversion Hall as [| ? ? Hpage Hlater]; subst.
  cbn [ImageService.collectImages]. unfold bind at 1.
  rewrite (getImageList_empty_page _ _ _ _ _ _ Hpage).
  cbn [images nextCursor]. rewrite app_nil_r, passed_cursor_truthy.
  destruct later as [| next later'].
  - cbn [pageSequence] in Hseq. apply negb_true_iff in Hseq. rewrite Hseq.
    eexists. reflexivity.
  - change (pageSequence (page :: next :: later'))
      with (hasNextPage page && pageSequence (next :: later')) in Hseq.
    apply andb_true_iff in Hseq as [Hnext Hseq]. rewrite Hnext.
    apply IH; assumption.
Qed.

Lemma storedObjects_nil pages :
  storedObjects pages = [] -> Forall (fun page => bl_objects page = []) pages.
Proof.
  induction pages as [| page later IH]; [constructor |].
  change (storedObjects (page :: later))
    with (bl_objects page ++ storedObjects later).
  intros H. apply app_eq_nil in H as [Hp Hl]. constructor; auto.
Qed.

(** C10. When the store holds no matching object (its pages list none),
    [getImageStatistics] returns {totalImages: 0, totalSize: 0,
    averageSize: 0, byTheme: {}, byInterval: {}} with no latest or oldest
    image, and does not throw: the empty case is answered before any
    average is computed. *)
Theorem getImageStatistics_empty_store :
  forall (customDomain : string) (pages : list BucketListResult)
         (symbol : option string),
    pageSequence pages = true ->
    storedObjects pages = [] ->
    fst (run (ImageService.getImageStatistics customDomain pages symbol))
    = Ok {| totalImages := 0;
            totalSize := 0;
            averageSize := 0;
            latestImage := None;
            oldestImage := None;
            byTheme := ∅;
            byInterval := ∅ |}.
Proof.
  intros customDomain pages symbol Hseq Hnone.
  destruct (collectImages_empty customDomain symbol pages Hseq
              (storedObjects_nil _ Hnone) None [] []) as [tr' Hrun].
  unfold run, ImageService.getImageStatistics.
  erewrite try_catch_ok; [reflexivity |].
  unfold bind. rewrite Hrun. reflexivity.
Qed.

Lemma getImageStatistics_empty_store_witness :
  fst (run (ImageService.getImageStatistics "cdn.example.com" Samples.noObjects None))
  = Ok ImageService.emptyStatistics.
Proof.
  exact (getImageStatistics_empty_store "cdn.example.com" Samples.noObjects None
           eq_refl eq_refl).
Defined.

(** ** Sorting *)

Lemma compare_size_asc a b :
  (ImageService.compareImages BySize Asc a b >? 0) = (img_size b <? img_size a).
Proof.
  unfold ImageService.compareImages, ImageService.value_lt.
  destruct (Z.ltb_spec (img_size a) (img_size b));
    destruct (Z.ltb_spec (img_size b) (img_size a)); try reflexivity; lia.
Qed.

Lemma compare_size_desc a b :
  (ImageService.compareImages BySize Desc a b >? 0) = (img_size a <? img_size b).
Proof.
  unfold ImageService.compareImages, ImageService.value_lt.
  destruct (Z.ltb_spec (img_size a) (img_size b));
    destruct (Z.ltb_spec (img_size b) (img_size a)); try reflexivity; lia.
Qed.


Section Stable.

Context {A : Type} (compare : A -> A -> Z) (p : A -> bool).

(** Elements that [p] selects are never reordered among themselves by
    [compare]. *)
Hypothesis apart :
  forall x y, (compare x y >? 0) = true -> p x = true -> p y = false.



End Stable.

Lemma insert_by_perm {A} (compare : A -> A -> Z) x l :
  Permutation (ImageService.insert_by compare x l) (x :: l).
Proof.
  induction l as [| y l IH]; [reflexivity |].
  cbn [ImageService.insert_by]. destruct (compare x y >? 0); [| reflexivity].
  rewrite IH. apply perm_swap.
Qed.

(** The sort returns the same images. *)
Lemma array_sort_perm {A} (compare : A -> A -> Z) l :
  Permutation (ImageService.array_sort compare l) l.
Proof.
  induction l as [| x l IH]; [reflexivity |].
  cbn [ImageService.array_sort]. rewrite insert_by_perm. now constructor.
Qed.

(** Inserting into a list in the order asked for keeps it so. *)
Lemma insert_by_size_sorted order x l :
  Sorted (sizeOrdered order) l ->
  Sorted (sizeOrdered order)
         (ImageService.insert_by (ImageService.compareImages BySize order) x l).
Proof.
  induction l as [| y l IH]; intros Hs; [repeat constructor |].
  cbn [ImageService.insert_by].
  assert (Hcmp : (ImageService.compareImages BySize order x y >? 0) = true
                 \/ sizeOrdered order x y).
  { destruct order; rewrite ?compare_size_asc, ?compare_size_desc;
      unfold sizeOrdered;
      match goal with |- (?u <? ?v) = true \/ _ => destruct (Z.ltb_spec u v) end;
      auto. }
  destruct (ImageService.compareImages BySize order x y >? 0) eqn:E.
  - inversion Hs as [| ? ? Hl Hhd]; subst. constructor; [auto |].
    assert (Hyx : sizeOrdered order y x).
    { destruct order; rewrite ?compare_size_asc, ?compare_size_desc in E;
        apply Z.ltb_lt in E; unfold sizeOrdered; lia. }
    destruct l as [| z l]; [repeat constructor; exact Hyx |].
    cbn [ImageService.insert_by].
    destruct (ImageService.compareImages BySize order x z >? 0);
      constructor; [inversion Hhd; subst; assumption | exact Hyx].
  - destruct Hcmp as [? | Hxy]; [discriminate |].
    constructor; [exact Hs | constructor; exact Hxy].
Qed.

(** The sort returns the images in the order asked for. *)
Lemma sortImages_size_sorted order l :
  Sorted (sizeOrdered order) (ImageService.sortImages l BySize order).
Proof.
  unfold ImageService.sortImages.
  induction l as [| x l IH]; [constructor |].
  cbn [ImageService.array_sort]. now apply insert_by_size_sorted.
Qed.

Example sortImages_ascending :
  map img_fileName
      (ImageService.sortImages
         [Samples.image "a" 3; Samples.image "b" 1; Samples.image "c" 2] BySize Asc)
  = ["b"; "c"; "a"]%string.
Proof. reflexivity. Qed.

(** Ties keep the input order in both directions. *)
Example sortImages_ties :
  map img_fileName
      (ImageService.sortImages
         [Samples.image "a" 3; Samples.image "b" 1; Samples.image "c" 3;
          Samples.image "d" 1] BySize Desc)
  = ["a"; "c"; "b"; "d"]%string
  /\ map img_fileName
       (ImageService.sortImages
          [Samples.image "a" 3; Samples.image "b" 1; Samples.image "c" 3;
           Samples.image "d" 1] BySize Asc)
     = ["b"; "d"; "a"; "c"]%string.
Proof. split; reflexivity. Qed.

(** * Further properties *)

(** ** Symbols *)

Lemma span_app p s a b : JS.span p s = (a, b) -> s = a +:+ b.
Proof.
  revert a b. induction s as [| c s IH]; intros a b; cbn.
  - intros [= <- <-]. reflexivity.
  - destruct (p c).
    + destruct (JS.span p s) as [a' b'] eqn:E. intros [= <- <-].
      rewrite app_cons. f_equal. now apply IH.
    + intros [= <- <-]. reflexivity.
Qed.

Lemma span_all p s a b : JS.span p s = (a, b) -> JS.all_chars p a = true.
Proof.
  revert a b. induction s as [| c s IH]; intros a b; cbn.
  - intros [= <- <-]. reflexivity.
  - destruct (p c) eqn:Pc.
    + destruct (JS.span p s) as [a' b'] eqn:E. intros [= <- <-].
      cbn. rewrite Pc. cbn. eapply IH. reflexivity.
    + intros [= <- <-]. reflexivity.
Qed.

Lemma span_stops p a c b :
  JS.all_chars p a = true -> p c = false ->
  JS.span p (a +:+ String c b) = (a, String c b).
Proof.
  intros Ha Hc. induction a as [| x a IH].
  - rewrite app_empty. cbn. now rewrite Hc.
  - rewrite app_cons. cbn in *. apply andb_true_iff in Ha as [Hx Ha].
    rewrite Hx, (IH Ha). reflexivity.
Qed.

Lemma word_char_not_colon c :
  ChartImageClient.word_char c = true -> JS.char_eqb c ":" = false.
Proof. destruct c as [[] [] [] [] [] [] [] []]; vm_compute; congruence. Qed.

Lemma pair_char_not_colon c :
  ChartImageClient.pair_char c = true -> JS.char_eqb c ":" = false.
Proof. destruct c as [[] [] [] [] [] [] [] []]; vm_compute; congruence. Qed.

(** The parts [validateSymbolFormat] returns are the two sides of the
    colon of the symbol. *)
Lemma validateSymbolFormat_inv symbol exchange pairPart :
  ChartImageClient.validateSymbolFormat symbol = Some (exchange, pairPart) ->
  symbol = exchange +:+ ":" +:+ pairPart
  /\ JS.truthy exchange = true
  /\ JS.all_chars ChartImageClient.word_char exchange = true
  /\ JS.truthy pairPart = true
  /\ JS.all_chars ChartImageClient.pair_char pairPart = true.
Proof.
  unfold ChartImageClient.validateSymbolFormat.
  destruct (JS.span ChartImageClient.word_char symbol) as [ex rest] eqn:E.
  destruct rest as [| c pr]; [discriminate |].
  destruct (JS.char_eqb c ":") eqn:Hc; [| discriminate].
  destruct (JS.truthy ex) eqn:Hex; [| discriminate].
  destruct (JS.truthy pr) eqn:Hpr; [| discriminate].
  destruct (JS.all_chars ChartImageClient.pair_char pr) eqn:Hall; [| discriminate].
  cbn. intros [= <- <-]. apply char_eqb_eq in Hc. subst c.
  repeat split; try assumption.
  - exact (span_app _ _ _ _ E).
  - exact (span_all _ _ _ _ E).
Qed.

(** X1. [validateSymbolFormat] accepts exactly the strings
    exchange + ":" + pair with a non-empty exchange of [A-Za-z0-9_] and a
    non-empty pair of [A-Za-z0-9_/-], and returns these two parts. *)
Theorem validateSymbolFormat_parts :
  forall symbol exchange pairPart : string,
    ChartImageClient.validateSymbolFormat symbol = Some (exchange, pairPart)
    <-> (symbol = exchange +:+ ":" +:+ pairPart
         /\ JS.truthy exchange = true
         /\ JS.all_chars ChartImageClient.word_char exchange = true
         /\ JS.truthy pairPart = true
         /\ JS.all_chars ChartImageClient.pair_char pairPart = true).
Proof.
  intros symbol exchange pairPart.
  split; [apply validateSymbolFormat_inv |].
  unfold ChartImageClient.validateSymbolFormat.
  intros (-> & Hex & Hw & Hpr & Hp).
  change (":" +:+ pairPart) with (String ":" pairPart).
  rewrite (span_stops _ exchange ":" pairPart Hw eq_refl).
  rewrite Hex, Hpr, Hp. reflexivity.
Qed.

Lemma validateSymbolFormat_parts_witness :
  ChartImageClient.validateSymbolFormat "RAYDIUM:SOL/USDC"
  = Some ("RAYDIUM"%string, "SOL/USDC"%string).
Proof.
  apply (proj2 (validateSymbolFormat_parts "RAYDIUM:SOL/USDC" "RAYDIUM" "SOL/USDC")).
  repeat split.
Defined.

Lemma char_eqb_sym a b : JS.char_eqb a b = JS.char_eqb b a.
Proof. unfold JS.char_eqb. apply N.eqb_sym. Qed.

Lemma all_chars_app p (a b : string) :
  JS.all_chars p (a +:+ b) = JS.all_chars p a && JS.all_chars p b.
Proof.
  induction a as [| c a IH]; [reflexivity |].
  rewrite app_cons. cbn. now rewrite IH, andb_assoc.
Qed.

Lemma all_chars_impl (p q : ascii -> bool) s :
  (forall c, p c = true -> q c = true) ->
  JS.all_chars p s = true -> JS.all_chars q s = true.
Proof.
  intros Hpq. induction s as [| c s IH]; [reflexivity |].
  cbn. intros [Hc Hs]%andb_true_iff. now rewrite (Hpq c Hc), IH.
Qed.

Lemma all_chars_none (p q : ascii -> bool) s :
  (forall c, p c = true -> q c = false) ->
  JS.all_chars p s = true -> JS.exists_char q s = false.
Proof.
  intros Hpq. induction s as [| c s IH]; [reflexivity |].
  cbn. intros [Hc Hs]%andb_true_iff. now rewrite (Hpq c Hc), IH.
Qed.

Lemma split_by_none p s :
  JS.exists_char p s = false -> JS.split_by p s = [s].
Proof.
  induction s as [| c s IH]; [reflexivity |].
  cbn. intros [Hc Hs]%orb_false_iff. now rewrite Hc, (IH Hs).
Qed.

Lemma split_by_app p a c b :
  JS.exists_char p a = false -> p c = true ->
  JS.split_by p (a +:+ String c b) = a :: JS.split_by p b.
Proof.
  intros Ha Hc. induction a as [| x a IH].
  - rewrite app_empty. cbn. now rewrite Hc.
  - rewrite app_cons. cbn in *. apply orb_false_iff in Ha as [Hx Ha].
    now rewrite Hx, (IH Ha).
Qed.

Lemma truthy_app_l (a b : string) : JS.truthy a = true -> JS.truthy (a +:+ b) = true.
Proof. destruct a; [discriminate | reflexivity]. Qed.

(** The parts of a well-formed symbol are what [split(":")] returns. *)
Lemma validateSymbolFormat_split symbol exchange pairPart :
  ChartImageClient.validateSymbolFormat symbol = Some (exchange, pairPart) ->
  JS.split_by (JS.char_eqb ":") symbol = [exchange; pairPart].
Proof.
  intros (-> & _ & Hw & _ & Hp)%validateSymbolFormat_inv.
  change (":" +:+ pairPart) with (String ":" pairPart).
  rewrite split_by_app, split_by_none; try reflexivity.
  - apply (all_chars_none ChartImageClient.pair_char); [| exact Hp].
    intros c Hc. rewrite char_eqb_sym. now apply pair_char_not_colon.
  - apply (all_chars_none ChartImageClient.word_char); [| exact Hw].
    intros c Hc. rewrite char_eqb_sym. now apply word_char_not_colon.
Qed.

(** X2. A symbol that [validateSymbolFormat] accepts is never rejected by
    the symbol checks of the adapter's [validateRequest]: it is not empty
    and matches the adapter's symbol pattern. *)
Theorem wellformed_symbol_passes_adapter_pattern :
  forall symbol exchange pairPart : string,
    ChartImageClient.validateSymbolFormat symbol = Some (exchange, pairPart) ->
    JS.truthy symbol = true
    /\ ChartImageClient.request_symbol_pattern symbol = true.
Proof.
  intros symbol exchange pairPart (-> & Hex & Hw & _ & Hp)%validateSymbolFormat_inv.
  assert (Ht : JS.truthy (exchange +:+ ":" +:+ pairPart) = true)
    by now apply truthy_app_l.
  split; [exact Ht |].
  unfold ChartImageClient.request_symbol_pattern. rewrite Ht. cbn [andb].
  rewrite all_chars_app.
  change (":" +:+ pairPart) with (String ":" pairPart). cbn [JS.all_chars].
  rewrite (all_chars_impl ChartImageClient.word_char _ exchange), 
          (all_chars_impl ChartImageClient.pair_char _ pairPart); try assumption;
    try reflexivity.
  - intros c Hc. unfold ChartImageClient.request_symbol_char. now rewrite Hc.
  - intros c Hc. unfold ChartImageClient.request_symbol_char,
      ChartImageClient.pair_char. now rewrite Hc.
Qed.

Lemma wellformed_symbol_passes_adapter_pattern_witness :
  JS.truthy "DRIFT:SOL-PERP" = true
  /\ ChartImageClient.request_symbol_pattern "DRIFT:SOL-PERP" = true.
Proof.
  exact (wellformed_symbol_passes_adapter_pattern "DRIFT:SOL-PERP" "DRIFT" "SOL-PERP"
           eq_refl).
Defined.

(** X3. For a symbol that [validateSymbolFormat] accepts,
    [validateSolanaSymbol] never raises its "Expected format:
    EXCHANGE:PAIR" error: it accepts exactly when the upper-cased exchange
    is one of the supported exchanges (so the exchange is matched without
    regard to case) and otherwise raises "Unsupported exchange". *)
Theorem validateSolanaSymbol_after_format :
  forall symbol exchange pairPart : string,
    ChartImageClient.validateSymbolFormat symbol = Some (exchange, pairPart) ->
    ChartService.validateSolanaSymbol symbol
    = if JS.array_includes Constants.SUPPORTED_SOLANA_EXCHANGES
           (JS.toUpperCase exchange)
      then Ok tt
      else Throw (ThrownError ChartValidationError
                    ("Unsupported exchange: " +:+ exchange
                     +:+ ". Supported exchanges: DRIFT, RAYDIUM, JUPITER, MANGO, PHOENIX")).
Proof.
  intros symbol exchange pairPart Hfmt.
  pose proof (validateSymbolFormat_split _ _ _ Hfmt) as Hsplit.
  apply validateSymbolFormat_inv in Hfmt as (_ & Hex & _ & Hpr & _).
  unfold ChartService.validateSolanaSymbol. rewrite Hsplit.
  cbn [lookup list_lookup JS.truthy_opt default from_option id].
  rewrite Hex, Hpr. cbn [negb orb throw_if andThen].
  destruct (JS.array_includes Constants.SUPPORTED_SOLANA_EXCHANGES
              (JS.toUpperCase exchange)); reflexivity.
Qed.

Lemma validateSolanaSymbol_after_format_witness :
  ChartService.validateSolanaSymbol "drift:sol-perp" = Ok tt.
Proof.
  exact (validateSolanaSymbol_after_format "drift:sol-perp" "drift" "sol-perp" eq_refl).
Defined.

Lemma upper_char_idem c : JS.upper_char (JS.upper_char c) = JS.upper_char c.
Proof. destruct c as [[] [] [] [] [] [] [] []]; reflexivity. Qed.

Lemma ci_eqb_upper a c : JS.ci_eqb a (JS.upper_char c) = JS.ci_eqb a c.
Proof. unfold JS.ci_eqb. now rewrite upper_char_idem. Qed.

Lemma starts_with_ci_upper p s :
  JS.starts_with_by JS.ci_eqb p (JS.toUpperCase s) = JS.starts_with_by JS.ci_eqb p s.
Proof.
  revert s. induction p as [| a p IH]; intros [| c s]; try reflexivity.
  cbn. now rewrite ci_eqb_upper, IH.
Qed.

Lemma includes_ci_upper p s :
  JS.includes_by JS.ci_eqb p (JS.toUpperCase s) = JS.includes_by JS.ci_eqb p s.
Proof.
  induction s as [| c s IH].
  - reflexivity.
  - change (JS.toUpperCase (String c s))
      with (String (JS.upper_char c) (JS.toUpperCase s)).
    cbn [JS.includes_by]. rewrite IH. f_equal.
    apply (starts_with_ci_upper p (String c s)).
Qed.

(** X4. For an ASCII symbol (which is what [createSnapshot] hands to the
    blocklist, after [validateSymbolFormat]), the blocklist does not depend
    on the case of the letters: the symbol is restricted exactly when its
    upper-case form is. The assumption is needed for the code, not for the
    model: outside ASCII [toUpperCase] can turn a symbol into one that a
    pattern matches. *)
Theorem isRestrictedSymbol_ignores_case :
  forall symbol : string,
    JS.is_ascii symbol = true ->
    Constants.isRestrictedSymbol (JS.toUpperCase symbol)
    = Constants.isRestrictedSymbol symbol.
Proof.
  intros symbol _. unfold Constants.isRestrictedSymbol, Constants.RESTRICTED_PATTERNS.
  cbn [existsb]. now rewrite !starts_with_ci_upper, includes_ci_upper.
Qed.

Lemma isRestrictedSymbol_ignores_case_witness :
  Constants.isRestrictedSymbol "DRIFT:SCAMCOIN" = true
  /\ Constants.isRestrictedSymbol "drift:ScamCoin" = true.
Proof.
  split; [reflexivity |].
  rewrite <- (isRestrictedSymbol_ignores_case "drift:ScamCoin" eq_refl).
  reflexivity.
Defined.

(** ** What [createSnapshot] does *)

Lemma getTimeoutForToken_values token :
  Constants.getTimeoutForToken token = 15000
  \/ Constants.getTimeoutForToken token = 20000.
Proof.
  unfold Constants.getTimeoutForToken.
  destruct (JS.array_includes _ _); [left | right]; reflexivity.
Qed.

Lemma snapshot_timeout token :
  or_default_num (Some (Constants.getTimeoutForToken token))
                 ChartImageClient.defaultTimeout
  = Constants.getTimeoutForToken token.
Proof.
  destruct (getTimeoutForToken_values token) as [-> | ->]; reflexivity.
Qed.

(** What [createSnapshot] does once both validations have passed: one call,
    and an outcome that depends on the provider's answer only. *)
Lemma createSnapshot_validated w request tr :
  ChartService.validateBusinessRules request = Ok tt ->
  ChartImageClient.validateRequest request = Ok tt ->
  ChartService.createSnapshot w request tr
  = (match fetch_reply w
             (ChartImageClient.buildRequestBody request
                (Some (snapshotOptions (symbol request))))
             (Constants.getTimeoutForToken
                (ChartService.extractTokenFromSymbol (symbol request))) with
     | FetchOk buf ct =>
         Ok {| res_imageBuffer := buf;
               res_contentType := or_default ct "image/png";
               res_size := Z.of_nat (List.length buf);
               res_metadata :=
                 {| md_symbol := symbol request;
                    md_interval := interval request;
                    md_width := width request;
                    md_height := height request;
                    md_theme := theme request;
                    md_generatedAt := now w |} |}
     | FetchNotOk status statusText errorData =>
         Throw (ThrownError ChartGenerationError
                  ("Chart snapshot creation failed: " +:+
                   message_or_unknown
                     (ChartImageClient.handleApiError status statusText errorData)))
     | FetchAborted =>
         Throw (ThrownError ChartGenerationError
                  ("Chart snapshot creation failed: Request timeout after " +:+
                   pretty (Constants.getTimeoutForToken
                             (ChartService.extractTokenFromSymbol (symbol request)))
                   +:+ "ms"))
     | FetchFailed e =>
         Throw (ThrownError ChartGenerationError
                  ("Chart snapshot creation failed: " +:+
                   (if ChartImageClient.is_api_error e then message_or_unknown e
                    else "Chart image generation failed: " +:+ message_or_unknown e)))
     end,
     tr ++ [snapshotCall request]).
Proof.
  intros Hrules Hreq.
  unfold ChartService.createSnapshot, snapshotCall.
  fold (snapshotOptions (symbol request)).
  unfold try_catch. rewrite (run_lift_ok _ _ _ _ Hrules).
  cbv zeta. rewrite mapToChartImageRequest_id.
  unfold bind at 1. unfold ChartImageClient.generateChartImage.
  rewrite (run_lift_ok _ _ _ _ Hreq).
  unfold try_catch, bind, ChartImageClient.makeApiRequest, bind, emit, ret, throw.
  cbn [mbind option_bind opt_timeout snapshotOptions].
  rewrite snapshot_timeout.
  destruct (fetch_reply w _ _) as [buf ct | status statusText errorData | | e];
    cbn [fst snd imageBuffer contentType byteSize].
  - reflexivity.
  - unfold ChartImageClient.handleApiError.
    destruct errorData as [errs | m |]; [| destruct (JS.truthy m) |]; reflexivity.
  - reflexivity.
  - destruct e as [[] m | v]; reflexivity.
Qed.

(** The three ways [createSnapshot] can go. *)
Lemma createSnapshot_cases w request tr :
  (exists e, ChartService.validateBusinessRules request = Throw e
             /\ ChartService.createSnapshot w request tr
                = (Throw (ThrownError ChartGenerationError
                            ("Chart snapshot creation failed: " +:+ message_or_unknown e)),
                   tr))
  \/ (exists m, ChartService.validateBusinessRules request = Ok tt
                /\ ChartImageClient.validateRequest request
                   = Throw (ThrownError ChartImageValidationError m)
                /\ ChartService.createSnapshot w request tr
                   = (Throw (ThrownError ChartValidationError m), tr))
  \/ (ChartService.validateBusinessRules request = Ok tt
      /\ ChartImageClient.validateRequest request = Ok tt).
Proof.
  destruct (ChartService.validateBusinessRules request) as [[] | e] eqn:Hrules.
  - destruct (ChartImageClient.validateRequest request) as [[] | e] eqn:Hreq.
    + right. right. split; reflexivity.
    + right. left.
      destruct (validateRequest_throws_validation _ _ Hreq) as [m ->].
      exists m. repeat split. now apply createSnapshot_adapter_rejects.
    - left. exists e. split; [reflexivity |].
      now apply createSnapshot_business_failure.
Qed.

(** X5. [createSnapshot] fails only with a ChartGenerationError or a
    ChartValidationError, and with the latter only when the business rules
    passed and the adapter's [validateRequest] rejected the request, whose
    message it then carries; no call has been made in that case. *)
Theorem createSnapshot_failure_classes :
  forall (w : World) (request : ChartRequest) (tr tr' : list Event) (e : Thrown),
    ChartService.createSnapshot w request tr = (Throw e, tr') ->
    (exists m, e = ThrownError ChartGenerationError m)
    \/ (exists m, e = ThrownError ChartValidationError m
                  /\ ChartService.validateBusinessRules request = Ok tt
                  /\ ChartImageClient.validateRequest request
                     = Throw (ThrownError ChartImageValidationError m)
                  /\ tr' = tr).
Proof.
  intros w request tr tr' e Hrun.
  destruct (createSnapshot_cases w request tr)
    as [(e0 & _ & H) | [(m & Hrules & Hreq & H) | (Hrules & Hreq)]].
  - rewrite H in Hrun. inversion Hrun; subst. left. eauto.
  - rewrite H in Hrun. inversion Hrun; subst. right. exists m. auto.
  - rewrite (createSnapshot_validated w request tr Hrules Hreq) in Hrun.
    destruct (fetch_reply w _ _); inversion Hrun; subst; left; eauto.
Qed.

Lemma createSnapshot_failure_classes_witness :
  exists m,
    ThrownError ChartGenerationError
      "Chart snapshot creation failed: Rate limit exceeded"
    = ThrownError ChartGenerationError m.
Proof.
  destruct (createSnapshot_failure_classes MoreSamples.busyProvider
              (Samples.request "DRIFT:SOL-PERP" "1D" 800 600) [] _ _ eq_refl)
    as [H | (m & H & _)]; [exact H | discriminate H].
Defined.

(** X6. [createSnapshot] calls the provider at most once, and only for a
    request that passed the business rules and the adapter's validation;
    the call carries the request, the format "png", the locale "en" and a
    timeout of 15000 or 20000 ms (never the adapter's default of 30000).
    When either validation fails no call is made. *)
Theorem createSnapshot_calls_provider_once :
  forall (w : World) (request : ChartRequest) (tr tr' : list Event)
         (r : Result ChartGenerationResult),
    ChartService.createSnapshot w request tr = (r, tr') ->
    (tr' = tr
     /\ (exists e, r = Throw e)
     /\ (ChartService.validateBusinessRules request <> Ok tt
         \/ ChartImageClient.validateRequest request <> Ok tt))
    \/ (exists (body : RequestBody) (timeoutMs : Z),
          tr' = tr ++ [EvFetch body timeoutMs]
          /\ ChartService.validateBusinessRules request = Ok tt
          /\ ChartImageClient.validateRequest request = Ok tt
          /\ (timeoutMs = 15000 \/ timeoutMs = 20000)
          /\ body_symbol body = symbol request
          /\ body_interval body = interval request
          /\ body_width body = width request
          /\ body_height body = height request
          /\ body_theme body = theme request
          /\ body_format body = "png"%string
          /\ body_locale body = Some "en"%string).
Proof.
  intros w request tr tr' r Hrun.
  destruct (createSnapshot_cases w request tr)
    as [(e0 & Hrules & H) | [(m & Hrules & Hreq & H) | (Hrules & Hreq)]].
  - rewrite H in Hrun. inversion Hrun; subst. left.
    split; [reflexivity |]. split; [eauto |]. left. rewrite Hrules. discriminate.
  - rewrite H in Hrun. inversion Hrun; subst. left.
    split; [reflexivity |]. split; [eauto |]. right. rewrite Hreq. discriminate.
  - rewrite (createSnapshot_validated w request tr Hrules Hreq) in Hrun.
    inversion Hrun; subst. right. eexists. eexists.
    split; [reflexivity |]. repeat split; try assumption.
    apply getTimeoutForToken_values.
Qed.

Lemma createSnapshot_calls_provider_once_witness :
  snd (ChartService.createSnapshot Samples.world
         (Samples.request "DRIFT:SOL-PERP" "1D" 800 600) [])
  = [snapshotCall (Samples.request "DRIFT:SOL-PERP" "1D" 800 600)].
Proof.
  destruct (createSnapshot_calls_provider_once Samples.world
              (Samples.request "DRIFT:SOL-PERP" "1D" 800 600) [] _ _ eq_refl)
    as [(H & _) | (body & t & H & _)]; reflexivity.
Defined.

(** X7. [createSnapshot] succeeds exactly when the business rules and the
    adapter's validation pass and the provider answers the one call with an
    image; the result then holds the image, its byte length, the content
    type of the answer ("image/png" when the answer has none), the fields
    of the request and the time of generation. *)
Theorem createSnapshot_success :
  forall (w : World) (request : ChartRequest) (tr tr' : list Event)
         (result : ChartGenerationResult),
    ChartService.createSnapshot w request tr = (Ok result, tr')
    <-> (ChartService.validateBusinessRules request = Ok tt
         /\ ChartImageClient.validateRequest request = Ok tt
         /\ tr' = tr ++ [snapshotCall request]
         /\ exists buf ct,
              fetch_reply w
                (ChartImageClient.buildRequestBody request
                   (Some (snapshotOptions (symbol request))))
                (Constants.getTimeoutForToken
                   (ChartService.extractTokenFromSymbol (symbol request)))
              = FetchOk buf ct
              /\ result
                 = {| res_imageBuffer := buf;
                      res_contentType := or_default ct "image/png";
                      res_size := Z.of_nat (List.length buf);
                      res_metadata :=
                        {| md_symbol := symbol request;
                           md_interval := interval request;
                           md_width := width request;
                           md_height := height request;
                           md_theme := theme request;
                           md_generatedAt := now w |} |}).
Proof.
  intros w request tr tr' result. split.
  - intros Hrun.
    destruct (createSnapshot_cases w request tr)
      as [(e0 & _ & H) | [(m & _ & _ & H) | (Hrules & Hreq)]];
      try (rewrite H in Hrun; discriminate).
    rewrite (createSnapshot_validated w request tr Hrules Hreq) in Hrun.
    destruct (fetch_reply w _ _) as [buf ct | | |] eqn:Hf; try discriminate.
    inversion Hrun; subst. repeat split; try assumption. eauto.
  - intros (Hrules & Hreq & -> & buf & ct & Hf & ->).
    rewrite (createSnapshot_validated w request tr Hrules Hreq), Hf. reflexivity.
Qed.

Lemma createSnapshot_success_witness :
  exists result,
    ChartService.createSnapshot Samples.world
      (Samples.request "DRIFT:SOL-PERP" "1D" 800 600) []
    = (Ok result, [snapshotCall (Samples.request "DRIFT:SOL-PERP" "1D" 800 600)])
    /\ res_contentType result = "image/png"%string.
Proof.
  eexists. split.
  - apply (proj2 (createSnapshot_success Samples.world
                    (Samples.request "DRIFT:SOL-PERP" "1D" 800 600) [] _ _)).
    split; [reflexivity |]. split; [reflexivity |]. split; [reflexivity |].
    eexists. eexists. split; reflexivity.
  - reflexivity.
Defined.

(** ** What [uploadChartImage] and POST /image/ do *)

(** What [uploadChartImage] does once the key is generated: one put under
    that key, and an outcome that depends on the bucket's answer only. *)
Lemma uploadChartImage_run w customDomain buffer symbol metadata objectKey tr :
  StorageService.generateFileName symbol metadata = Ok objectKey ->
  exists cm,
    StorageService.buildStorageMetadata symbol metadata = Ok cm
    /\ StorageService.uploadChartImage w customDomain buffer symbol metadata tr
       = (match put_reply w objectKey buffer with
          | Ok (Some obj) =>
              match JSDate.toISOString (uploaded obj) with
              | Some iso =>
                  Ok {| fileName := key obj;
                        publicUrl := StorageService.buildPublicUrl customDomain (key obj);
                        uploadedAt := iso;
                        upload_size := size obj;
                        upload_etag := etag obj |}
              | None =>
                  Throw (ThrownError StorageUploadError
                           "Failed to upload chart image: Invalid time value")
              end
          | Ok None =>
              Throw (ThrownError StorageUploadError
                       "Failed to upload chart image: R2 upload failed: Failed to upload object to R2")
          | Throw e =>
              Throw (ThrownError StorageUploadError
                       ("Failed to upload chart image: R2 upload failed: "
                        +:+ message_or_unknown e))
          end,
          tr ++ [EvPut objectKey buffer "image/png" "public, max-age=3600" cm]).
Proof.
  intros Hkey. destruct (generateFileName_inv _ _ _ Hkey) as [iso Hiso].
  unfold StorageService.uploadChartImage.
  rewrite (run_lift_ok _ _ _ _ Hkey).
  unfold StorageService.buildStorageMetadata, StorageService.isoString.
  rewrite Hiso. cbn [andThen]. eexists. split; [reflexivity |].
  unfold try_catch, bind, lift, R2Client.uploadObject, try_catch, bind, emit,
    lift, ret, throw.
  destruct (put_reply w objectKey buffer) as [[obj |] | e]; cbn; try reflexivity.
  destruct (JSDate.toISOString (uploaded obj)); reflexivity.
Qed.

(** X8. [uploadChartImage] fails with a StorageUploadError once the key
    could be generated, after exactly one put under that key; only an
    invalid generation date fails earlier, with the RangeError of
    [toISOString] unwrapped and before any put. *)
Theorem uploadChartImage_failure_classes :
  forall (w : World) (customDomain : string) (buffer : list Byte.byte)
         (symbol : string) (metadata : UploadMetadata)
         (tr tr' : list Event) (e : Thrown),
    StorageService.uploadChartImage w customDomain buffer symbol metadata tr
    = (Throw e, tr') ->
    (exists m objectKey cm,
        e = ThrownError StorageUploadError m
        /\ StorageService.generateFileName symbol metadata = Ok objectKey
        /\ tr' = tr ++ [EvPut objectKey buffer "image/png" "public, max-age=3600" cm])
    \/ (exists m,
          e = ThrownError BuiltinRangeError m
          /\ JSDate.toISOString (um_generatedAt metadata) = None
          /\ tr' = tr).
Proof.
  intros w customDomain buffer symbol metadata tr tr' e Hrun.
  destruct (StorageService.generateFileName symbol metadata) as [objectKey | e0] eqn:Hkey.
  - left. destruct (uploadChartImage_run w customDomain buffer _ _ _ tr Hkey)
      as (cm & _ & H).
    rewrite H in Hrun.
    destruct (put_reply w objectKey buffer) as [[obj |] | e1];
      [destruct (JSDate.toISOString (uploaded obj)) |..];
      inversion Hrun; subst; eauto 6.
  - right. unfold StorageService.uploadChartImage in Hrun.
    rewrite (run_lift_throw _ _ _ _ Hkey) in Hrun. inversion Hrun; subst.
    unfold StorageService.generateFileName, StorageService.isoString in Hkey.
    destruct (JSDate.toISOString (um_generatedAt metadata)); [discriminate |].
    inversion Hkey; subst. eauto.
Qed.

Lemma uploadChartImage_failure_classes_witness :
  exists m,
    ThrownError StorageUploadError
      "Failed to upload chart image: R2 upload failed: bucket is full"
    = ThrownError StorageUploadError m.
Proof.
  destruct (uploadChartImage_failure_classes MoreSamples.fullBucket
              "cdn.example.com" [] "DRIFT:SOL-PERP" Samples.uploadMetadata
              [] _ _ eq_refl)
    as [(m & k & cm & H & _) | (m & H & _)]; [eauto | discriminate H].
Defined.

(** The defaults of the handler and of [createChartRequest] are the same,
    so applying both changes nothing. *)
Lemma createChartRequest_defaults body :
  ImageRoutes.createChartRequest
    {| so_symbol := Some (or_default (so_symbol body) "BINANCE:BTCUSDT");
       so_interval := Some (or_default (so_interval body) "1D");
       so_width := Some (or_default_num (so_width body) 800);
       so_height := Some (or_default_num (so_height body) 600);
       so_theme := Some (or_default (so_theme body) "dark") |}
  = ImageRoutes.createChartRequest body.
Proof.
  unfold ImageRoutes.createChartRequest. cbn [so_symbol so_interval so_width so_height so_theme].
  f_equal.
  - destruct (so_symbol body) as [s |]; [| reflexivity]. cbn.
    destruct (JS.truthy s) eqn:E; [now rewrite E | reflexivity].
  - destruct (so_interval body) as [s |]; [| reflexivity]. cbn.
    destruct (JS.truthy s) eqn:E; [now rewrite E | reflexivity].
  - destruct (so_width body) as [n |]; [| reflexivity]. cbn.
    destruct (n =? 0) eqn:E; [reflexivity | now rewrite E].
  - destruct (so_height body) as [n |]; [| reflexivity]. cbn.
    destruct (n =? 0) eqn:E; [reflexivity | now rewrite E].
  - destruct (so_theme body) as [s |]; [| reflexivity]. cbn.
    destruct (JS.truthy s) eqn:E; [now rewrite E | reflexivity].
Qed.

(** The [try] block of POST /image/ for a readable body and a complete
    configuration. *)
Lemma snapshotAndStore_configured w env body apiKey customDomain tr :
  ImageRoutes.validateEnvironment env = inr (apiKey, customDomain) ->
  ImageRoutes.snapshotAndStore w env (Ok body) tr
  = (let chartRequest := ImageRoutes.createChartRequest body in
     chartResult <- ChartService.createSnapshot w chartRequest ;;
     uploadResult <- StorageService.uploadChartImage w customDomain
       (res_imageBuffer chartResult) (symbol chartRequest)
       {| um_interval := interval chartRequest;
          um_theme := theme chartRequest;
          um_width := width chartRequest;
          um_height := height chartRequest;
          um_generatedAt := md_generatedAt (res_metadata chartResult) |} ;;
     ret {| status := 200;
            body := SuccessBody
              {| d_fileName := fileName uploadResult;
                 d_publicUrl := publicUrl uploadResult;
                 d_symbol := symbol chartRequest;
                 d_interval := interval chartRequest;
                 d_width := width chartRequest;
                 d_height := height chartRequest;
                 d_theme := theme chartRequest;
                 d_uploadedAt := uploadedAt uploadResult;
                 d_size := upload_size uploadResult;
                 d_etag := upload_etag uploadResult |} |})%M tr.
Proof.
  intros Henv. unfold ImageRoutes.snapshotAndStore.
  rewrite (run_lift_ok _ _ _ _ eq_refl). rewrite Henv.
  cbv beta iota zeta. rewrite createChartRequest_defaults. reflexivity.
Qed.

Lemma putKeys_app tr1 tr2 : putKeys (tr1 ++ tr2) = putKeys tr1 ++ putKeys tr2.
Proof. apply List.flat_map_app. Qed.

(** X9. When [createSnapshot] fails, POST /image/ (with a readable body and
    a complete configuration) stores nothing and answers with the error's
    message and status 400 or 502; the status is 400 only when the adapter's
    validation rejected the request. *)
Theorem postImage_generation_failure :
  forall (w : World) (env : Bindings) (body : ChartSnapshotOptions)
         (apiKey customDomain : string) (tr tr' : list Event) (e : Thrown),
    ImageRoutes.validateEnvironment env = inr (apiKey, customDomain) ->
    ChartService.createSnapshot w (ImageRoutes.createChartRequest body) tr
    = (Throw e, tr') ->
    exists code,
      ImageRoutes.postImage w env (Ok body) tr
      = (Ok {| status := code; body := FailureBody (message_or_unknown e) |}, tr')
      /\ putKeys tr' = putKeys tr
      /\ (code = 502
          \/ (code = 400
              /\ exists m, ChartImageClient.validateRequest
                             (ImageRoutes.createChartRequest body)
                           = Throw (ThrownError ChartImageValidationError m))).
Proof.
  intros w env body apiKey customDomain tr tr' e Henv Hrun.
  assert (Hbody : ImageRoutes.snapshotAndStore w env (Ok body) tr = (Throw e, tr')).
  { rewrite (snapshotAndStore_configured _ _ _ _ _ _ Henv).
    cbv zeta. unfold bind at 1. now rewrite Hrun. }
  unfold ImageRoutes.postImage. rewrite (try_catch_throw _ _ _ _ _ Hbody).
  destruct (createSnapshot_cases w (ImageRoutes.createChartRequest body) tr)
    as [(e0 & _ & H) | [(m & _ & Hreq & H) | (Hrules & Hreq)]].
  - rewrite H in Hrun. inversion Hrun; subst. exists 502. repeat split; auto.
  - rewrite H in Hrun. inversion Hrun; subst. exists 400.
    repeat split; auto. right. eauto.
  - rewrite (createSnapshot_validated w _ tr Hrules Hreq) in Hrun.
    assert (Hputs : putKeys tr' = putKeys tr).
    { inversion Hrun; subst. rewrite putKeys_app. cbn. apply app_nil_r. }
    destruct (fetch_reply w _ _); inversion Hrun; subst;
      exists 502; repeat split; auto.
Qed.

Lemma postImage_generation_failure_witness :
  exists code,
    ImageRoutes.postImage MoreSamples.busyProvider Samples.bindings
      (Ok (Samples.bodyWithSymbol "DRIFT:SOL-PERP")) []
    = (Ok {| status := code;
             body := FailureBody
               "Chart snapshot creation failed: Rate limit exceeded" |},
       [snapshotCall (Samples.request "DRIFT:SOL-PERP" "1D" 800 600)]).
Proof.
  destruct (postImage_generation_failure MoreSamples.busyProvider Samples.bindings
              (Samples.bodyWithSymbol "DRIFT:SOL-PERP") "key" "cdn.example.com"
              [] _ _ eq_refl eq_refl) as (code & H & _).
  exists code. exact H.
Defined.

(** X10. When the image was generated but [uploadChartImage] fails, POST
    /image/ answers 503 with the fixed message "Failed to store chart
    image", whatever the store's error says; the provider was called once
    and one put was attempted. *)
Theorem postImage_storage_failure :
  forall (w : World) (env : Bindings) (body : ChartSnapshotOptions)
         (apiKey customDomain : string) (tr tr1 tr2 : list Event)
         (chartResult : ChartGenerationResult) (e : Thrown) (iso : string),
    ImageRoutes.validateEnvironment env = inr (apiKey, customDomain) ->
    JSDate.toISOString (now w) = Some iso ->
    ChartService.createSnapshot w (ImageRoutes.createChartRequest body) tr
    = (Ok chartResult, tr1) ->
    (let chartRequest := ImageRoutes.createChartRequest body in
     StorageService.uploadChartImage w customDomain
       (res_imageBuffer chartResult) (symbol chartRequest)
       {| um_interval := interval chartRequest;
          um_theme := theme chartRequest;
          um_width := width chartRequest;
          um_height := height chartRequest;
          um_generatedAt := md_generatedAt (res_metadata chartResult) |} tr1)
    = (Throw e, tr2) ->
    ImageRoutes.postImage w env (Ok body) tr
    = (Ok {| status := 503; body := FailureBody "Failed to store chart image" |}, tr2)
    /\ exists objectKey cm,
         tr2 = tr ++ [snapshotCall (ImageRoutes.createChartRequest body);
                      EvPut objectKey (res_imageBuffer chartResult)
                            "image/png" "public, max-age=3600" cm].
Proof.
  intros w env body apiKey customDomain tr tr1 tr2 chartResult e iso
    Henv Hnow Hsnap Hup. cbv zeta in Hup.
  assert (Hbody : ImageRoutes.snapshotAndStore w env (Ok body) tr = (Throw e, tr2)).
  { rewrite (snapshotAndStore_configured _ _ _ _ _ _ Henv).
    cbv zeta. unfold bind at 1. rewrite Hsnap.
    unfold bind at 1. now rewrite Hup. }
  unfold ImageRoutes.postImage. rewrite (try_catch_throw _ _ _ _ _ Hbody).
  clear Hbody. set (request := ImageRoutes.createChartRequest body) in *.
  clearbody request.
  destruct (createSnapshot_cases w request tr)
    as [(e0 & _ & H) | [(m & _ & _ & H) | (Hrules & Hreq)]];
    try (rewrite H in Hsnap; discriminate).
  rewrite (createSnapshot_validated w request tr Hrules Hreq) in Hsnap.
  destruct (fetch_reply w _ _) as [buf ct | | |]; try discriminate.
  inversion Hsnap; subst chartResult tr1. clear Hsnap.
  cbn [res_metadata md_generatedAt res_imageBuffer] in Hup |- *.
  pose proof (generateFileName_ok (symbol request)
                {| um_interval := interval request;
                   um_theme := theme request;
                   um_width := width request;
                   um_height := height request;
                   um_generatedAt := now w |} iso Hnow) as Hkey.
  destruct (uploadChartImage_run w customDomain buf _ _ _
              (tr ++ [snapshotCall request]) Hkey) as (cm & _ & Hrun).
  rewrite Hrun in Hup.
  destruct (put_reply w _ buf) as [[obj |] | e1];
    [destruct (JSDate.toISOString (uploaded obj)) |..];
    inversion Hup; subst e tr2; (split; [reflexivity |]);
    eexists; exists cm; rewrite <- app_assoc; reflexivity.
Qed.

Lemma postImage_storage_failure_witness :
  fst (ImageRoutes.postImage MoreSamples.fullBucket Samples.bindings
         (Ok (Samples.bodyWithSymbol "DRIFT:SOL-PERP")) [])
  = Ok {| status := 503; body := FailureBody "Failed to store chart image" |}.
Proof.
  exact (f_equal fst
           (proj1 (postImage_storage_failure MoreSamples.fullBucket Samples.bindings
                     (Samples.bodyWithSymbol "DRIFT:SOL-PERP") "key" "cdn.example.com"
                     [] _ _ _ _ "2023-11-14T22:13:20.123Z"
                     eq_refl eq_refl eq_refl eq_refl))).
Defined.

(** X11. The success path of POST /image/: for a request that passes both
    validations, a provider that answers with an image and a bucket that
    stores it, the answer is 200; fileName, size, etag and uploadedAt are
    what the bucket reports, publicUrl is "https://" + domain + "/" +
    fileName, the other fields are the request with its defaults; one
    provider call and one put under the generated key were made. *)
Theorem postImage_success_path :
  forall (w : World) (env : Bindings) (body : ChartSnapshotOptions)
         (apiKey customDomain : string) (tr : list Event)
         (buf : list Byte.byte) (ct : option string)
         (objectKey uploadedIso : string) (obj : R2ObjectMetadata),
    let chartRequest := ImageRoutes.createChartRequest body in
    let metadata :=
      {| um_interval := interval chartRequest;
         um_theme := theme chartRequest;
         um_width := width chartRequest;
         um_height := height chartRequest;
         um_generatedAt := now w |} in
    ImageRoutes.validateEnvironment env = inr (apiKey, customDomain) ->
    ChartService.validateBusinessRules chartRequest = Ok tt ->
    ChartImageClient.validateRequest chartRequest = Ok tt ->
    fetch_reply w
      (ChartImageClient.buildRequestBody chartRequest
         (Some (snapshotOptions (symbol chartRequest))))
      (Constants.getTimeoutForToken
         (ChartService.extractTokenFromSymbol (symbol chartRequest)))
    = FetchOk buf ct ->
    StorageService.generateFileName (symbol chartRequest) metadata = Ok objectKey ->
    put_reply w objectKey buf = Ok (Some obj) ->
    JSDate.toISOString (uploaded obj) = Some uploadedIso ->
    exists cm,
      ImageRoutes.postImage w env (Ok body) tr
      = (Ok {| status := 200;
               body := SuccessBody
                 {| d_fileName := key obj;
                    d_publicUrl := "https://" +:+ customDomain +:+ "/" +:+ key obj;
                    d_symbol := symbol chartRequest;
                    d_interval := interval chartRequest;
                    d_width := width chartRequest;
                    d_height := height chartRequest;
                    d_theme := theme chartRequest;
                    d_uploadedAt := uploadedIso;
                    d_size := size obj;
                    d_etag := etag obj |} |},
         tr ++ [snapshotCall chartRequest;
                EvPut objectKey buf "image/png" "public, max-age=3600" cm]).
Proof.
  intros w env body apiKey customDomain tr buf ct objectKey uploadedIso obj
    chartRequest metadata Henv Hrules Hreq Hfetch Hkey Hput Hiso.
  destruct (uploadChartImage_run w customDomain buf (symbol chartRequest) metadata
              objectKey (tr ++ [snapshotCall chartRequest]) Hkey) as (cm & _ & Hup).
  rewrite Hput, Hiso in Hup.
  exists cm. unfold ImageRoutes.postImage.
  erewrite try_catch_ok; [reflexivity |].
  rewrite (snapshotAndStore_configured _ _ _ _ _ _ Henv).
  cbv zeta. fold chartRequest. unfold bind at 1.
  rewrite (createSnapshot_validated w chartRequest tr Hrules Hreq), Hfetch.
  cbn [res_imageBuffer res_metadata md_generatedAt].
  unfold bind at 1. fold metadata. rewrite Hup.
  unfold ret. cbn [fileName publicUrl uploadedAt upload_size upload_etag].
  unfold StorageService.buildPublicUrl. rewrite <- app_assoc. reflexivity.
Qed.

Lemma postImage_success_path_witness :
  exists cm,
    ImageRoutes.postImage Samples.world Samples.bindings
      (Ok (Samples.bodyWithSymbol "DRIFT:SOL-PERP")) []
    = (Ok {| status := 200;
             body := SuccessBody
               {| d_fileName := "charts/2023-11-14T22-13-20-123Z_DRIFT_SOL_PERP_1D_dark_800x600.png";
                  d_publicUrl := "https://cdn.example.com/charts/2023-11-14T22-13-20-123Z_DRIFT_SOL_PERP_1D_dark_800x600.png";
                  d_symbol := "DRIFT:SOL-PERP";
                  d_interval := "1D";
                  d_width := 800;
                  d_height := 600;
                  d_theme := "dark";
                  d_uploadedAt := "2023-11-14T22:13:21.000Z";
                  d_size := 0;
                  d_etag := "etag-1" |} |},
       [snapshotCall (Samples.request "DRIFT:SOL-PERP" "1D" 800 600);
        EvPut "charts/2023-11-14T22-13-20-123Z_DRIFT_SOL_PERP_1D_dark_800x600.png"
              [] "image/png" "public, max-age=3600" cm]).
Proof.
  exact (postImage_success_path Samples.world Samples.bindings
           (Samples.bodyWithSymbol "DRIFT:SOL-PERP") "key" "cdn.example.com" []
           [] (Some "image/png"%string)
           "charts/2023-11-14T22-13-20-123Z_DRIFT_SOL_PERP_1D_dark_800x600.png"
           "2023-11-14T22:13:21.000Z"
           {| key := "charts/2023-11-14T22-13-20-123Z_DRIFT_SOL_PERP_1D_dark_800x600.png";
              size := 0; etag := "etag-1";
              uploaded := JSDate.ValidDate 1700000001000;
              customMetadata := None |}
           eq_refl eq_refl eq_refl eq_refl eq_refl eq_refl eq_refl).
Defined.

(** X12. A missing API key or bucket binding short-circuits POST /image/
    after the body is read: the answer is 500 with the body {error} (the key
    is checked first) and no call leaves the worker. *)
Theorem postImage_missing_configuration :
  forall (w : World) (env : Bindings) (body : ChartSnapshotOptions)
         (tr : list Event),
    JS.truthy_opt (CHART_IMG_API_KEY env) = false
    \/ TRADINGVIEW_BUCKET env = false ->
    ImageRoutes.postImage w env (Ok body) tr
    = (Ok {| status := 500;
             body := ConfigErrorBody
               (if JS.truthy_opt (CHART_IMG_API_KEY env)
                then "Storage not configured"
                else "API key not configured") |}, tr).
Proof.
  intros w env body tr Hmissing.
  unfold ImageRoutes.postImage, ImageRoutes.snapshotAndStore, try_catch.
  rewrite (run_lift_ok _ _ _ _ eq_refl).
  unfold ImageRoutes.validateEnvironment.
  destruct (JS.truthy_opt (CHART_IMG_API_KEY env)); [| reflexivity].
  destruct Hmissing as [H | H]; [discriminate |]. rewrite H. reflexivity.
Qed.

Lemma postImage_missing_configuration_witness :
  ImageRoutes.postImage Samples.world MoreSamples.noBucket
    (Ok (Samples.bodyWithSymbol "DRIFT:SOL-PERP")) []
  = (Ok {| status := 500; body := ConfigErrorBody "Storage not configured" |}, []).
Proof.
  exact (postImage_missing_configuration Samples.world MoreSamples.noBucket
           (Samples.bodyWithSymbol "DRIFT:SOL-PERP") [] (or_intror eq_refl)).
Defined.

(** ** Sorting, in general *)

Lemma array_sort_neutral {A} (compare : A -> A -> Z) l :
  (forall x y, (compare x y >? 0) = false) ->
  ImageService.array_sort compare l = l.
Proof.
  intros Hzero. induction l as [| x l IH]; [reflexivity |].
  cbn [ImageService.array_sort]. rewrite IH.
  destruct l as [| y l]; [reflexivity |].
  cbn [ImageService.insert_by]. now rewrite Hzero.
Qed.

(** X13. [sortImages] never drops or duplicates an image: for every sort
    key and order its result is a permutation of its input (so the count of
    a page is unchanged), and for a sortBy value it does not know the list
    comes back as it was. *)
Theorem sortImages_permutation :
  forall (images : list ImageDetails) (sortBy : SortBy) (order : SortOrder),
    Permutation (ImageService.sortImages images sortBy order) images
    /\ List.length (ImageService.sortImages images sortBy order) = List.length images
    /\ (forall name, ImageService.sortImages images (ByOther name) order = images).
Proof.
  intros images sortBy order.
  assert (Hperm : Permutation (ImageService.sortImages images sortBy order) images)
    by apply array_sort_perm.
  split; [exact Hperm |]. split; [exact (Permutation_length Hperm) |].
  intros name. apply array_sort_neutral. reflexivity.
Qed.

Lemma sizeOrdered_trans order : Relations_1.Transitive (sizeOrdered order).
Proof. intros x y z. destruct order; unfold sizeOrdered; lia. Qed.

(** X14. Sorting by size puts images of any number in the order asked
    for: in ascending order no image is larger than any image after it, in
    descending order none is smaller. *)
Theorem sortImages_by_size_ordered :
  forall (images : list ImageDetails) (order : SortOrder),
    StronglySorted (sizeOrdered order)
                   (ImageService.sortImages images BySize order).
Proof.
  intros images order. apply Sorted_StronglySorted.
  - apply sizeOrdered_trans.
  - apply sortImages_size_sorted.
Qed.

(** A list strictly ordered by size is determined by its elements. *)
Lemma strictly_ordered_unique (l1 l2 : list ImageDetails) :
  StronglySorted (fun x y => img_size x < img_size y) l1 ->
  StronglySorted (fun x y => img_size x < img_size y) l2 ->
  Permutation l1 l2 -> l1 = l2.
Proof.
  revert l2. induction l1 as [| x l1 IH]; intros l2 S1 S2 P.
  - apply Permutation_nil in P. now subst.
  - destruct l2 as [| y l2]; [apply Permutation_sym, Permutation_nil in P; discriminate |].
    inversion S1 as [| ? ? S1' F1]; subst. inversion S2 as [| ? ? S2' F2]; subst.
    assert (Hxy : x = y).
    { assert (Hx : In x (y :: l2)) by (eapply Permutation_in; [exact P | now left]).
      assert (Hy : In y (x :: l1))
        by (eapply Permutation_in; [exact (Permutation_sym P) | now left]).
      destruct Hx as [-> | Hx]; [reflexivity |].
      destruct Hy as [-> | Hy]; [reflexivity |].
      rewrite List.Forall_forall in F1, F2.
      specialize (F1 _ Hy). specialize (F2 _ Hx). lia. }
    subst y. f_equal. apply IH; try assumption.
    eapply Permutation_cons_inv. exact P.
Qed.

Lemma StronglySorted_snoc {A} (R : A -> A -> Prop) l x :
  StronglySorted R l -> Forall (fun y => R y x) l -> StronglySorted R (l ++ [x]).
Proof.
  induction l as [| y l IH]; intros S F.
  - repeat constructor.
  - inversion S as [| ? ? S' Fy]; subst. inversion F as [| ? ? Ryx F']; subst.
    cbn. constructor; [now apply IH |].
    apply List.Forall_app. split; [exact Fy | repeat constructor; exact Ryx].
Qed.

Lemma StronglySorted_rev {A} (R : A -> A -> Prop) l :
  StronglySorted R l -> StronglySorted (fun x y => R y x) (rev l).
Proof.
  induction 1 as [| x l S IH F]; [constructor |].
  cbn [rev]. apply StronglySorted_snoc; [exact IH |].
  apply List.Forall_rev. exact F.
Qed.

Lemma ordered_distinct_strict (l : list ImageDetails) :
  List.NoDup (map img_size l) ->
  StronglySorted (fun x y => img_size x <= img_size y) l ->
  StronglySorted (fun x y => img_size x < img_size y) l.
Proof.
  intros N S. induction S as [| x l S IH F]; [constructor |].
  cbn in N. inversion N as [| ? ? Hnotin N']; subst.
  constructor; [now apply IH |].
  rewrite List.Forall_forall in *. intros y Hy.
  assert (img_size x <> img_size y).
  { intros E. apply Hnotin. rewrite E. now apply List.in_map. }
  specialize (F y Hy). lia.
Qed.

(** X15. For images of any number with pairwise-distinct sizes, sorting by
    size in ascending order gives exactly the reverse of sorting in
    descending order. *)
Theorem sortImages_by_size_reverse :
  forall images : list ImageDetails,
    List.NoDup (map img_size images) ->
    ImageService.sortImages images BySize Asc
    = rev (ImageService.sortImages images BySize Desc).
Proof.
  intros images Hdistinct.
  assert (Pasc : Permutation (ImageService.sortImages images BySize Asc) images)
    by apply array_sort_perm.
  assert (Pdesc : Permutation (ImageService.sortImages images BySize Desc) images)
    by apply array_sort_perm.
  assert (Hordered : forall order,
            StronglySorted (sizeOrdered order)
                           (ImageService.sortImages images BySize order))
    by (intros order; apply Sorted_StronglySorted;
        [apply sizeOrdered_trans | apply sortImages_size_sorted]).
  apply strictly_ordered_unique.
  - apply ordered_distinct_strict.
    + eapply Permutation_NoDup; [| exact Hdistinct].
      apply Permutation_map, Permutation_sym, Pasc.
    + apply (Hordered Asc).
  - apply ordered_distinct_strict.
    + eapply Permutation_NoDup; [| exact Hdistinct].
      apply Permutation_map. rewrite <- Permutation_rev.
      apply Permutation_sym, Pdesc.
    + apply (StronglySorted_rev (sizeOrdered Desc)).
      apply (Hordered Desc).
  - rewrite Pasc, <- Permutation_rev, Pdesc. reflexivity.
Qed.

Lemma sortImages_by_size_reverse_witness :
  ImageService.sortImages
    [Samples.image "a" 4; Samples.image "b" 1; Samples.image "c" 3;
     Samples.image "d" 2] BySize Asc
  = rev (ImageService.sortImages
           [Samples.image "a" 4; Samples.image "b" 1; Samples.image "c" 3;
            Samples.image "d" 2] BySize Desc).
Proof.
  apply sortImages_by_size_reverse. cbn.
  repeat (constructor; [cbn; intuition lia |]). constructor.
Defined.

(** ** Listing and statistics, in general *)

Lemma toListedImages_app_inv customDomain a b l :
  StorageService.toListedImages customDomain (a ++ b) = Ok l ->
  exists la lb,
    StorageService.toListedImages customDomain a = Ok la
    /\ StorageService.toListedImages customDomain b = Ok lb
    /\ l = la ++ lb.
Proof.
  revert l. induction a as [| obj a IH]; intros l.
  - intros H. exists [], l. auto.
  - cbn [app StorageService.toListedImages].
    destruct (StorageService.isoString (uploaded obj)) as [iso |]; [| discriminate].
    cbn [andThen].
    destruct (StorageService.toListedImages customDomain (a ++ b)) as [l' |] eqn:E;
      [| discriminate].
    cbn [andThen]. intros [= <-].
    destruct (IH l' eq_refl) as (la & lb & -> & Hb & ->).
    cbn [andThen]. eauto.
Qed.

Lemma toListedImages_views customDomain objs l :
  StorageService.toListedImages customDomain objs = Ok l ->
  map li_fileName l = map key objs
  /\ map li_size l = map size objs
  /\ map li_publicUrl l
     = map (fun obj => "https://" +:+ customDomain +:+ "/" +:+ key obj) objs.
Proof.
  revert l. induction objs as [| obj objs IH]; intros l.
  - intros [= <-]. auto.
  - cbn [StorageService.toListedImages].
    destruct (StorageService.isoString (uploaded obj)) as [iso |]; [| discriminate].
    cbn [andThen].
    destruct (StorageService.toListedImages customDomain objs) as [l' |];
      [| discriminate].
    cbn [andThen]. intros [= <-].
    destruct (IH l' eq_refl) as (H1 & H2 & H3).
    cbn. now rewrite H1, H2, H3.
Qed.

Lemma image_list_limit limit :
  or_default_num (Some (or_default_num (Some (or_default_num limit 20)) 50)) 1000
  = or_default_num limit 20.
Proof.
  destruct limit as [n |]; [| reflexivity]. cbn.
  destruct (n =? 0) eqn:E; [reflexivity | now rewrite E, E].
Qed.

(** One call of [getImageList] against the page the bucket answers with. *)
Lemma getImageList_run customDomain page options tr :
  ImageService.getImageList customDomain (Some page) options tr
  = (match StorageService.toListedImages customDomain (bl_objects page) with
     | Ok listed =>
         Ok {| images := ImageService.applySort
                           (map ImageService.toImageDetails listed)
                           (o_sortBy options) (o_sortOrder options);
               hasMore := bl_truncated page;
               nextCursor := if bl_truncated page then bl_cursor page else None |}
     | Throw e =>
         Throw (ThrownError ImageListError
                  ("Failed to get image list: Failed to list chart images: "
                   +:+ message_or_unknown e))
     end,
     tr ++ [EvList (if JS.truthy_opt (o_symbol options)
                    then Some (StorageService.getSymbolPrefix
                                 (default EmptyString (o_symbol options)))
                    else None)
                   (or_default_num (o_limit options) 20)
                   (o_cursor options)]).
Proof.
  unfold ImageService.getImageList, StorageService.listChartImages,
    R2Client.listObjects, try_catch, bind, emit, lift, ret, throw.
  rewrite image_list_limit. cbn [lr_objects lr_truncated lr_cursor].
  destruct (StorageService.toListedImages customDomain (bl_objects page));
    reflexivity.
Qed.

(** X16. One page of [getImageList]: exactly one list call, with the
    symbol's prefix and a page size that defaults to 20; the result has one
    image per listed object (the same file names, reordered only by a
    sort), hasMore as the bucket says, and a next cursor only when hasMore
    holds; the only failure is an ImageListError. *)
Theorem getImageList_page :
  forall (customDomain : string) (page : BucketListResult)
         (options : ImageListOptions) (tr tr' : list Event) (r : Result ImageList),
    ImageService.getImageList customDomain (Some page) options tr = (r, tr') ->
    (exists prefix,
        tr' = tr ++ [EvList prefix (or_default_num (o_limit options) 20)
                            (o_cursor options)])
    /\ match r with
       | Ok list =>
           hasMore list = bl_truncated page
           /\ (nextCursor list <> None -> hasMore list = true)
           /\ Permutation (map img_fileName (images list))
                          (map key (bl_objects page))
           /\ (o_sortBy options = None ->
               map img_fileName (images list) = map key (bl_objects page))
       | Throw e => exists m, e = ThrownError ImageListError m
       end.
Proof.
  intros customDomain page options tr tr' r Hrun.
  rewrite getImageList_run in Hrun. injection Hrun as <- <-.
  split; [eauto |].
  destruct (StorageService.toListedImages customDomain (bl_objects page))
    as [listed | e] eqn:Hl; [| eauto].
  destruct (toListedImages_views _ _ _ Hl) as (Hnames & _ & _).
  cbn [hasMore nextCursor images].
  assert (Hview : map img_fileName (map ImageService.toImageDetails listed)
                  = map key (bl_objects page))
    by (rewrite <- Hnames, List.map_map; reflexivity).
  split; [reflexivity |]. split; [destruct (bl_truncated page); congruence |].
  split.
  - rewrite <- Hview. apply Permutation_map.
    unfold ImageService.applySort. destruct (o_sortBy options); [| reflexivity].
    apply array_sort_perm.
  - intros ->. exact Hview.
Qed.

Lemma getImageList_page_witness :
  exists prefix,
    snd (ImageService.getImageList "cdn.example.com"
           (Some {| bl_objects := [ Samples.uploadedDaysAgo "charts/old.png" 31;
                                    Samples.uploadedDaysAgo "charts/new.png" 1 ];
                    bl_truncated := false; bl_cursor := None |})
           {| o_symbol := None; o_limit := None; o_cursor := None;
              o_sortBy := Some BySize; o_sortOrder := None |} [])
    = [EvList prefix 20 None].
Proof.
  exact (proj1 (getImageList_page "cdn.example.com"
                  {| bl_objects := [ Samples.uploadedDaysAgo "charts/old.png" 31;
                                     Samples.uploadedDaysAgo "charts/new.png" 1 ];
                     bl_truncated := false; bl_cursor := None |}
                  {| o_symbol := None; o_limit := None; o_cursor := None;
                     o_sortBy := Some BySize; o_sortOrder := None |}
                  [] _ _ eq_refl)).
Defined.

(** The loop of [getImageStatistics] over a sequence of pages collects the
    views of all objects, in order. *)
Lemma collectImages_run customDomain symbol pages :
  pageSequence pages = true ->
  forall listed cursor allImages tr,
    StorageService.toListedImages customDomain (storedObjects pages) = Ok listed ->
    ImageService.collectImages customDomain pages symbol cursor allImages tr
    = (Ok (allImages ++ map ImageService.toImageDetails listed),
       tr ++ statisticsCalls
               (if JS.truthy_opt symbol
                then Some (StorageService.getSymbolPrefix (default EmptyString symbol))
                else None)
               pages cursor).
Proof.
  induction pages as [| page later IH]; [discriminate |].
  intros Hseq listed cursor allImages tr Hlisted.
  change (storedObjects (page :: later))
    with (bl_objects page ++ storedObjects later) in Hlisted.
  destruct (toListedImages_app_inv _ _ _ _ Hlisted) as (la & lb & Ha & Hb & ->).
  cbn [ImageService.collectImages statisticsCalls]. unfold bind at 1.
  rewrite getImageList_run, Ha.
  cbn [images nextCursor o_symbol o_limit o_cursor o_sortBy o_sortOrder
       or_default_num Z.eqb ImageService.applySort].
  rewrite passed_cursor_truthy.
  destruct later as [| next later'].
  - cbn [pageSequence] in Hseq. apply negb_true_iff in Hseq. rewrite Hseq.
    cbn in Hb. injection Hb as <-. unfold ret. cbn [statisticsCalls].
    now rewrite app_nil_r.
  - change (pageSequence (page :: next :: later'))
      with (hasNextPage page && pageSequence (next :: later')) in Hseq.
    apply andb_true_iff in Hseq as [Hnext Hseq].
    rewrite Hnext, (hasNextPage_cursor _ Hnext).
    rewrite (IH Hseq lb _ _ _ Hb).
    rewrite List.map_app, <- !app_assoc. reflexivity.
Qed.

Lemma fold_left_sizes (l : list ImageDetails) acc :
  fold_left (fun sum img => sum + img_size img) l acc
  = acc + sumSizes (map img_size l).
Proof.
  revert acc. induction l as [| x l IH]; intros acc; cbn.
  - lia.
  - rewrite IH. unfold sumSizes. lia.
Qed.

Lemma statisticsOf_totals (l : list ImageDetails) :
  totalImages (ImageService.statisticsOf l) = Z.of_nat (List.length l)
  /\ totalSize (ImageService.statisticsOf l) = sumSizes (map img_size l).
Proof.
  unfold ImageService.statisticsOf.
  destruct l as [| x l]; [split; reflexivity |].
  replace (Z.of_nat (List.length (x :: l)) =? 0) with false
    by (symmetry; apply Z.eqb_neq; cbn [List.length]; lia).
  cbn [totalImages totalSize]. split; [reflexivity |].
  now rewrite fold_left_sizes.
Qed.

Lemma statisticsCalls_limits prefix pages cursor :
  listLimits (statisticsCalls prefix pages cursor) = repeat 1000 (List.length pages).
Proof.
  revert cursor. induction pages as [| page later IH]; intros cursor; [reflexivity |].
  cbn [statisticsCalls List.length repeat]. unfold listLimits in *.
  cbn [flat_map app]. now rewrite IH.
Qed.

(** X17. [getImageStatistics] reads the whole matching set, not one page:
    over a store presented as a sequence of pages (all upload dates valid)
    it makes one list call of 1000 per page, and totalImages is the number
    of all listed objects and totalSize the sum of their sizes. *)
Theorem getImageStatistics_totals :
  forall (customDomain : string) (pages : list BucketListResult)
         (symbol : option string) (listed : list ListedImage),
    pageSequence pages = true ->
    StorageService.toListedImages customDomain (storedObjects pages) = Ok listed ->
    exists stats calls,
      run (ImageService.getImageStatistics customDomain pages symbol)
      = (Ok stats, calls)
      /\ listLimits calls = repeat 1000 (List.length pages)
      /\ totalImages stats = Z.of_nat (List.length (storedObjects pages))
      /\ totalSize stats = sumSizes (map size (storedObjects pages)).
Proof.
  intros customDomain pages symbol listed Hseq Hlisted.
  eexists. eexists. split.
  - unfold run, ImageService.getImageStatistics.
    erewrite try_catch_ok; [reflexivity |].
    unfold bind. rewrite (collectImages_run _ _ _ Hseq _ _ _ _ Hlisted).
    reflexivity.
  - destruct (toListedImages_views _ _ _ Hlisted) as (Hnames & Hsizes & _).
    destruct (statisticsOf_totals (map ImageService.toImageDetails listed))
      as (Hn & Hs).
    split; [apply statisticsCalls_limits |]. cbn [app]. split.
    + rewrite Hn, List.length_map.
      rewrite <- (List.length_map li_fileName), Hnames, List.length_map. reflexivity.
    + rewrite Hs, List.map_map, <- Hsizes. reflexivity.
Qed.

Lemma getImageStatistics_totals_witness :
  exists stats calls,
    run (ImageService.getImageStatistics "cdn.example.com" Samples.twoObjects None)
    = (Ok stats, calls)
    /\ listLimits calls = [1000]
    /\ totalImages stats = 2
    /\ totalSize stats = 2000.
Proof.
  exact (getImageStatistics_totals "cdn.example.com" Samples.twoObjects None _
           eq_refl eq_refl).
Defined.







Example statistics_breakdowns_example :
  let stats := ImageService.statisticsOf
                 [ MoreSamples.withMetadata "a" "dark" "1D" 10;
                   Samples.image "b" 20;
                   MoreSamples.withMetadata "c" "dark" "4H" 30;
                   MoreSamples.withMetadata "d" "light" "1D" 41 ] in
  byTheme stats !! "dark"%string = Some (Count 2)
  /\ byTheme stats !! "light"%string = Some (Count 1)
  /\ byInterval stats !! "1D"%string = Some (Count 2)
  /\ byTheme stats !! "blue"%string = None
  /\ totalImages stats = 4 /\ totalSize stats = 101 /\ averageSize stats = 25.
Proof. vm_compute. repeat split. Qed.

(** ** Cleanup, in general *)

(** The delete step of one iteration of the cleanup loop. *)
Lemma cleanup_delete_step (old : list R2ObjectMetadata) count tr :
  (if 0 <? Z.of_nat (List.length old)
   then (R2Client.deleteObjects (map key old) ;;;
         ret (count + Z.of_nat (List.length old)))%M
   else ret count) tr
  = (Ok (count + Z.of_nat (List.length old)),
     tr ++ match old with [] => [] | _ :: _ => [EvDeleteMany (map key old)] end).
Proof.
  destruct old as [| o old'].
  - cbn. unfold ret. now rewrite Z.add_0_r, app_nil_r.
  - cbn [List.length]. rewrite Nat2Z.inj_succ.
    replace (0 <? Z.succ (Z.of_nat (List.length old'))) with true
      by (symmetry; apply Z.ltb_lt; lia).
    reflexivity.
Qed.

(** When every page announces a further one, the loop asks for a page the
    store does not have, and the list call fails. *)
Lemma cleanupLoop_runs_out cutoff pages :
  forallb hasNextPage pages = true ->
  forall cursor count tr,
  exists c,
    StorageService.cleanupLoop (JSDate.ValidDate cutoff) pages cursor count tr
    = (Throw (ThrownError PlainError
                "R2 list operation failed: list: no further page"),
       tr ++ cleanupCalls cutoff pages cursor ++ [EvList None 1000 c]).
Proof.
  induction pages as [| page later IH]; intros Hall cursor count tr.
  - exists cursor. reflexivity.
  - cbn [forallb] in Hall. apply andb_true_iff in Hall as [Hnext Hall].
    cbn [StorageService.cleanupLoop].
    unfold bind at 1. rewrite listObjects_answered.
    cbn [lr_objects lr_cursor or_default_num Z.eqb].
    change (fun obj => JSDate.date_lt (uploaded obj) (JSDate.ValidDate cutoff))
      with (uploadedBefore cutoff).
    rewrite passed_cursor_truthy, Hnext, (hasNextPage_cursor _ Hnext).
    unfold bind at 1. rewrite cleanup_delete_step.
    destruct (IH Hall (bl_cursor page)
                (count + Z.of_nat (List.length
                   (List.filter (uploadedBefore cutoff) (bl_objects page))))
                ((tr ++ [EvList None 1000 cursor])
                 ++ match List.filter (uploadedBefore cutoff) (bl_objects page) with
                    | [] => []
                    | _ :: _ =>
                        [EvDeleteMany
                           (map key (List.filter (uploadedBefore cutoff)
                                       (bl_objects page)))]
                    end)) as [c Hc].
    exists c. rewrite Hc. f_equal. cbn [cleanupCalls].
    rewrite <- !app_assoc. cbn [app]. rewrite <- !app_assoc. reflexivity.
Qed.

(** X19. Cleanup is not atomic: when the bucket answers the given pages,
    each announcing a further one, and rejects the list call that follows,
    [cleanupOldImages] throws a StorageCleanupError and reports no count,
    yet the old objects of all pages read so far have been deleted. *)
Theorem cleanupOldImages_partial_failure :
  forall (w : World) (pages : list BucketListResult) (days t : Z),
    now w = JSDate.ValidDate t ->
    Z.abs (t - days * JSDate.msPerDay) <= JSDate.maxTime ->
    forallb hasNextPage pages = true ->
    exists message calls,
      run (StorageService.cleanupOldImages w pages (Some days))
      = (Throw (ThrownError StorageCleanupError message), calls)
      /\ deletedKeys calls
         = map key (List.filter (uploadedBefore (t - days * JSDate.msPerDay))
                                (storedObjects pages))
      /\ listLimits calls = repeat 1000 (S (List.length pages)).
Proof.
  intros w pages days t Hnow Hrange Hall.
  destruct (cleanupLoop_runs_out (t - days * JSDate.msPerDay) pages Hall None 0 [])
    as [c Hc].
  eexists. eexists. split; [| split].
  - unfold run, StorageService.cleanupOldImages.
    change (default 30 (Some days)) with days.
    rewrite Hnow. unfold JSDate.minusDays, JSDate.TimeClip.
    replace (Z.abs (t - days * JSDate.msPerDay) <=? JSDate.maxTime) with true
      by (symmetry; apply Z.leb_le; exact Hrange).
    erewrite try_catch_throw by exact Hc. reflexivity.
  - cbn [app]. rewrite deletedKeys_app, deletedKeys_cleanupCalls. cbn.
    apply app_nil_r.
  - cbn [app]. unfold listLimits. rewrite List.flat_map_app.
    fold (listLimits (cleanupCalls (t - days * JSDate.msPerDay) pages None)).
    rewrite listLimits_cleanupCalls. cbn.
    change (1000 :: repeat 1000 (List.length pages))
      with (repeat 1000 (S (List.length pages))).
    rewrite <- List.repeat_cons. reflexivity.
Qed.

Lemma cleanupOldImages_partial_failure_witness :
  exists message calls,
    run (StorageService.cleanupOldImages Samples.world MoreSamples.endlessPages
           (Some 30))
    = (Throw (ThrownError StorageCleanupError message), calls)
    /\ deletedKeys calls = ["charts/old.png"%string]
    /\ listLimits calls = [1000; 1000; 1000].
Proof.
  refine (cleanupOldImages_partial_failure Samples.world MoreSamples.endlessPages
            30 1700000000123 eq_refl _ eq_refl).
  vm_compute. discriminate.
Defined.

(** [StorageService.cleanupOldImages] over a sequence of pages, from any
    trace. *)
Lemma storage_cleanup_run w pages days t tr :
  now w = JSDate.ValidDate t ->
  Z.abs (t - days * JSDate.msPerDay) <= JSDate.maxTime ->
  pageSequence pages = true ->
  StorageService.cleanupOldImages w pages (Some days) tr
  = (Ok (Z.of_nat (List.length
           (List.filter (uploadedBefore (t - days * JSDate.msPerDay))
                        (storedObjects pages)))),
     tr ++ cleanupCalls (t - days * JSDate.msPerDay) pages None).
Proof.
  intros Hnow Hrange Hseq. unfold StorageService.cleanupOldImages.
  change (default 30 (Some days)) with days.
  rewrite Hnow. unfold JSDate.minusDays, JSDate.TimeClip.
  replace (Z.abs (t - days * JSDate.msPerDay) <=? JSDate.maxTime) with true
    by (symmetry; apply Z.leb_le; exact Hrange).
  erewrite try_catch_ok by (apply cleanupLoop_run; exact Hseq).
  reflexivity.
Qed.

(** The objects uploaded up to a time are all older than a later cutoff. *)
Lemma uploadedBefore_all cutoff t (objects : list R2ObjectMetadata) :
  t < cutoff ->
  Forall (fun obj => exists u, uploaded obj = JSDate.ValidDate u /\ u <= t) objects ->
  List.filter (uploadedBefore cutoff) objects = objects.
Proof.
  intros Hlater. induction 1 as [| obj rest (u & Hu & Hle) _ IH]; [reflexivity |].
  cbn [List.filter]. unfold uploadedBefore at 1.
  rewrite Hu. cbn [JSDate.date_lt].
  replace (u <? cutoff) with true by (symmetry; apply Z.ltb_lt; lia).
  now rewrite IH.
Qed.

(** X20. POST /image/cleanup, for a body whose olderThanDays is absent or
    an integer number. The days [d] handed to the cleanup are 30 when the
    field is absent or 0 or the body cannot be read, and the given number
    otherwise: the route checks neither sign nor size. With the store
    presented as a sequence of pages, the answer is 200 with the number of
    objects uploaded before now - [d] days as deletedCount, [d] as
    olderThanDays, and the message "Deleted <count> images older than [d]
    days". For a negative [d] the cutoff lies after now, and every object
    uploaded up to now is deleted. *)
Theorem cleanupRoute_days :
  forall (w : World) (env : Bindings) (pages : list BucketListResult)
         (requestBody : Result (option Z)) (tr : list Event) (t : Z),
    let d := or_default_num
               (match requestBody with Ok b => b | Throw _ => None end) 30 in
    let old := List.filter (uploadedBefore (t - d * JSDate.msPerDay))
                           (storedObjects pages) in
    TRADINGVIEW_BUCKET env = true ->
    now w = JSDate.ValidDate t ->
    Z.abs (t - d * JSDate.msPerDay) <= JSDate.maxTime ->
    pageSequence pages = true ->
    MoreRoutes.cleanupRoute w env pages requestBody tr
    = ({| api_status := 200;
          api_body := ApiCleanup (Z.of_nat (List.length old)) d
                        ("Deleted " +:+ pretty (Z.of_nat (List.length old))
                         +:+ " images older than " +:+ pretty d +:+ " days") |},
       tr ++ cleanupCalls (t - d * JSDate.msPerDay) pages None)
    /\ (requestBody = Ok None \/ requestBody = Ok (Some 0)
        \/ (exists e, requestBody = Throw e) -> d = 30)
    /\ (forall n, n <> 0 -> requestBody = Ok (Some n) -> d = n)
    /\ (d < 0 ->
        Forall (fun obj => exists u, uploaded obj = JSDate.ValidDate u /\ u <= t)
               (storedObjects pages) ->
        old = storedObjects pages).
Proof.
  intros w env pages requestBody tr t d old Henv Hnow Hrange Hseq.
  split; [| split; [| split]].
  - unfold MoreRoutes.cleanupRoute. fold d. rewrite Henv. cbn [negb].
    unfold ImageOps.cleanupOldImages.
    change (default 30 (Some d)) with d.
    rewrite (storage_cleanup_run w pages d t tr Hnow Hrange Hseq).
    reflexivity.
  - intros [-> | [-> | [e ->]]]; reflexivity.
  - intros n Hn ->. subst d. cbn.
    destruct (Z.eqb_spec n 0); [contradiction | reflexivity].
  - intros Hneg Hall. subst old.
    apply (uploadedBefore_all _ t); [| exact Hall].
    unfold JSDate.msPerDay. lia.
Qed.

(** Asking for 0 days deletes only what is older than 30 days. *)
Lemma cleanupRoute_days_witness :
  MoreRoutes.cleanupRoute Samples.world Samples.bindings Samples.twoObjects
    (Ok (Some 0)) []
  = ({| api_status := 200;
        api_body := ApiCleanup 1 30 "Deleted 1 images older than 30 days" |},
     [EvList None 1000 None; EvDeleteMany ["charts/old.png"%string]]).
Proof.
  refine (proj1 (cleanupRoute_days Samples.world Samples.bindings Samples.twoObjects
                   (Ok (Some 0)) [] 1700000000123 eq_refl eq_refl _ eq_refl)).
  vm_compute. discriminate.
Defined.

(** Asking for -1 days deletes everything. *)
Example cleanupRoute_negative_days :
  MoreRoutes.cleanupRoute Samples.world Samples.bindings Samples.twoObjects
    (Ok (Some (-1))) []
  = ({| api_status := 200;
        api_body := ApiCleanup 2 (-1) "Deleted 2 images older than -1 days" |},
     [EvList None 1000 None;
      EvDeleteMany ["charts/old.png"%string; "charts/new.png"%string]]).
Proof. reflexivity. Qed.

(** ** Single objects *)

(** X21. DELETE /image/:fileName issues exactly one delete for the name
    and never looks whether the object exists: when the store accepts the
    delete the answer is 200 "Image <name> deleted successfully"; when the
    store rejects it the answer is 500 and the message names every layer
    the error passed ("Failed to delete image: Failed to delete chart image:
    R2 delete operation failed: ..."); without a bucket binding the answer
    is 500 {error} and no delete is issued. *)
Theorem deleteRoute_outcomes :
  forall (env : Bindings) (answer : Result unit) (fileName : string)
         (tr : list Event),
    MoreRoutes.deleteRoute env answer fileName tr
    = if negb (TRADINGVIEW_BUCKET env) then
        ({| api_status := 500; api_body := ApiConfigError "Storage not configured" |},
         tr)
      else
        (match answer with
         | Ok _ =>
             {| api_status := 200;
                api_body := ApiMessage
                  ("Image " +:+ fileName +:+ " deleted successfully") |}
         | Throw e =>
             {| api_status := 500;
                api_body := ApiFailure
                  ("Failed to delete image: Failed to delete chart image: "
                   +:+ "R2 delete operation failed: " +:+ message_or_unknown e) |}
         end,
         tr ++ [EvDelete fileName]).
Proof.
  intros env answer fileName tr. unfold MoreRoutes.deleteRoute.
  destruct (negb (TRADINGVIEW_BUCKET env)); [reflexivity |].
  unfold ImageOps.deleteImage, StorageOps.deleteChartImage,
    R2ClientOps.deleteObject, try_catch, bind, emit, lift, throw.
  destruct answer as [[] | e]; reflexivity.
Qed.

(** X22. [getImageDetails] tells a missing object from a failure: it
    returns null for a key the bucket does not hold and throws an
    ImageDetailsError when the read fails. For an object it finds, the
    public URL is built on the fixed domain your-custom-domain.com, not on
    the configured one that [listChartImages] uses for the same object, and
    the etag is empty. *)
Theorem getImageDetails_outcomes :
  forall (object : BucketObject) (iso customDomain : string),
    JSDate.toISOString (uploaded (bo_meta object)) = Some iso ->
    ImageOps.getImageDetails (Ok (Some object))
    = Done (Some {| img_fileName := key (bo_meta object);
                    img_size := size (bo_meta object);
                    img_uploadedAt := iso;
                    img_publicUrl := "https://your-custom-domain.com/"
                                     +:+ key (bo_meta object);
                    img_metadata := StorageService.parseStorageMetadata
                                      (customMetadata (bo_meta object));
                    img_etag := "" |})
    /\ StorageService.toListedImages customDomain [bo_meta object]
       = Ok [ {| li_fileName := key (bo_meta object);
                 li_publicUrl := "https://" +:+ customDomain +:+ "/"
                                 +:+ key (bo_meta object);
                 li_size := size (bo_meta object);
                 li_uploadedAt := iso;
                 li_metadata := StorageService.parseStorageMetadata
                                  (customMetadata (bo_meta object)) |} ]
    /\ ImageOps.getImageDetails (Ok None) = Done None
    /\ (forall e,
          ImageOps.getImageDetails (Throw e)
          = Failed (ServiceError ImageDetailsError
                      ("Failed to get image details: Failed to get chart image: "
                       +:+ "R2 get operation failed: " +:+ message_or_unknown e))).
Proof.
  intros object iso customDomain Hiso. split; [| split; [| split]].
  - unfold ImageOps.getImageDetails, StorageOps.getChartImage,
      R2ClientOps.getObject, StorageService.isoString.
    cbn [andThen]. rewrite Hiso. reflexivity.
  - cbn [StorageService.toListedImages]. unfold StorageService.isoString.
    rewrite Hiso. reflexivity.
  - reflexivity.
  - intros e. reflexivity.
Qed.

Lemma getImageDetails_outcomes_witness :
  ImageOps.getImageDetails (Ok (Some MoreSamples.storedChart))
  = Done (Some {| img_fileName := "charts/a.png";
                  img_size := 10;
                  img_uploadedAt := "2023-11-14T22:13:20.123Z";
                  img_publicUrl := "https://your-custom-domain.com/charts/a.png";
                  img_metadata := None;
                  img_etag := "" |}).
Proof.
  exact (proj1 (getImageDetails_outcomes MoreSamples.storedChart
                  "2023-11-14T22:13:20.123Z" "cdn.example.com" eq_refl)).
Defined.

(** ** The logger *)

Lemma toUpperCase_idem s : JS.toUpperCase (JS.toUpperCase s) = JS.toUpperCase s.
Proof.
  unfold JS.toUpperCase. induction s as [| c s IH]; [reflexivity |].
  cbn. now rewrite upper_char_idem, IH.
Qed.

(** X23. The level filter of the logger: errors are logged under every
    setting of LOG_LEVEL; a level that is logged carries with it every level
    of higher priority; LOG_LEVEL is read without regard to case and each
    level name selects its level; with LOG_LEVEL unset, empty or not a level
    name the level is INFO, under which DEBUG is dropped and ERROR, WARN,
    LOG and INFO are logged; and under LOG_LEVEL=LOG messages at INFO are
    dropped, since LOG ranks above INFO. *)
Theorem shouldLog_levels :
  (forall env, Logger.shouldLog env Logger.ERROR = true)
  /\ (forall env l1 l2,
        Logger.LOG_LEVEL_PRIORITY l1 <= Logger.LOG_LEVEL_PRIORITY l2 ->
        Logger.shouldLog env l2 = true -> Logger.shouldLog env l1 = true)
  /\ (forall name,
        Logger.getCurrentLogLevel (Some (JS.toUpperCase name))
        = Logger.getCurrentLogLevel (Some name))
  /\ (forall l, Logger.getCurrentLogLevel (Some (Logger.level_name l)) = l)
  /\ (forall env,
        env = None
        \/ (exists name, env = Some name
                         /\ forall l, Logger.level_name l <> JS.toUpperCase name) ->
        Logger.getCurrentLogLevel env = Logger.INFO
        /\ map (Logger.shouldLog env)
               [Logger.ERROR; Logger.WARN; Logger.LOG; Logger.INFO; Logger.DEBUG]
           = [true; true; true; true; false])
  /\ Logger.shouldLog (Some "LOG"%string) Logger.INFO = false.
Proof.
  split; [| split; [| split; [| split; [| split]]]].
  - intros env. unfold Logger.shouldLog.
    destruct (Logger.getCurrentLogLevel env); reflexivity.
  - intros env l1 l2 Hle. unfold Logger.shouldLog.
    intros H%Z.leb_le. apply Z.leb_le. lia.
  - intros name. unfold Logger.getCurrentLogLevel. cbn [fmap option_fmap option_map].
    now rewrite toUpperCase_idem.
  - intros []; reflexivity.
  - intros env Henv.
    assert (Hcur : Logger.getCurrentLogLevel env = Logger.INFO).
    { destruct Henv as [-> | (name & -> & Hno)]; [reflexivity |].
      unfold Logger.getCurrentLogLevel. cbn [fmap option_fmap option_map].
      destruct (JS.truthy (JS.toUpperCase name)); [| reflexivity].
      unfold Logger.levels. cbn [List.find].
      repeat match goal with
             | |- context [String.eqb (Logger.level_name ?l) ?n] =>
                 destruct (String.eqb_spec (Logger.level_name l) n) as [E | _];
                 [exfalso; exact (Hno l E) |]
             end.
      reflexivity. }
    split; [exact Hcur |]. unfold Logger.shouldLog. rewrite Hcur. reflexivity.
  - reflexivity.
Qed.

Lemma shouldLog_levels_witness :
  Logger.getCurrentLogLevel (Some "verbose"%string) = Logger.INFO
  /\ map (Logger.shouldLog (Some "verbose"%string))
         [Logger.ERROR; Logger.WARN; Logger.LOG; Logger.INFO; Logger.DEBUG]
     = [true; true; true; true; false].
Proof.
  apply (proj1 (proj2 (proj2 (proj2 (proj2 shouldLog_levels))))).
  right. exists "verbose"%string. split; [reflexivity |].
  intros []; discriminate.
Defined.

(** ** Exchange symbols and tokens *)

Lemma alnum_plain c :
  JS.is_alnum c = true ->
  JS.char_eqb "-" c = false /\ JS.char_eqb ":" c = false /\ JS.char_eqb "/" c = false.
Proof. destruct c as [[] [] [] [] [] [] [] []]; vm_compute; intuition congruence. Qed.

Lemma remove_first_suffix (base : string) :
  JS.all_chars JS.is_alnum base = true ->
  JS.remove_first "-PERP" (base +:+ "-PERP") = base.
Proof.
  induction base as [| c base IH]; [reflexivity |].
  cbn [JS.all_chars]. intros [Hc Hb]%andb_true_iff. rewrite app_cons.
  destruct (alnum_plain c Hc) as (Hdash & _).
  cbn [JS.remove_first JS.starts_with JS.starts_with_by]. unfold JS.starts_with.
  cbn [JS.starts_with_by]. rewrite Hdash. cbn [andb]. now rewrite (IH Hb).
Qed.

Lemma includes_app_r p (a s : string) :
  JS.includes p s = true -> JS.includes p (a +:+ s) = true.
Proof.
  intros H. induction a as [| c a IH]; [exact H |].
  rewrite app_cons. unfold JS.includes in *. cbn [JS.includes_by].
  rewrite IH. apply orb_true_r.
Qed.

Lemma includes_needs_first_char c p s :
  JS.exists_char (JS.char_eqb c) s = false ->
  JS.includes (String c p) s = false.
Proof.
  unfold JS.includes. induction s as [| x s IH]; [reflexivity |].
  cbn [JS.exists_char JS.includes_by JS.starts_with_by].
  intros [Hx Hs]%orb_false_iff. now rewrite Hx, (IH Hs).
Qed.

Lemma alnum_has_none c s :
  (forall x, JS.is_alnum x = true -> JS.char_eqb c x = false) ->
  JS.all_chars JS.is_alnum s = true -> JS.exists_char (JS.char_eqb c) s = false.
Proof. intros H. now apply all_chars_none. Qed.

Lemma exists_char_app p (a b : string) :
  JS.exists_char p (a +:+ b) = JS.exists_char p a || JS.exists_char p b.
Proof.
  induction a as [| c a IH]; [reflexivity |].
  rewrite app_cons. cbn. now rewrite IH, orb_assoc.
Qed.

Lemma extractToken_of_pair exchange pairPart :
  JS.exists_char (JS.char_eqb ":") exchange = false ->
  JS.exists_char (JS.char_eqb ":") pairPart = false ->
  JS.split_by (JS.char_eqb ":") (exchange +:+ ":" +:+ pairPart) !! 1%nat
  = Some pairPart.
Proof.
  intros He Hp. change (":" +:+ pairPart) with (String ":" pairPart).
  rewrite (split_by_app (JS.char_eqb ":") exchange ":" pairPart He eq_refl),
          (split_by_none _ _ Hp). reflexivity.
Qed.

(** X24. [getExchangeSymbol] and [extractTokenFromSymbol] fit together for
    the exchanges with a pair format of their own: for a non-empty
    alphanumeric base token (and an alphanumeric quote token, USDC when
    omitted), the token extracted from "DRIFT:" + the DRIFT symbol (base +
    "-PERP"), and from "RAYDIUM:" or "JUPITER:" + their symbol (base + "/" +
    quote), is the base token again. *)
Theorem exchange_symbol_round_trip :
  forall (baseToken : string) (quoteToken : option string),
    JS.truthy baseToken = true ->
    JS.all_chars JS.is_alnum baseToken = true ->
    JS.all_chars JS.is_alnum (default "USDC"%string quoteToken) = true ->
    getExchangeSymbol baseToken quoteToken "DRIFT" = baseToken +:+ "-PERP"
    /\ ChartService.extractTokenFromSymbol
         ("DRIFT:" +:+ getExchangeSymbol baseToken quoteToken "DRIFT") = baseToken
    /\ ChartService.extractTokenFromSymbol
         ("RAYDIUM:" +:+ getExchangeSymbol baseToken quoteToken "RAYDIUM") = baseToken
    /\ ChartService.extractTokenFromSymbol
         ("JUPITER:" +:+ getExchangeSymbol baseToken quoteToken "JUPITER") = baseToken.
Proof.
  intros baseToken quoteToken Hne Hbase Hquote.
  set (quote := default "USDC"%string quoteToken) in *.
  assert (Hcolon : forall s, JS.all_chars JS.is_alnum s = true ->
                             JS.exists_char (JS.char_eqb ":") s = false)
    by (intros s; apply alnum_has_none; intros x Hx; apply (alnum_plain x Hx)).
  assert (Hdash : forall s, JS.all_chars JS.is_alnum s = true ->
                            JS.exists_char (JS.char_eqb "-") s = false)
    by (intros s; apply alnum_has_none; intros x Hx; apply (alnum_plain x Hx)).
  assert (Hslash : forall s, JS.all_chars JS.is_alnum s = true ->
                             JS.exists_char (JS.char_eqb "/") s = false)
    by (intros s; apply alnum_has_none; intros x Hx; apply (alnum_plain x Hx)).
  assert (Hperp : ChartService.extractTokenFromSymbol
                    ("DRIFT:" +:+ baseToken +:+ "-PERP") = baseToken).
  { unfold ChartService.extractTokenFromSymbol.
    change ("DRIFT:" +:+ baseToken +:+ "-PERP")
      with ("DRIFT" +:+ ":" +:+ (baseToken +:+ "-PERP")).
    rewrite (extractToken_of_pair "DRIFT" (baseToken +:+ "-PERP") eq_refl)
      by (rewrite exists_char_app, (Hcolon _ Hbase); reflexivity).
    rewrite (truthy_app_l _ _ Hne). cbn [negb].
    rewrite (includes_app_r "-PERP" baseToken "-PERP" eq_refl).
    now apply remove_first_suffix. }
  assert (Hpair : forall exchange,
            JS.exists_char (JS.char_eqb ":") exchange = false ->
            ChartService.extractTokenFromSymbol
              (exchange +:+ ":" +:+ baseToken +:+ "/" +:+ quote) = baseToken).
  { intros exchange Hex. unfold ChartService.extractTokenFromSymbol.
    rewrite (extractToken_of_pair exchange (baseToken +:+ "/" +:+ quote) Hex)
      by (rewrite exists_char_app, (Hcolon _ Hbase);
          change ("/" +:+ quote) with (String "/" quote); cbn;
          apply (Hcolon _ Hquote)).
    rewrite (truthy_app_l _ _ Hne). cbn [negb].
    rewrite includes_needs_first_char
      by (rewrite exists_char_app, (Hdash _ Hbase);
          change ("/" +:+ quote) with (String "/" quote); cbn;
          apply (Hdash _ Hquote)).
    change ("/" +:+ quote) with (String "/" quote).
    rewrite (includes_app_r "/" baseToken (String "/" quote) eq_refl).
    rewrite (split_by_app (JS.char_eqb "/") baseToken "/" quote
               (Hslash _ Hbase) eq_refl).
    cbn [lookup list_lookup or_default]. now rewrite Hne. }
  split; [reflexivity |]. split; [exact Hperp |].
  split; [exact (Hpair "RAYDIUM"%string eq_refl) | exact (Hpair "JUPITER"%string eq_refl)].
Qed.

Lemma exchange_symbol_round_trip_witness :
  ChartService.extractTokenFromSymbol
    ("RAYDIUM:" +:+ getExchangeSymbol "JUP" None "RAYDIUM") = "JUP"%string.
Proof.
  exact (proj1 (proj2 (proj2 (exchange_symbol_round_trip "JUP" None
                                eq_refl eq_refl eq_refl)))).
Defined.

(** ** Advertised intervals *)

Lemma validateRequest_ok_interval request :
  ChartImageClient.validateRequest request = Ok tt ->
  ChartImageClient.isValidInterval (interval request) = true.
Proof.
  unfold ChartImageClient.validateRequest, andThen, throw_if.
  destruct (negb (JS.truthy (symbol request))); [discriminate |].
  destruct (negb (ChartImageClient.request_symbol_pattern (symbol request)));
    [discriminate |].
  destruct (negb (JS.truthy (interval request))); [discriminate |].
  destruct (ChartImageClient.isValidInterval (interval request));
    [reflexivity | discriminate].
Qed.

(** X25. Of the eight intervals [getSupportedIntervals] advertises, only
    1H, 4H, 1D and 1W can lead to a snapshot: a [createSnapshot] that
    succeeds with an advertised interval has one of these four, and with
    the advertised 1m, 5m, 15m or 30m it fails before any provider call. *)
Theorem advertised_intervals_accepted :
  forall (w : World) (request : ChartRequest) (tr tr' : list Event)
         (r : Result ChartGenerationResult),
    In (interval request) getSupportedIntervals ->
    ChartService.createSnapshot w request tr = (r, tr') ->
    (In (interval request) ["1H"; "4H"; "1D"; "1W"]%string
     \/ (In (interval request) ["1m"; "5m"; "15m"; "30m"]%string
         /\ (exists e, r = Throw e) /\ tr' = tr)).
Proof.
  intros w request tr tr' r Hadv Hrun.
  assert (Hbad : ChartImageClient.isValidInterval (interval request) = false ->
                 (exists e, r = Throw e) /\ tr' = tr).
  { intros Hbad.
    destruct (createSnapshot_cases w request tr)
      as [(e & _ & H) | [(m & _ & _ & H) | [_ Hok]]].
    - rewrite H in Hrun. inversion Hrun; subst. eauto.
    - rewrite H in Hrun. inversion Hrun; subst. eauto.
    - apply validateRequest_ok_interval in Hok. congruence. }
  unfold getSupportedIntervals, CHART_INTERVALS in Hadv.
  cbn [map ci_value In] in Hadv.
  destruct Hadv as [H | [H | [H | [H | [H | [H | [H | [H | []]]]]]]]].
  1-4: right; split; [rewrite <- H; cbn; auto 6 | apply Hbad; rewrite <- H; reflexivity].
  all: left; rewrite <- H; cbn; auto 6.
Qed.

Lemma advertised_intervals_accepted_witness :
  let request := {| symbol := "RAYDIUM:SOL/USDC"; interval := "15m";
                    width := 800; height := 600; theme := "dark" |} in
  let run := ChartService.createSnapshot Samples.world request [] in
  In (interval request) getSupportedIntervals
  /\ (In (interval request) ["1H"; "4H"; "1D"; "1W"]%string
      \/ (In (interval request) ["1m"; "5m"; "15m"; "30m"]%string
          /\ (exists e, fst run = Throw e) /\ snd run = [])).
Proof.
  intros request run.
  assert (Hadv : In (interval request) getSupportedIntervals)
    by (right; right; left; reflexivity).
  split; [exact Hadv |].
  exact (advertised_intervals_accepted Samples.world request [] (snd run) (fst run)
           Hadv (surjective_pairing run)).
Defined.

(** ** The pixel budget, end to end *)

(** When [createSnapshot] fails, the handler of POST /image/ answers with
    the response of its catch block. *)
Lemma postImage_snapshot_failure w env body apiKey customDomain tr e tr' :
  ImageRoutes.validateEnvironment env = inr (apiKey, customDomain) ->
  ChartService.createSnapshot w (ImageRoutes.createChartRequest body) tr
  = (Throw e, tr') ->
  ImageRoutes.postImage w env (Ok body) tr
  = (Ok (ImageRoutes.errorResponse e), tr').
Proof.
  intros Henv Hrun.
  assert (Hbody : ImageRoutes.snapshotAndStore w env (Ok body) tr = (Throw e, tr')).
  { rewrite (snapshotAndStore_configured _ _ _ _ _ _ Henv).
    cbv zeta. unfold bind at 1. now rewrite Hrun. }
  unfold ImageRoutes.postImage. rewrite (try_catch_throw _ _ _ _ _ Hbody).
  reflexivity.
Qed.

(** C3 (the divergence). Within the adapter's bounds [100, 2000] a request
    of at most 1600 * 1200 pixels passes the pixel-budget check. From one
    pixel more the check raises the ChartValidationError "Image size is too
    large", and so do the business rules; but the request does not fail
    with a validation error: [createSnapshot] catches the error and throws a
    ChartGenerationError that wraps its message, before any provider call,
    and POST /image/ answers 502 and not 400. For a well-formed symbol that
    is not blocklisted the message is that of the pixel budget. *)
Theorem pixel_budget_overrun_answers_502 :
  forall (w : World) (env : Bindings) (body : ChartSnapshotOptions)
         (apiKey customDomain : string) (tr : list Event),
    let request := ImageRoutes.createChartRequest body in
    ImageRoutes.validateEnvironment env = inr (apiKey, customDomain) ->
    100 <= width request <= 2000 ->
    100 <= height request <= 2000 ->
    (width request * height request <= 1600 * 1200 ->
     ChartService.checkPixelBudget request = Ok tt)
    /\ (width request * height request >= 1600 * 1200 + 1 ->
        ChartService.checkPixelBudget request
        = Throw (ThrownError ChartValidationError
                   "Image size is too large. Maximum pixel count is 1,920,000")
        /\ exists m,
             ChartService.validateBusinessRules request
             = Throw (ThrownError ChartValidationError m)
             /\ (is_Some (ChartImageClient.validateSymbolFormat (symbol request)) ->
                 Constants.isRestrictedSymbol (symbol request) = false ->
                 m = "Image size is too large. Maximum pixel count is 1,920,000"%string)
             /\ ChartService.createSnapshot w request tr
                = (Throw (ThrownError ChartGenerationError
                            ("Chart snapshot creation failed: " +:+ m)), tr)
             /\ ImageRoutes.postImage w env (Ok body) tr
                = (Ok {| status := 502;
                         body := FailureBody
                                   ("Chart snapshot creation failed: " +:+ m) |}, tr)).
Proof.
  intros w env body apiKey customDomain tr request Henv Hw Hh.
  destruct (pixel_budget_check request Hw Hh) as (_ & Hunder & Hover).
  split; [intros Hle; exact (proj1 (Hunder Hle)) |].
  intros Hgt. destruct (Hover Hgt) as (Hcheck & m & Hrules).
  split; [exact Hcheck |]. exists m. split; [exact Hrules |].
  pose proof (createSnapshot_business_failure w request _ tr Hrules) as Hsnap.
  cbn [message_or_unknown] in Hsnap.
  split; [| split; [exact Hsnap |]].
  - intros Hfmt Hres.
    unfold ChartService.validateBusinessRules in Hrules.
    rewrite bool_decide_eq_true_2 in Hrules by exact Hfmt.
    rewrite Hres, Hcheck in Hrules. cbn in Hrules. now injection Hrules as <-.
  - exact (postImage_snapshot_failure w env body apiKey customDomain tr _ tr
             Henv Hsnap).
Qed.

(** 1600 x 1200 is exactly at the budget and passes the check; 1601 x 1200
    is one column over, and POST /image/ answers 502. *)
Lemma pixel_budget_overrun_answers_502_witness :
  ChartService.checkPixelBudget (Samples.request "DRIFT:SOL-PERP" "1D" 1600 1200)
  = Ok tt
  /\ ImageRoutes.postImage Samples.world Samples.bindings
       (Ok {| so_symbol := Some "DRIFT:SOL-PERP"%string; so_interval := None;
              so_width := Some 1601; so_height := Some 1200; so_theme := None |}) []
     = (Ok {| status := 502;
              body := FailureBody
                "Chart snapshot creation failed: Image size is too large. Maximum pixel count is 1,920,000" |},
        []).
Proof.
  split.
  - refine (proj1 (pixel_budget_overrun_answers_502 Samples.world Samples.bindings
                     {| so_symbol := Some "DRIFT:SOL-PERP"%string; so_interval := None;
                        so_width := Some 1600; so_height := Some 1200;
                        so_theme := None |}
                     "key" "cdn.example.com" [] eq_refl _ _) _); cbn; lia.
  - assert (Hw : 100 <= 1601 <= 2000) by lia.
    assert (Hh : 100 <= 1200 <= 2000) by lia.
    assert (Hover : 1601 * 1200 >= 1600 * 1200 + 1) by lia.
    destruct (proj2 (pixel_budget_overrun_answers_502 Samples.world Samples.bindings
                       {| so_symbol := Some "DRIFT:SOL-PERP"%string;
                          so_interval := None;
                          so_width := Some 1601; so_height := Some 1200;
                          so_theme := None |}
                       "key" "cdn.example.com" [] eq_refl Hw Hh) Hover)
      as (_ & m & _ & Hm & _ & Hpost).
    rewrite (Hm ltac:(eexists; reflexivity) eq_refl) in Hpost. exact Hpost.
Defined.

(** ** The metadata of the objects the worker stores *)

(** A request the adapter accepts has a symbol, an interval and a theme. *)
Lemma validateRequest_fields request :
  ChartImageClient.validateRequest request = Ok tt ->
  JS.truthy (symbol request) = true
  /\ JS.truthy (interval request) = true
  /\ JS.truthy (theme request) = true.
Proof.
  unfold ChartImageClient.validateRequest, andThen, throw_if.
  destruct (JS.truthy (symbol request)); [| discriminate]. cbn [negb].
  destruct (negb (ChartImageClient.request_symbol_pattern (symbol request)));
    [discriminate |].
  destruct (JS.truthy (interval request)); [| discriminate]. cbn [negb].
  destruct (negb (ChartImageClient.isValidInterval (interval request)));
    [discriminate |].
  destruct ((width request <? 100) || (width request >? 2000)); [discriminate |].
  destruct ((height request <? 100) || (height request >? 2000)); [discriminate |].
  destruct (JS.array_includes ["light"; "dark"]%string (theme request)) eqn:Ht;
    [| discriminate].
  intros _. repeat split.
  unfold JS.array_includes in Ht. cbn [existsb] in Ht.
  destruct (String.eqb_spec (theme request) "light") as [-> |]; [reflexivity |].
  destruct (String.eqb_spec (theme request) "dark") as [-> |]; [reflexivity |].
  discriminate.
Qed.

(** Every put that POST /image/ issues carries the metadata built from a
    request that the adapter accepted and from the time of generation. *)
Lemma postImage_puts w env requestBody objectKey buffer contentType cacheControl cm :
  In (EvPut objectKey buffer contentType cacheControl cm)
     (snd (run (ImageRoutes.postImage w env requestBody))) ->
  exists body iso,
    requestBody = Ok body
    /\ ChartImageClient.validateRequest (ImageRoutes.createChartRequest body) = Ok tt
    /\ JSDate.toISOString (now w) = Some iso
    /\ StorageService.buildStorageMetadata
         (symbol (ImageRoutes.createChartRequest body))
         {| um_interval := interval (ImageRoutes.createChartRequest body);
            um_theme := theme (ImageRoutes.createChartRequest body);
            um_width := width (ImageRoutes.createChartRequest body);
            um_height := height (ImageRoutes.createChartRequest body);
            um_generatedAt := now w |} = Ok cm.
Proof.
  unfold run. destruct requestBody as [body | e]; [| intros []].
  destruct (ImageRoutes.validateEnvironment env) as [response | [apiKey customDomain]]
    eqn:Henv.
  { unfold ImageRoutes.postImage, ImageRoutes.snapshotAndStore, try_catch.
    rewrite (run_lift_ok _ _ _ _ eq_refl), Henv. intros []. }
  unfold ImageRoutes.postImage, try_catch.
  rewrite (snapshotAndStore_configured _ _ _ _ _ _ Henv). cbv zeta.
  set (request := ImageRoutes.createChartRequest body).
  unfold bind at 1.
  destruct (createSnapshot_cases w request [])
    as [(e0 & _ & H) | [(m & _ & _ & H) | (Hrules & Hreq)]];
    try (rewrite H; intros []).
  rewrite (createSnapshot_validated w request [] Hrules Hreq).
  destruct (fetch_reply w _ _) as [buf ct | | |];
    try (cbn; intros [Hin | []]; discriminate Hin).
  cbn [res_imageBuffer res_metadata md_generatedAt]. unfold bind at 1.
  destruct (JSDate.toISOString (now w)) as [iso |] eqn:Hiso.
  - pose proof (generateFileName_ok (symbol request)
                  {| um_interval := interval request;
                     um_theme := theme request;
                     um_width := width request;
                     um_height := height request;
                     um_generatedAt := now w |} iso Hiso) as Hkey.
    destruct (uploadChartImage_run w customDomain buf _ _ _
                ([] ++ [snapshotCall request]) Hkey) as (cm0 & Hcm0 & Hrun).
    rewrite Hrun. clear Hrun.
    intros Hput. exists body, iso. repeat split; try assumption.
    fold request. rewrite Hcm0. f_equal.
    destruct (put_reply w _ buf) as [[obj |] | e1];
      [destruct (JSDate.toISOString (uploaded obj)) |..];
      unfold bind, ret in Hput; cbn [snd app In] in Hput;
      destruct Hput as [Hin | [Hin | []]];
      try discriminate Hin; now injection Hin.
  - unfold StorageService.uploadChartImage.
    erewrite run_lift_throw
      by (unfold StorageService.generateFileName, StorageService.isoString;
          cbn [um_generatedAt]; rewrite Hiso; reflexivity).
    cbn. intros [Hin | []]. discriminate Hin.
Qed.

(** C8. Every object the worker uploads carries custom metadata with all
    five fields, and [parseStorageMetadata] of that metadata is present and
    returns the five values. This holds of [uploadChartImage] called, as
    POST /image/ calls it, with the fields of a request that the adapter's
    validation accepted (so symbol, interval and theme are not empty), and
    of every put that a run of POST /image/ issues. Conversely
    [parseStorageMetadata] is absent for absent custom metadata and for
    every record in which one of the five fields is missing, and the listed
    view model carries exactly the parsed metadata. *)
Theorem metadata_round_trip :
  (forall (w : World) (customDomain : string) (buffer : list Byte.byte)
          (request : ChartRequest) (generatedAt : JSDate.Date) (iso : string),
      ChartImageClient.validateRequest request = Ok tt ->
      JSDate.toISOString generatedAt = Some iso ->
      exists (objectKey : string) (cm : gmap string string),
        snd (run (StorageService.uploadChartImage w customDomain buffer
                    (symbol request)
                    {| um_interval := interval request;
                       um_theme := theme request;
                       um_width := width request;
                       um_height := height request;
                       um_generatedAt := generatedAt |}))
        = [EvPut objectKey buffer "image/png" "public, max-age=3600" cm]
        /\ Forall (fun field => is_Some (cm !! field)) metadataFields
        /\ StorageService.parseStorageMetadata (Some cm)
           = Some {| sm_symbol := symbol request;
                     sm_interval := interval request;
                     sm_theme := theme request;
                     sm_dimensions := pretty (width request) +:+ "x"
                                      +:+ pretty (height request);
                     sm_generatedAt := iso |})
  /\ (forall (w : World) (env : Bindings)
             (requestBody : Result ChartSnapshotOptions)
             (objectKey : string) (buffer : list Byte.byte)
             (contentType cacheControl : string) (cm : gmap string string),
        In (EvPut objectKey buffer contentType cacheControl cm)
           (snd (run (ImageRoutes.postImage w env requestBody))) ->
        Forall (fun field => is_Some (cm !! field)) metadataFields
        /\ exists body iso,
             requestBody = Ok body
             /\ JSDate.toISOString (now w) = Some iso
             /\ StorageService.parseStorageMetadata (Some cm)
                = Some {| sm_symbol := symbol (ImageRoutes.createChartRequest body);
                          sm_interval := interval (ImageRoutes.createChartRequest body);
                          sm_theme := theme (ImageRoutes.createChartRequest body);
                          sm_dimensions :=
                            pretty (width (ImageRoutes.createChartRequest body))
                            +:+ "x"
                            +:+ pretty (height (ImageRoutes.createChartRequest body));
                          sm_generatedAt := iso |})
  /\ StorageService.parseStorageMetadata None = None
  /\ (forall (cm : gmap string string) (field : string),
        In field metadataFields -> cm !! field = None ->
        StorageService.parseStorageMetadata (Some cm) = None)
  /\ (forall domain objs imgs,
        StorageService.toListedImages domain objs = Ok imgs ->
        map li_metadata imgs
        = map (fun obj => StorageService.parseStorageMetadata (customMetadata obj))
              objs).
Proof.
  split; [| split; [| split; [reflexivity | split]]].
  - intros w customDomain buffer request generatedAt iso Hreq Hiso.
    destruct (validateRequest_fields request Hreq) as (Hsym & Hint & Hth).
    set (metadata := {| um_interval := interval request;
                        um_theme := theme request;
                        um_width := width request;
                        um_height := height request;
                        um_generatedAt := generatedAt |}).
    pose proof (generateFileName_ok (symbol request) metadata iso Hiso) as Hkey.
    destruct (uploadChartImage_key w customDomain buffer _ _ _ [] Hkey)
      as (cm & Hcm & Htr).
    eexists. exists cm. split; [exact Htr |].
    exact (buildStorageMetadata_parses (symbol request) metadata iso cm
             Hiso Hsym Hint Hth Hcm).
  - intros w env requestBody objectKey buffer contentType cacheControl cm Hput.
    destruct (postImage_puts _ _ _ _ _ _ _ _ Hput)
      as (body & iso & -> & Hreq & Hiso & Hcm).
    destruct (validateRequest_fields _ Hreq) as (Hsym & Hint & Hth).
    set (request := ImageRoutes.createChartRequest body) in *.
    destruct (buildStorageMetadata_parses (symbol request)
                {| um_interval := interval request;
                   um_theme := theme request;
                   um_width := width request;
                   um_height := height request;
                   um_generatedAt := now w |} iso cm Hiso Hsym Hint Hth Hcm)
      as (Hfields & Hparse).
    split; [exact Hfields |]. exists body, iso. auto.
  - apply parseStorageMetadata_missing.
  - apply toListedImages_metadata.
Qed.

Lemma metadata_round_trip_witness :
  (exists (objectKey : string) (cm : gmap string string),
      snd (run (StorageService.uploadChartImage Samples.world "cdn.example.com" []
                  "DRIFT:SOL-PERP" Samples.uploadMetadata))
      = [EvPut objectKey [] "image/png" "public, max-age=3600" cm]
      /\ Forall (fun field => is_Some (cm !! field)) metadataFields
      /\ StorageService.parseStorageMetadata (Some cm)
         = Some {| sm_symbol := "DRIFT:SOL-PERP";
                   sm_interval := "1D";
                   sm_theme := "dark";
                   sm_dimensions := "800x600";
                   sm_generatedAt := "2023-11-14T22:13:20.123Z" |})
  /\ (exists (objectKey : string) (cm : gmap string string),
        In (EvPut objectKey [] "image/png" "public, max-age=3600" cm)
           (snd (run (ImageRoutes.postImage Samples.world Samples.bindings
                        (Ok (Samples.bodyWithSymbol "DRIFT:SOL-PERP")))))
        /\ is_Some (StorageService.parseStorageMetadata (Some cm))).
Proof.
  split.
  - exact (proj1 metadata_round_trip Samples.world "cdn.example.com" []
             (Samples.request "DRIFT:SOL-PERP" "1D" 800 600)
             (JSDate.ValidDate 1700000000123)
             "2023-11-14T22:13:20.123Z" eq_refl eq_refl).
  - assert (Hin : exists (objectKey : string) (cm : gmap string string),
               In (EvPut objectKey [] "image/png" "public, max-age=3600" cm)
                  (snd (run (ImageRoutes.postImage Samples.world Samples.bindings
                               (Ok (Samples.bodyWithSymbol "DRIFT:SOL-PERP"))))))
      by (eexists; eexists; right; left; reflexivity).
    destruct Hin as (objectKey & cm & Hin). exists objectKey, cm.
    split; [exact Hin |].
    destruct (proj1 (proj2 metadata_round_trip) _ _ _ _ _ _ _ _ Hin)
      as (_ & body & iso & _ & _ & Hparse).
    rewrite Hparse. eexists. reflexivity.
Defined.

(** ** Sorting by size, as the listing does it *)


